(** * f1api: a shallow embedding of the Express router (f1api.js)

    The development follows the JavaScript source: strings are sequences of
    UTF-16 code units, data are the values [JSON.parse] produces, every
    function that may throw (or, for promises, never settle) lives in the
    [completion] monad, and everything the server asks of its platform
    (Unicode tables, [JSON.parse], the file system, child processes, the
    texts of engine errors) is a field of the [Host] record.

    Scope of the model.
    - Objects are modelled by their own properties.  The handlers read fixed
      data names (full_name, session_key, ...), which no built-in prototype
      defines.  Where a key is computed from data (driverDescriptions[name],
      teamInfoMap[team_name], driverDirectory[number]) the model is exact for
      keys that are not names of [Object.prototype] members.
    - The order of a property list is the insertion order; the reordering of
      integer-like keys by the engine is not modelled (nothing here
      enumerates a directory).
    - Console output and the rendering of a template are outside the model:
      a response is the status, the view name and the locals handed over.
      The [slugify] helper passed to the templates is not a data field and is
      left out of the locals. *)

From Stdlib Require Import List Bool NArith ZArith Lia String Ascii.
From Stdlib Require Import DecimalString DecimalN.
Import ListNotations.

Set Implicit Arguments.
Set Warnings "-register-all".

(* ------------------------------------------------------------------ *)
(** ** Strings *)

(** A JavaScript string: its UTF-16 code units. *)
Definition jsstring := list N.

(** An ASCII literal of the source. *)
Definition lit (s : string) : jsstring :=
  map N_of_ascii (list_ascii_of_string s).

Fixpoint jsstring_eqb (a b : jsstring) : bool :=
  match a, b with
  | [], [] => true
  | x :: a', y :: b' => N.eqb x y && jsstring_eqb a' b'
  | _, _ => false
  end.

Definition hyphen : N := 45.

(** White space and line terminators: what the regular expression class
    [\s] matches and what [String.prototype.trim] removes. *)
Definition is_space (c : N) : bool :=
  ((9 <=? c) && (c <=? 13) || (c =? 32) || (c =? 160) || (c =? 5760)
   || (8192 <=? c) && (c <=? 8202) || (c =? 8232) || (c =? 8233)
   || (c =? 8239) || (c =? 8287) || (c =? 12288) || (c =? 65279))%N.

Definition is_lower_alpha (c : N) : bool := ((97 <=? c) && (c <=? 122))%N.
Definition is_digit (c : N) : bool := ((48 <=? c) && (c <=? 57))%N.
Definition is_hyphen (c : N) : bool := (c =? hyphen)%N.

(** The characters of a slug: [a-z0-9-]. *)
Definition is_slug_char (c : N) : bool :=
  is_lower_alpha c || is_digit c || is_hyphen c.

(** The class [a-z0-9\s-], negated in the first regular expression. *)
Definition is_kept (c : N) : bool :=
  is_lower_alpha c || is_digit c || is_space c || is_hyphen c.

Definition is_ascii (c : N) : bool := (c <? 128)%N.

Definition ascii_lower (c : N) : N :=
  if ((65 <=? c) && (c <=? 90))%N then (c + 32)%N else c.

Fixpoint drop_spaces (s : jsstring) : jsstring :=
  match s with
  | c :: r => if is_space c then drop_spaces r else s
  | [] => []
  end.

(** [String.prototype.trim]. *)
Definition trim (s : jsstring) : jsstring :=
  rev (drop_spaces (rev (drop_spaces s))).

(** [.replace(/[^a-z0-9\s-]/g, '')]. *)
Definition strip_unsafe (s : jsstring) : jsstring := filter is_kept s.

(** [.replace(/\s+/g, '-')]: every maximal run of white space becomes one
    hyphen.  [in_run] tells that the previous unit was white space. *)
Fixpoint hyphenate_from (in_run : bool) (s : jsstring) : jsstring :=
  match s with
  | [] => []
  | c :: r =>
      if is_space c
      then (if in_run then hyphenate_from true r
            else hyphen :: hyphenate_from true r)
      else c :: hyphenate_from false r
  end.

Definition hyphenate_spaces (s : jsstring) : jsstring := hyphenate_from false s.

(** Decimal digits of a natural number, as [String(n)] prints an index or a
    length. *)
Definition decimal_of_N (n : N) : jsstring :=
  match n with
  | N0 => lit "0"
  | _ => lit (NilEmpty.string_of_uint (N.to_uint n))
  end.

Definition decimal_of_Z (z : Z) : jsstring :=
  match z with
  | Z0 => lit "0"
  | Zpos p => decimal_of_N (Npos p)
  | Zneg p => hyphen :: decimal_of_N (Npos p)
  end.

(* ------------------------------------------------------------------ *)
(** ** Values *)

(** A number, by what the program can observe of it: whether it is falsy
    and the text [Number::toString] gives.  A non-zero number is
    represented by that text, which determines the number. *)
Inductive number :=
| NaN
| Zero (negative : bool)
| NonZero (text : jsstring).

(** The values [JSON.parse] builds, and [undefined] for what is absent. *)
Inductive value :=
| VUndefined
| VNull
| VBool (b : bool)
| VNumber (n : number)
| VString (s : jsstring)
| VArray (items : list value)
| VObject (fields : list (jsstring * value)).

(** Why the engine raised a TypeError. *)
Inductive type_error :=
| ReadOfNullish (base : value) (prop : jsstring)
| NotAFunction (base : value) (method : jsstring)
| NoPrimitive.

Inductive error :=
| Error (message : jsstring)
| TypeError (why : type_error)
| SyntaxError (text : jsstring)
| SystemError (path : jsstring).

(** How an evaluation, or a promise, ends: with a value, with an exception
    (a rejection), or never. *)
Inductive completion (A : Type) :=
| Normal (a : A)
| Throw (e : error)
| Never.

Arguments Normal {A} a.
Arguments Throw {A} e.
Arguments Never {A}.

Definition bind {A B} (c : completion A) (k : A -> completion B) : completion B :=
  match c with
  | Normal a => k a
  | Throw e => Throw e
  | Never => Never
  end.

Definition try_catch {A} (c : completion A) (handler : error -> completion A)
  : completion A :=
  match c with
  | Throw e => handler e
  | _ => c
  end.

Declare Scope js_scope.
Delimit Scope js_scope with js.
Notation "x <- c ;; k" := (bind c (fun x => k))
  (at level 61, c at next level, right associativity) : js_scope.
Open Scope js_scope.

(** [ToBoolean]. *)
Definition truthy (v : value) : bool :=
  match v with
  | VUndefined | VNull => false
  | VBool b => b
  | VNumber (NonZero _) => true
  | VNumber _ => false
  | VString s => match s with [] => false | _ => true end
  | VArray _ | VObject _ => true
  end.

Definition nullish (v : value) : bool :=
  match v with
  | VUndefined | VNull => true
  | _ => false
  end.

Definition number_toString (n : number) : jsstring :=
  match n with
  | NaN => lit "NaN"
  | Zero _ => lit "0"
  | NonZero t => t
  end.

Fixpoint lookup {A : Type} (k : jsstring) (fields : list (jsstring * A)) : option A :=
  match fields with
  | [] => None
  | (k', v) :: r => if jsstring_eqb k' k then Some v else lookup k r
  end.

Definition has_own {A : Type} (k : jsstring) (fields : list (jsstring * A)) : bool :=
  match lookup k fields with Some _ => true | None => false end.

(** [ToString], as [String(v)] and a template literal apply it.  An array
    joins its elements with commas, null and undefined elements giving the
    empty text.  A plain object answers "[object Object]" through the
    inherited [toString]; an own [toString] property, which is never
    callable in parsed data, shadows it, and then no primitive is found. *)
Fixpoint ToString (v : value) : completion jsstring :=
  match v with
  | VUndefined => Normal (lit "undefined")
  | VNull => Normal (lit "null")
  | VBool true => Normal (lit "true")
  | VBool false => Normal (lit "false")
  | VNumber n => Normal (number_toString n)
  | VString s => Normal s
  | VArray items =>
      (fix join (xs : list value) : completion jsstring :=
         match xs with
         | [] => Normal []
         | x :: r =>
             a <- (match x with
                   | VUndefined | VNull => Normal []
                   | _ => ToString x
                   end) ;;
             match r with
             | [] => Normal a
             | _ => b <- join r ;; Normal (a ++ lit "," ++ b)
             end
         end) items
  | VObject fields =>
      if has_own (lit "toString") fields
      then Throw (TypeError NoPrimitive)
      else Normal (lit "[object Object]")
  end.

(* ------------------------------------------------------------------ *)
(** ** Literal texts that are not ASCII, as code units *)

(** The not-found message of the driver page (Korean: driver information cannot be found). *)
Definition MSG_DRIVER_NOT_FOUND : jsstring :=
  [46300; 46972; 51060; 48260; 32; 51221; 48372; 47484; 32; 52286; 51012;
   32; 49688; 32; 50630; 49845; 45768; 45796; 46]%N.

(** The default description (Korean: there is no further information on this driver). *)
Definition MSG_NO_DESCRIPTION : jsstring :=
  [51060; 32; 46300; 46972; 51060; 48260; 50640; 32; 45824; 54620; 32;
   52628; 44032; 32; 51221; 48372; 44032; 32; 50630; 49845; 45768; 45796; 46]%N.

(** The error message of the driver page (Korean: loading the driver data failed). *)
Definition MSG_DRIVER_LOAD_FAILED : jsstring :=
  [46300; 46972; 51060; 48260; 32; 45936; 51060; 53552; 47484; 32; 48520;
   47084; 50724; 45716; 32; 45936; 32; 49892; 54056; 54664; 49845; 45768;
   45796; 46]%N.

(** The not-found message of the replay page (Korean: that session cannot be found). *)
Definition MSG_SESSION_NOT_FOUND : jsstring :=
  [54644; 45817; 32; 49464; 49496; 32; 51221; 48372; 47484; 32; 52286;
   51012; 32; 49688; 32; 50630; 49845; 45768; 45796; 46]%N.

(** The error message of the replay page (Korean: error while loading the
    page). *)
Definition MSG_PAGE_LOAD_ERROR : jsstring :=
  [54168; 51060; 51648; 32; 47196; 46300; 32; 51473; 32; 50724; 47448;
   32; 48156; 49373]%N.

(** The message for a missing get_driver_locations.py (its name, then Korean: the script cannot be found). *)
Definition MSG_SCRIPT_MISSING : jsstring :=
  [103; 101; 116; 95; 100; 114; 105; 118; 101; 114; 95; 108; 111; 99; 97;
   116; 105; 111; 110; 115; 46; 112; 121; 32; 49828; 53356; 47549; 53944;
   47484; 32; 52286; 51012; 32; 49688; 32; 50630; 49845; 45768; 45796; 46]%N.

(** Korean: server error while querying the data. *)
Definition MSG_QUERY_FAILED : jsstring :=
  [45936; 51060; 53552; 32; 51312; 54924; 32; 51473; 32; 49436; 48260; 32;
   50724; 47448; 32; 48156; 49373]%N.

(** Korean: parsing the result of the script failed. *)
Definition MSG_PARSE_FAILED : jsstring :=
  [49828; 53356; 47549; 53944; 32; 44208; 44284; 32; 54028; 49905; 32;
   49892; 54056]%N.

(* ------------------------------------------------------------------ *)
(** ** The platform *)

(** What [spawn] does: it raises an error of its own (arguments it
    refuses), or it starts a child.  Of a child, the chunks it writes, in
    order, and how it closes ([Some code], where the code is [None] when a
    signal ended it), or [None] when no close event ever comes.  A chunk
    carries the text that [data.toString()] gives in its listener: for the
    standard error that is the decoding of that one buffer on its own. *)
Inductive chunk :=
| Stdout (data : jsstring)
| Stderr (data : jsstring).

Inductive child :=
| SpawnThrows (e : error)
| Child (output : list chunk) (closes : option (option Z)).

Record Host := {
  (** [__dirname]. *)
  dirname : jsstring;
  (** [toLowerCase] on a string with a unit outside ASCII. *)
  unicode_toLowerCase : jsstring -> jsstring;
  (** [JSON.parse]; [None] is its SyntaxError. *)
  JSON_parse : jsstring -> option value;
  (** [new Date(text).getFullYear()] and [new Date(n).getFullYear()]. *)
  Date_year_of_text : jsstring -> number;
  Date_year_of_number : number -> number;
  (** The message of an error the engine raised. *)
  type_error_message : type_error -> jsstring;
  syntax_error_message : jsstring -> jsstring;
  system_error_message : jsstring -> jsstring;
  (** [path.join]. *)
  path_join : list jsstring -> jsstring;
  (** [fs.readFileSync(p, 'utf8')]; [None] is any failure to read. *)
  readFileSync : jsstring -> option jsstring;
  existsSync : jsstring -> bool;
  (** [spawn('python', argv)]. *)
  spawn : list value -> child
}.

Section Server.

Variable host : Host.

(** [String.prototype.toLowerCase]. *)
Definition toLowerCase (s : jsstring) : jsstring :=
  if forallb is_ascii s then map ascii_lower s
  else unicode_toLowerCase host s.

(** [.toLowerCase().trim().replace(...).replace(...)], the text pipeline of
    [slugify]. *)
Definition slug_of_text (s : jsstring) : jsstring :=
  hyphenate_spaces (strip_unsafe (trim (toLowerCase s))).

(** function slugify(text) *)
Definition slugify (text : value) : completion jsstring :=
  s <- ToString (if truthy text then text else VString []) ;;
  Normal (slug_of_text s).

(** [e.message]. *)
Definition message_of (e : error) : jsstring :=
  match e with
  | Error m => m
  | TypeError why => type_error_message host why
  | SyntaxError text => syntax_error_message host text
  | SystemError path => system_error_message host path
  end.

(** *** Property access *)

Fixpoint indexed_from (i : N) (items : list value) : list (jsstring * value) :=
  match items with
  | [] => []
  | x :: r => (decimal_of_N i, x) :: indexed_from (N.succ i) r
  end.

(** The own enumerable properties, which an object spread copies. *)
Definition own_properties (v : value) : list (jsstring * value) :=
  match v with
  | VObject fields => fields
  | VArray items => indexed_from 0 items
  | VString s => indexed_from 0 (map (fun c => VString [c]) s)
  | _ => []
  end.

Definition length_of (v : value) : option N :=
  match v with
  | VArray items => Some (N.of_nat (List.length items))
  | VString s => Some (N.of_nat (List.length s))
  | _ => None
  end.

Definition number_of_N (n : N) : number :=
  match n with
  | N0 => Zero false
  | _ => NonZero (decimal_of_N n)
  end.

(** [v[k]] on a value that is neither null nor undefined. *)
Definition read (v : value) (k : jsstring) : value :=
  match lookup k (own_properties v) with
  | Some x => x
  | None =>
      match length_of v with
      | Some n => if jsstring_eqb k (lit "length") then VNumber (number_of_N n)
                  else VUndefined
      | None => VUndefined
      end
  end.

(** [v.k] and [v[k]]. *)
Definition get (v : value) (k : jsstring) : completion value :=
  if nullish v then Throw (TypeError (ReadOfNullish v k))
  else Normal (read v k).

(** [v?.k]. *)
Definition get_opt (v : value) (k : jsstring) : value :=
  if nullish v then VUndefined else read v k.

(** [o.k = x] on an object literal under construction. *)
Fixpoint assign (k : jsstring) (x : value) (fields : list (jsstring * value))
  : list (jsstring * value) :=
  match fields with
  | [] => [(k, x)]
  | (k', y) :: r =>
      if jsstring_eqb k' k then (k', x) :: r else (k', y) :: assign k x r
  end.

(** [v === s] for a string [s]. *)
Definition equals_text (v : value) (s : jsstring) : bool :=
  match v with
  | VString t => jsstring_eqb t s
  | _ => false
  end.

(** [a === b] where [b] is a string or undefined. *)
Definition strict_equals (a b : value) : bool :=
  match b with
  | VString s => equals_text a s
  | VUndefined => match a with VUndefined => true | _ => false end
  | _ => false
  end.

(** *** Arrays *)

(** The loop of [Array.prototype.find]: the first element the callback
    accepts, else undefined. *)
Fixpoint find_in (pred : value -> completion bool) (items : list value)
  : completion value :=
  match items with
  | [] => Normal VUndefined
  | x :: r => b <- pred x ;; if b then Normal x else find_in pred r
  end.

(** [v.find(pred)]: only an array has the method. *)
Definition find (v : value) (pred : value -> completion bool) : completion value :=
  match v with
  | VArray items => find_in pred items
  | VUndefined | VNull => Throw (TypeError (ReadOfNullish v (lit "find")))
  | _ => Throw (TypeError (NotAFunction v (lit "find")))
  end.

(** [v?.find(pred)]. *)
Definition find_opt (v : value) (pred : value -> completion bool) : completion value :=
  if nullish v then Normal VUndefined else find v pred.

(** *** Paths *)

Definition ROOT_DIR : jsstring := dirname host.
Definition PUBLIC_DIR : jsstring := path_join host [ROOT_DIR; lit "public"].
Definition DATA_DIR : jsstring := path_join host [PUBLIC_DIR; lit "data"].

(** *** Helpers *)

Definition parse (text : jsstring) : completion value :=
  match JSON_parse host text with
  | Some v => Normal v
  | None => Throw (SyntaxError text)
  end.

Definition read_file (filePath : jsstring) : completion jsstring :=
  match readFileSync host filePath with
  | Some text => Normal text
  | None => Throw (SystemError filePath)
  end.

(** async function readJSON(filePath) *)
Definition readJSON (filePath : jsstring) : completion value :=
  try_catch (text <- read_file filePath ;; parse text)
            (fun _ => Normal VNull).

(** What the two data listeners of [runPython] have gathered. *)
Record capture := { stdout : jsstring; stderr : jsstring }.

Definition on_data (c : capture) (d : chunk) : capture :=
  match d with
  | Stdout data => {| stdout := stdout c ++ data; stderr := stderr c |}
  | Stderr data => {| stdout := stdout c; stderr := stderr c ++ data |}
  end.

Definition code_text (code : option Z) : jsstring :=
  match code with
  | Some z => decimal_of_Z z
  | None => lit "null"
  end.

(** The close listener of [runPython]. *)
Definition on_close (c : capture) (code : option Z) : completion jsstring :=
  match code with
  | Some 0%Z => Normal (stdout c)
  | _ =>
      let errorMsg :=
        match trim (stderr c) with
        | [] => lit "Python script exited with code " ++ code_text code
        | t => t
        end in
      Throw (Error errorMsg)
  end.

(** function runPython(scriptPath, args = []) *)
Definition runPython (scriptPath : jsstring) (args : list value)
  : completion jsstring :=
  if negb (existsSync host scriptPath)
  then Throw (Error (lit "Python script not found: " ++ scriptPath))
  else
    match spawn host ([VString (lit "-X"); VString (lit "utf8");
                       VString scriptPath] ++ args) with
    | SpawnThrows e => Throw e
    | Child output closes =>
        match closes with
        | Some code =>
            on_close (fold_left on_data output {| stdout := []; stderr := [] |})
                     code
        | None => Never
        end
    end.

(** [new Date(v).getFullYear()]: an object is first turned into its
    primitive, a text; a text is parsed, anything else is taken as a number
    of milliseconds. *)
Definition Date_getFullYear (v : value) : completion number :=
  match v with
  | VString s => Normal (Date_year_of_text host s)
  | VNumber n => Normal (Date_year_of_number host n)
  | VBool true => Normal (Date_year_of_number host (NonZero (lit "1")))
  | VBool false | VNull => Normal (Date_year_of_number host (Zero false))
  | VUndefined => Normal (Date_year_of_number host NaN)
  | VArray _ | VObject _ => s <- ToString v ;; Normal (Date_year_of_text host s)
  end.

(** The statements that both [fetchRaceTimingFromPython] and the locations
    handler open with:
    [let year = sessionInfo.session_year;
     if ((!year || year === 'undefined') && sessionInfo.date_start)
       year = new Date(sessionInfo.date_start).getFullYear();] *)
Definition year_of_session (sessionInfo : value) : completion value :=
  year <- get sessionInfo (lit "session_year") ;;
  if negb (truthy year) || equals_text year (lit "undefined")
  then
    date_start <- get sessionInfo (lit "date_start") ;;
    if truthy date_start
    then y <- Date_getFullYear date_start ;; Normal (VNumber y)
    else Normal year
  else Normal year.

(** The head of [fetchRaceTimingFromPython], from the test of the session
    to [const args = [...]]. *)
Definition race_timing_args (sessionInfo : value) : completion (list value) :=
  if negb (truthy sessionInfo)
  then Throw (Error (lit "Session info cannot be null."))
  else
    year <- year_of_session sessionInfo ;;
    eventName <- get sessionInfo (lit "meeting_name") ;;
    sessionName <- get sessionInfo (lit "session_name") ;;
    if negb (truthy year) || negb (truthy eventName) || negb (truthy sessionName)
    then
      y <- ToString year ;;
      e <- ToString eventName ;;
      s <- ToString sessionName ;;
      Throw (Error (lit "Incomplete session data from schedule.json: Year='"
                      ++ y ++ lit "', Event='" ++ e
                      ++ lit "', Session='" ++ s ++ lit "'"))
    else
      yearText <- ToString year ;;
      Normal [VString (lit "race_times");
              VString (lit "--year"); VString yearText;
              VString (lit "--event"); eventName;
              VString (lit "--session"); sessionName].

(** async function fetchRaceTimingFromPython(sessionInfo) *)
Definition fetchRaceTimingFromPython (sessionInfo : value) : completion value :=
  let scriptPath := path_join host [ROOT_DIR; lit "get_replay_data.py"] in
  try_catch
    (args <- race_timing_args sessionInfo ;;
     rawOutput <- runPython scriptPath args ;;
     parsed <- parse rawOutput ;;
     let err := get_opt parsed (lit "error") in
     if truthy err
     then m <- ToString err ;; Throw (Error m)
     else Normal parsed)
    (fun error => Throw error).

(** *** Responses *)

Inductive response :=
| Render (status : Z) (view : jsstring) (locals : list (jsstring * value))
| Json (status : Z) (body : value).

Definition status_of (r : response) : Z :=
  match r with
  | Render status _ _ => status
  | Json status _ => status
  end.

Definition json_error (status : Z) (message : jsstring) : response :=
  Json status (VObject [(lit "error", VString message)]).

(** *** GET /drivers/:driverId *)

Definition driver_not_found : response :=
  Render 404 (lit "driver-detail")
    [(lit "info", VNull); (lit "description", VNull);
     (lit "season", VObject []); (lit "career", VObject []);
     (lit "error", VString MSG_DRIVER_NOT_FOUND);
     (lit "currentPage", VString (lit "drivers"))].

Definition driver_load_failed : response :=
  Render 500 (lit "driver-detail")
    [(lit "info", VNull); (lit "description", VNull);
     (lit "season", VObject []); (lit "career", VObject []);
     (lit "error", VString MSG_DRIVER_LOAD_FAILED);
     (lit "currentPage", VString (lit "drivers"))].

(** The callback [d => slugify(d.full_name) === driverId]. *)
Definition driver_matches (driverId : jsstring) (d : value) : completion bool :=
  full_name <- get d (lit "full_name") ;;
  slug <- slugify full_name ;;
  Normal (jsstring_eqb slug driverId).

(** [x || fallback]. *)
Definition or_else (x fallback : value) : value :=
  if truthy x then x else fallback.

(** The handler after a driver was found. *)
Definition driver_detail_page (driver : value) : completion response :=
  driverDescriptions <- readJSON (path_join host [DATA_DIR; lit "driver_descriptions.json"]) ;;
  full_name <- get driver (lit "full_name") ;;
  key <- ToString full_name ;;
  entry <- get driverDescriptions key ;;
  let description := or_else entry (VString MSG_NO_DESCRIPTION) in
  slug <- slugify full_name ;;
  driverStats <- readJSON (path_join host [DATA_DIR; lit "stats"; slug ++ lit ".json"]) ;;
  let seasonStats := or_else (get_opt driverStats (lit "season")) (VObject []) in
  let careerStats := or_else (get_opt driverStats (lit "career")) (VObject []) in
  Normal (Render 200 (lit "driver-detail")
            [(lit "info", driver); (lit "description", description);
             (lit "season", seasonStats); (lit "career", careerStats);
             (lit "error", VNull);
             (lit "currentPage", VString (lit "drivers"))]).

(** router.get('/drivers/:driverId', ...) *)
Definition driver_detail_handler (driverId : jsstring) : completion response :=
  try_catch
    (drivers <- readJSON (path_join host [DATA_DIR; lit "drivers.json"]) ;;
     driver <- find drivers (driver_matches driverId) ;;
     if negb (truthy driver)
     then Normal driver_not_found
     else driver_detail_page driver)
    (fun _ => Normal driver_load_failed).

(** *** GET /replays/:session_key *)

(** The callback [s => String(s.session_key) === session_key]. *)
Definition session_matches (session_key : jsstring) (s : value) : completion bool :=
  k <- get s (lit "session_key") ;;
  text <- ToString k ;;
  Normal (jsstring_eqb text session_key).

(** [sessionInfo.circuit_short_name?.toLowerCase().replace(/\s+/g, '-')]:
    only a string has the method. *)
Definition circuit_name (sessionInfo : value) : completion value :=
  short_name <- get sessionInfo (lit "circuit_short_name") ;;
  match short_name with
  | VUndefined | VNull => Normal VUndefined
  | VString s => Normal (VString (hyphenate_spaces (toLowerCase s)))
  | _ => Throw (TypeError (NotAFunction short_name (lit "toLowerCase")))
  end.

(** The callback [l => l.circuit_short_name === circuitName]. *)
Definition layout_matches (circuitName : value) (l : value) : completion bool :=
  c <- get l (lit "circuit_short_name") ;;
  Normal (strict_equals c circuitName).

Definition possibleExtensions : list jsstring :=
  [lit "avif"; lit "png"; lit "webp"; lit "jpg"; lit "jpeg"].

(** The loop over [possibleExtensions], which stops at the first image
    that exists. *)
Fixpoint first_image (circuitName : jsstring) (extensions : list jsstring) : value :=
  match extensions with
  | [] => VNull
  | ext :: rest =>
      let imageName := circuitName ++ lit "." ++ ext in
      let imagePath :=
        path_join host [PUBLIC_DIR; lit "images"; lit "tracks"; imageName] in
      if existsSync host imagePath
      then VString (lit "/images/tracks/" ++ imageName)
      else first_image circuitName rest
  end.

(** [let trackImageUrl = null; if (circuitName) { for (...) {...} }] *)
Definition trackImageUrl (circuitName : value) : value :=
  match circuitName with
  | VString (c :: s) => first_image (c :: s) possibleExtensions
  | _ => VNull
  end.

(** [f1Teams.reduce((acc, team) => { acc[team.name] = { color:
    team.teamColor }; return acc; }, {})] *)
Fixpoint team_info_from (teams : list value) (acc : list (jsstring * value))
  : completion (list (jsstring * value)) :=
  match teams with
  | [] => Normal acc
  | team :: rest =>
      name <- get team (lit "name") ;;
      key <- ToString name ;;
      colour <- get team (lit "teamColor") ;;
      team_info_from rest (assign key (VObject [(lit "color", colour)]) acc)
  end.

Definition teamInfoMap (f1Teams : value) : completion (list (jsstring * value)) :=
  match f1Teams with
  | VArray teams => team_info_from teams []
  | _ => Throw (TypeError (NotAFunction f1Teams (lit "reduce")))
  end.

(** [teamInfoMap[key]?.color || '#FFFFFF'] *)
Definition team_colour (info : list (jsstring * value)) (key : jsstring) : value :=
  let entry := match lookup key info with Some e => e | None => VUndefined end in
  or_else (get_opt entry (lit "color")) (VString (lit "#FFFFFF")).

(** [drivers.forEach(d => { if (d.number) driverDirectory[d.number] =
    { full_name: d.full_name, team_colour: ... }; })] *)
Fixpoint directory_from (info : list (jsstring * value)) (drivers : list value)
    (directory : list (jsstring * value)) : completion (list (jsstring * value)) :=
  match drivers with
  | [] => Normal directory
  | d :: rest =>
      number <- get d (lit "number") ;;
      if truthy number
      then
        full_name <- get d (lit "full_name") ;;
        team_name <- get d (lit "team_name") ;;
        team_key <- ToString team_name ;;
        key <- ToString number ;;
        directory_from info rest
          (assign key
             (VObject [(lit "full_name", full_name);
                       (lit "team_colour", team_colour info team_key)])
             directory)
      else directory_from info rest directory
  end.

(** [const driverDirectory = {}; if (drivers && f1Teams) { ... }] *)
Definition driverDirectory (drivers f1Teams : value) : completion value :=
  if truthy drivers && truthy f1Teams
  then
    info <- teamInfoMap f1Teams ;;
    match drivers with
    | VArray ds => dir <- directory_from info ds [] ;; Normal (VObject dir)
    | _ => Throw (TypeError (NotAFunction drivers (lit "forEach")))
    end
  else Normal (VObject []).

(** [if (raceTiming?.from) finalSessionInfo.to = raceTiming.from;] *)
Definition merge_timing (raceTiming : value) (from to : jsstring)
    (info : list (jsstring * value)) : list (jsstring * value) :=
  let x := get_opt raceTiming from in
  if truthy x then assign to x info else info.

(** [{ ...sessionInfo, trackImageUrl, layout }], then the three fields of
    the race timing. *)
Definition finalSessionInfo (sessionInfo image layout raceTiming : value) : value :=
  let base :=
    assign (lit "layout") layout
      (assign (lit "trackImageUrl") image (own_properties sessionInfo)) in
  VObject
    (merge_timing raceTiming (lit "all_messages") (lit "race_control_messages")
       (merge_timing raceTiming (lit "race_end_date") (lit "race_end_date")
          (merge_timing raceTiming (lit "race_start_date") (lit "date_start")
             base))).

Definition session_not_found : response :=
  Render 404 (lit "race-tracker") [(lit "error", VString MSG_SESSION_NOT_FOUND)].

Definition replay_failed (session_key : jsstring) (e : error) : response :=
  Render 500 (lit "race-tracker")
    [(lit "session_key", VString session_key);
     (lit "driverDirectory", VObject []);
     (lit "sessionInfo", VNull);
     (lit "error", VString (MSG_PAGE_LOAD_ERROR ++ lit ": " ++ message_of e));
     (lit "currentPage", VString (lit "schedule"))].

(** The handler after the session was found: from the circuit name to the
    rendering of the page. *)
Definition replay_page (session_key : jsstring) (layouts sessionInfo : value)
  : completion response :=
  circuitName <- circuit_name sessionInfo ;;
  layout <- find_opt layouts (layout_matches circuitName) ;;
  let image := trackImageUrl circuitName in
  drivers <- readJSON (path_join host [DATA_DIR; lit "drivers.json"]) ;;
  f1Teams <- readJSON (path_join host [ROOT_DIR; lit "f1_team.json"]) ;;
  raceTiming <- fetchRaceTimingFromPython sessionInfo ;;
  directory <- driverDirectory drivers f1Teams ;;
  Normal (Render 200 (lit "race-tracker")
            [(lit "session_key", VString session_key);
             (lit "driverDirectory", directory);
             (lit "sessionInfo", finalSessionInfo sessionInfo image layout raceTiming);
             (lit "currentPage", VString (lit "schedule"));
             (lit "error", VNull)]).

(** router.get('/replays/:session_key', ...) *)
Definition replay_handler (session_key : jsstring) : completion response :=
  try_catch
    (schedule <- readJSON (path_join host [DATA_DIR; lit "schedule.json"]) ;;
     layouts <- readJSON (path_join host [DATA_DIR; lit "track_layouts.json"]) ;;
     found <- find_opt schedule (session_matches session_key) ;;
     let sessionInfo := or_else found VNull in
     if negb (truthy sessionInfo)
     then Normal session_not_found
     else replay_page session_key layouts sessionInfo)
    (fun e => Normal (replay_failed session_key e)).

(** *** GET /api/locations/:session_key/:startTime/:endTime *)

(** router.get('/api/locations/:session_key/:startTime/:endTime', ...) of
    f1api.js *)
Definition locations_handler (session_key startTime endTime : jsstring)
  : completion response :=
  try_catch
    (schedule <- readJSON (path_join host [DATA_DIR; lit "schedule.json"]) ;;
     sessionInfo <- find_opt schedule (session_matches session_key) ;;
     if negb (truthy sessionInfo)
     then Normal (json_error 404 (lit "Session info not found for the given key."))
     else
       year <- year_of_session sessionInfo ;;
       eventName <- get sessionInfo (lit "meeting_name") ;;
       sessionName <- get sessionInfo (lit "session_name") ;;
       if negb (truthy year) || negb (truthy eventName) || negb (truthy sessionName)
       then Normal (json_error 500 (lit "Incomplete session data to fetch locations."))
       else
         let scriptPath := path_join host [ROOT_DIR; lit "get_driver_locations.py"] in
         if negb (existsSync host scriptPath)
         then Normal (json_error 500 MSG_SCRIPT_MISSING)
         else
           yearText <- ToString year ;;
           output <- runPython scriptPath
                       [VString yearText; eventName; sessionName;
                        VString startTime; VString endTime] ;;
           body <- parse output ;;
           Normal (Json 200 body))
    (fun error =>
       Normal (json_error 500
                 (lit "Internal server error while fetching locations: "
                    ++ message_of error))).

End Server.

(* ------------------------------------------------------------------ *)
(** ** The router module (the second source file)

    The same helpers and the same handlers for the drivers; its replay page
    asks for no race timing, and its locations handler hands the session key
    to the script without consulting the schedule. *)

Module Router.
Section Server.

Variable host : Host.

Definition replay_failed (session_key : jsstring) : response :=
  Render 500 (lit "race-tracker")
    [(lit "session_key", VString session_key);
     (lit "driverDirectory", VObject []);
     (lit "sessionInfo", VNull);
     (lit "error", VString MSG_PAGE_LOAD_ERROR);
     (lit "currentPage", VString (lit "schedule"))].

Definition replay_page (session_key : jsstring) (layouts sessionInfo : value)
  : completion response :=
  circuitName <- circuit_name host sessionInfo ;;
  layout <- find_opt layouts (layout_matches circuitName) ;;
  let image := trackImageUrl host circuitName in
  drivers <- readJSON host (path_join host [DATA_DIR host; lit "drivers.json"]) ;;
  f1Teams <- readJSON host (path_join host [ROOT_DIR host; lit "f1_team.json"]) ;;
  directory <- driverDirectory drivers f1Teams ;;
  Normal (Render 200 (lit "race-tracker")
            [(lit "session_key", VString session_key);
             (lit "driverDirectory", directory);
             (lit "sessionInfo",
              VObject (assign (lit "layout") layout
                         (assign (lit "trackImageUrl") image
                            (own_properties sessionInfo))));
             (lit "currentPage", VString (lit "schedule"));
             (lit "error", VNull)]).

(** router.get('/replays/:session_key', ...) *)
Definition replay_handler (session_key : jsstring) : completion response :=
  try_catch
    (schedule <- readJSON host (path_join host [DATA_DIR host; lit "schedule.json"]) ;;
     layouts <- readJSON host (path_join host [DATA_DIR host; lit "track_layouts.json"]) ;;
     found <- find_opt schedule (session_matches session_key) ;;
     let sessionInfo := or_else found VNull in
     if negb (truthy sessionInfo)
     then Normal session_not_found
     else replay_page session_key layouts sessionInfo)
    (fun _ => Normal (replay_failed session_key)).

(** The listener on the standard output. *)
Definition on_stdout (output : jsstring) (d : chunk) : jsstring :=
  match d with
  | Stdout data => output ++ data
  | Stderr _ => output
  end.

(** router.get('/api/locations/:session_key/:startTime/:endTime', ...):
    not an async function, so what [spawn] throws leaves the handler. *)
Definition locations_handler (session_key startTime endTime : jsstring)
  : completion response :=
  let scriptPath := path_join host [ROOT_DIR host; lit "get_driver_locations.py"] in
  if negb (existsSync host scriptPath)
  then Normal (json_error 500 MSG_SCRIPT_MISSING)
  else
    match spawn host [VString (lit "-X"); VString (lit "utf8"); VString scriptPath;
                      VString session_key; VString startTime; VString endTime] with
    | SpawnThrows e => Throw e
    | Child chunks closes =>
        match closes with
        | None => Never
        | Some (Some 0%Z) =>
            try_catch
              (body <- parse host (fold_left on_stdout chunks []) ;;
               Normal (Json 200 body))
              (fun _ => Normal (json_error 500 MSG_PARSE_FAILED))
        | Some _ => Normal (json_error 500 MSG_QUERY_FAILED)
        end
    end.

End Server.
End Router.

(* ------------------------------------------------------------------ *)
(** ** Notions the statements use *)

Definition no_hyphen (c : N) : bool := negb (is_hyphen c).
Definition no_space (c : N) : bool := negb (is_space c).

Definition starts_with_hyphen (s : jsstring) : bool :=
  match s with
  | c :: _ => is_hyphen c
  | [] => false
  end.

Definition ends_with_hyphen (s : jsstring) : bool := starts_with_hyphen (rev s).

Fixpoint has_double_hyphen (s : jsstring) : bool :=
  match s with
  | a :: r =>
      (is_hyphen a && starts_with_hyphen r) || has_double_hyphen r
  | [] => false
  end.

(** The values whose string coercion finds a primitive: every value but an
    object with an own [toString] property, or an array that holds one. *)
Fixpoint coercible (v : value) : bool :=
  match v with
  | VArray items => forallb coercible items
  | VObject fields => negb (has_own (lit "toString") fields)
  | _ => true
  end.

(** The text of an array element inside [join]. *)
Definition element_text (x : value) : completion jsstring :=
  match x with
  | VUndefined | VNull => Normal []
  | _ => ToString x
  end.

Definition is_primitive (v : value) : bool :=
  match v with
  | VArray _ | VObject _ => false
  | _ => true
  end.

(** The standard output a child wrote, whatever it wrote to the standard
    error in between. *)
Fixpoint stdout_text (output : list chunk) : jsstring :=
  match output with
  | [] => []
  | Stdout data :: r => data ++ stdout_text r
  | Stderr _ :: r => stdout_text r
  end.

Fixpoint stderr_text (output : list chunk) : jsstring :=
  match output with
  | [] => []
  | Stderr data :: r => data ++ stderr_text r
  | Stdout _ :: r => stderr_text r
  end.

Section Notions.

Variable host : Host.

(** The slug of a driver record, when the record is an object and its name
    coerces to a string. *)
Definition driver_slug (d : value) : option jsstring :=
  match d with
  | VObject _ =>
      match slugify host (read d (lit "full_name")) with
      | Normal s => Some s
      | _ => None
      end
  | _ => None
  end.

Definition has_slug (driverId : jsstring) (d : value) : bool :=
  match driver_slug d with
  | Some s => jsstring_eqb s driverId
  | None => false
  end.

(** The session key of a schedule entry, compared as a string. *)
Definition key_text (s : value) : completion jsstring :=
  k <- get s (lit "session_key") ;; ToString k.

(** No entry of the schedule has the key: the schedule file gave nothing, or
    an array whose entries all have another key. *)
Definition key_absent (session_key : jsstring) (schedule : value) : Prop :=
  schedule = VNull \/
  exists entries,
    schedule = VArray entries /\
    Forall (fun s => exists t, key_text s = Normal t /\ t <> session_key) entries.

(** No layout is recorded for the circuit: the layouts file gave nothing, or
    an array whose entries all name another circuit. *)
Definition layout_absent (circuitName layouts : value) : Prop :=
  layouts = VNull \/
  exists entries,
    layouts = VArray entries /\
    Forall (fun l => nullish l = false /\
                     strict_equals (read l (lit "circuit_short_name")) circuitName = false)
           entries.

Definition image_path (circuitName ext : jsstring) : jsstring :=
  path_join host [PUBLIC_DIR host; lit "images"; lit "tracks";
                  circuitName ++ lit "." ++ ext].

Definition image_exists (circuitName ext : jsstring) : bool :=
  existsSync host (image_path circuitName ext).

Definition image_url (circuitName ext : jsstring) : value :=
  VString (lit "/images/tracks/" ++ circuitName ++ lit "." ++ ext).

End Notions.

(* ------------------------------------------------------------------ *)
(** ** A small concrete platform, for the examples *)

Fixpoint slash_join (parts : list jsstring) : jsstring :=
  match parts with
  | [] => lit "."
  | [p] => p
  | p :: r => p ++ lit "/" ++ slash_join r
  end.

(** A platform given by tables: the files and their texts, what the texts
    parse to, the paths that exist, and what the children do. *)
Definition table_host (files : list (jsstring * jsstring))
    (json : list (jsstring * value)) (present : list jsstring)
    (run : list value -> child) : Host :=
  {| dirname := lit "/srv";
     unicode_toLowerCase := fun s => s;
     JSON_parse := fun text => lookup text json;
     Date_year_of_text := fun _ => NaN;
     Date_year_of_number := fun _ => NaN;
     type_error_message := fun _ => lit "TypeError";
     syntax_error_message := fun _ => lit "SyntaxError";
     system_error_message := fun _ => lit "ENOENT";
     path_join := slash_join;
     readFileSync := fun p => lookup p files;
     existsSync := fun p => existsb (jsstring_eqb p) present;
     spawn := run |}.

(** A text between double quotes. *)
Definition quoted (s : jsstring) : jsstring := (34 :: s ++ [34])%N.

(** The text {"key":value}. *)
Definition object_text (key value : jsstring) : jsstring :=
  lit "{" ++ quoted key ++ lit ":" ++ value ++ lit "}".

(** A server with no data files and no scripts. *)
Definition bare_host : Host :=
  table_host [] [] [] (fun _ => Child [] None).

(** Two drivers whose names give one slug, and a third. *)
Definition sample_drivers : list value :=
  [VObject [(lit "full_name", VString (lit "Max Verstappen"));
            (lit "number", VNumber (NonZero (lit "1")))];
   VObject [(lit "full_name", VString (lit "MAX  verstappen!"))];
   VObject [(lit "full_name", VString (lit "Lando Norris"))]].

Definition sample_drivers_text : jsstring :=
  lit "[" ++ lit "{" ++ quoted (lit "full_name") ++ lit ":"
    ++ quoted (lit "Max Verstappen") ++ lit "," ++ quoted (lit "number")
    ++ lit ":1}," ++ object_text (lit "full_name") (quoted (lit "MAX  verstappen!"))
    ++ lit "," ++ object_text (lit "full_name") (quoted (lit "Lando Norris"))
    ++ lit "]".

(** A server with the drivers above and an empty table of descriptions. *)
Definition drivers_host : Host :=
  table_host
    [(lit "/srv/public/data/drivers.json", sample_drivers_text);
     (lit "/srv/public/data/driver_descriptions.json", lit "{}")]
    [(sample_drivers_text, VArray sample_drivers); (lit "{}", VObject [])]
    [] (fun _ => Child [] None).

(** A schedule of one session, and the text of its file. *)
Definition sample_session : value :=
  VObject [(lit "session_key", VNumber (NonZero (lit "9158")));
           (lit "session_year", VNumber (NonZero (lit "2024")));
           (lit "meeting_name", VString (lit "Bahrain Grand Prix"));
           (lit "session_name", VString (lit "Race"));
           (lit "circuit_short_name", VString (lit "Sakhir"))].

Definition sample_schedule_text : jsstring :=
  lit "[{" ++ quoted (lit "session_key") ++ lit ":9158,"
    ++ quoted (lit "session_year") ++ lit ":2024,"
    ++ quoted (lit "meeting_name") ++ lit ":" ++ quoted (lit "Bahrain Grand Prix")
    ++ lit "," ++ quoted (lit "session_name") ++ lit ":" ++ quoted (lit "Race")
    ++ lit "," ++ quoted (lit "circuit_short_name") ++ lit ":"
    ++ quoted (lit "Sakhir") ++ lit "}]".

(** A server with that schedule and both scripts, whose children print
    [output] and close with code 0; [parsed] is what the output parses to. *)
Definition schedule_host (output : jsstring) (parsed : value) : Host :=
  table_host
    [(lit "/srv/public/data/schedule.json", sample_schedule_text)]
    [(sample_schedule_text, VArray [sample_session]); (output, parsed)]
    [lit "/srv/get_replay_data.py"; lit "/srv/get_driver_locations.py"]
    (fun _ => Child [Stdout output] (Some (Some 0%Z))).

(* ------------------------------------------------------------------ *)
(** ** The other pages of f1api.js *)

(** The error message of the schedule page (Korean: the schedule data could not be loaded). *)
Definition MSG_SCHEDULE_LOAD_FAILED : jsstring :=
  [49828; 52992; 51460; 32; 45936; 51060; 53552; 47484; 32; 48520; 47084;
   50724; 51648; 32; 47803; 54664; 49845; 45768; 45796; 46]%N.

(** The error message of the team pages (Korean: loading the team data failed). *)
Definition MSG_TEAM_LOAD_FAILED : jsstring :=
  [54016; 32; 45936; 51060; 53552; 47484; 32; 48520; 47084; 50724; 45716;
   32; 45936; 32; 49892; 54056; 54664; 49845; 45768; 45796; 46]%N.

(** The not-found message of the team page (Korean: team information cannot be found). *)
Definition MSG_TEAM_NOT_FOUND : jsstring :=
  [54016; 32; 51221; 48372; 47484; 32; 52286; 51012; 32; 49688; 32; 50630;
   49845; 45768; 45796; 46]%N.

(** The error message of the glossary (Korean: loading the glossary data failed). *)
Definition MSG_TERMS_LOAD_FAILED : jsstring :=
  [50857; 50612; 32; 45936; 51060; 53552; 47484; 32; 48520; 47084; 50724;
   45716; 32; 45936; 32; 49892; 54056; 54664; 49845; 45768; 45796; 46]%N.

Section Pages.

Variable host : Host.

(** router.get('/schedule', ...).  [clock n] is what the n-th
    [new Date().getFullYear()] of the request gives.  The catch block sets
    no status. *)
Definition schedule_handler (clock : nat -> number) : completion response :=
  try_catch
    (schedule <- readJSON host (path_join host [DATA_DIR host; lit "schedule.json"]) ;;
     Normal (Render 200 (lit "schedule")
               [(lit "year", VNumber (clock 0%nat));
                (lit "schedule", or_else schedule (VArray []));
                (lit "error", VNull);
                (lit "currentPage", VString (lit "schedule"))]))
    (fun _ =>
       Normal (Render 200 (lit "schedule")
                 [(lit "year", VNumber (clock 1%nat));
                  (lit "schedule", VArray []);
                  (lit "error", VString MSG_SCHEDULE_LOAD_FAILED);
                  (lit "currentPage", VString (lit "schedule"))])).

(** router.get('/drivers', ...) *)
Definition drivers_handler : completion response :=
  try_catch
    (drivers <- readJSON host (path_join host [DATA_DIR host; lit "drivers.json"]) ;;
     Normal (Render 200 (lit "drivers")
               [(lit "drivers", or_else drivers (VArray []));
                (lit "currentPage", VString (lit "drivers"));
                (lit "error", VNull)]))
    (fun _ =>
       Normal (Render 500 (lit "drivers")
                 [(lit "drivers", VArray []);
                  (lit "error", VString MSG_DRIVER_LOAD_FAILED);
                  (lit "currentPage", VString (lit "drivers"))])).

(** router.get('/teams', ...) *)
Definition teams_handler : completion response :=
  try_catch
    (teams <- readJSON host (path_join host [DATA_DIR host; lit "teams.json"]) ;;
     Normal (Render 200 (lit "teams")
               [(lit "teams", or_else teams (VArray []));
                (lit "currentPage", VString (lit "teams"));
                (lit "error", VNull)]))
    (fun _ =>
       Normal (Render 500 (lit "teams")
                 [(lit "teams", VArray []);
                  (lit "error", VString MSG_TEAM_LOAD_FAILED);
                  (lit "currentPage", VString (lit "teams"))])).

(** router.get('/glossary', ...) *)
Definition glossary_handler : completion response :=
  try_catch
    (terms <- readJSON host (path_join host [ROOT_DIR host; lit "f1_terms.json"]) ;;
     Normal (Render 200 (lit "glossary")
               [(lit "terms", or_else terms (VArray []));
                (lit "currentPage", VString (lit "glossary"));
                (lit "error", VNull)]))
    (fun _ =>
       Normal (Render 500 (lit "glossary")
                 [(lit "terms", VArray []);
                  (lit "error", VString MSG_TERMS_LOAD_FAILED);
                  (lit "currentPage", VString (lit "glossary"))])).

(** [a === b] for two values that come from two parses, as the team name
    of a driver and that of a team do: two numbers are equal when neither
    is NaN and they are the same number, and an array or an object is
    never identical to one of another parse. *)
Definition strictly_equal (a b : value) : bool :=
  match a, b with
  | VUndefined, VUndefined => true
  | VNull, VNull => true
  | VBool x, VBool y => Bool.eqb x y
  | VNumber (Zero _), VNumber (Zero _) => true
  | VNumber (NonZero s), VNumber (NonZero t) => jsstring_eqb s t
  | VString s, VString t => jsstring_eqb s t
  | _, _ => false
  end.

(** The loop of [Array.prototype.filter]. *)
Fixpoint filter_in (pred : value -> completion bool) (items : list value)
  : completion (list value) :=
  match items with
  | [] => Normal []
  | x :: r =>
      b <- pred x ;;
      kept <- filter_in pred r ;;
      Normal (if b then x :: kept else kept)
  end.

(** [v.filter(pred)]: only an array has the method. *)
Definition array_filter (v : value) (pred : value -> completion bool)
  : completion value :=
  match v with
  | VArray items => kept <- filter_in pred items ;; Normal (VArray kept)
  | VUndefined | VNull => Throw (TypeError (ReadOfNullish v (lit "filter")))
  | _ => Throw (TypeError (NotAFunction v (lit "filter")))
  end.

(** The callback [t => t.slug === teamId]. *)
Definition team_matches (teamId : jsstring) (t : value) : completion bool :=
  slug <- get t (lit "slug") ;;
  Normal (equals_text slug teamId).

(** The callback [d => d.team_name === team.team_name]. *)
Definition same_team (team d : value) : completion bool :=
  a <- get d (lit "team_name") ;;
  b <- get team (lit "team_name") ;;
  Normal (strictly_equal a b).

Definition team_not_found : response :=
  Render 404 (lit "team-detail")
    [(lit "info", VNull); (lit "drivers", VArray []);
     (lit "error", VString MSG_TEAM_NOT_FOUND);
     (lit "currentPage", VString (lit "teams"))].

Definition team_load_failed : response :=
  Render 500 (lit "team-detail")
    [(lit "info", VNull); (lit "drivers", VArray []);
     (lit "error", VString MSG_TEAM_LOAD_FAILED);
     (lit "currentPage", VString (lit "teams"))].

Definition team_page (team teamDrivers : value) : response :=
  Render 200 (lit "team-detail")
    [(lit "info", team); (lit "drivers", teamDrivers);
     (lit "error", VNull);
     (lit "currentPage", VString (lit "teams"))].

(** router.get('/teams/:teamId', ...) *)
Definition team_detail_handler (teamId : jsstring) : completion response :=
  try_catch
    (teams <- readJSON host (path_join host [DATA_DIR host; lit "teams.json"]) ;;
     team <- find teams (team_matches teamId) ;;
     if negb (truthy team)
     then Normal team_not_found
     else
       drivers <- readJSON host (path_join host [DATA_DIR host; lit "drivers.json"]) ;;
       teamDrivers <- array_filter drivers (same_team team) ;;
       Normal (team_page team teamDrivers))
    (fun _ => Normal team_load_failed).

End Pages.

(* ------------------------------------------------------------------ *)
(** ** More notions for the statements *)

Definition is_object (v : value) : bool :=
  match v with
  | VObject _ => true
  | _ => false
  end.

(** The key under which a driver enters the directory: the text of its
    number, when the number is truthy. *)
Definition directory_key (d : value) : option jsstring :=
  if truthy (read d (lit "number"))
  then match ToString (read d (lit "number")) with
       | Normal k => Some k
       | _ => None
       end
  else None.

Definition has_directory_key (k : jsstring) (d : value) : bool :=
  match directory_key d with
  | Some k' => jsstring_eqb k' k
  | None => false
  end.

(** The key under which a team enters the colour table: the text of its
    name. *)
Definition team_key (team : value) : option jsstring :=
  match ToString (read team (lit "name")) with
  | Normal k => Some k
  | _ => None
  end.

Definition has_team_key (k : jsstring) (team : value) : bool :=
  match team_key team with
  | Some k' => jsstring_eqb k' k
  | None => false
  end.

(** An entry of the directory: a name and a truthy colour. *)
Definition directory_entry (e : value) : Prop :=
  exists name colour,
    e = VObject [(lit "full_name", name); (lit "team_colour", colour)] /\
    truthy colour = true.

(** The fields of the session object that the replay page sets itself. *)
Definition replay_fields : list jsstring :=
  [lit "trackImageUrl"; lit "layout"; lit "date_start"; lit "race_end_date";
   lit "race_control_messages"].

(** The platform [host] with other children. *)
Definition with_spawn (host : Host) (run : list value -> child) : Host :=
  {| dirname := dirname host;
     unicode_toLowerCase := unicode_toLowerCase host;
     JSON_parse := JSON_parse host;
     Date_year_of_text := Date_year_of_text host;
     Date_year_of_number := Date_year_of_number host;
     type_error_message := type_error_message host;
     syntax_error_message := syntax_error_message host;
     system_error_message := system_error_message host;
     path_join := path_join host;
     readFileSync := readFileSync host;
     existsSync := existsSync host;
     spawn := run |}.

Definition valid_status (r : response) : Prop :=
  status_of r = 200%Z \/ status_of r = 404%Z \/ status_of r = 500%Z.

(** How a handler may end: with a response of a valid status, or, where
    [hang] holds, with no response at all.  An exception that leaves the
    computation is for the surrounding catch block. *)
Definition ends (hang : Prop) (c : completion response) : Prop :=
  match c with
  | Normal r => valid_status r
  | Throw _ => True
  | Never => hang
  end.

(** The file cannot be read, or its text is not valid JSON. *)
Definition unreadable (host : Host) (filePath : jsstring) : Prop :=
  readFileSync host filePath = None \/
  exists text,
    readFileSync host filePath = Some text /\ JSON_parse host text = None.

(** The number that a text of decimal digits writes, after [acc]. *)
Fixpoint digits_value (acc : N) (s : jsstring) : option N :=
  match s with
  | [] => Some acc
  | c :: r =>
      if is_digit c then digits_value (acc * 10 + (c - 48)) r else None
  end.

(** A text of more than one unit that begins with the digit 0. *)
Definition leading_zero (s : jsstring) : bool :=
  match s with
  | c :: _ :: _ => N.eqb c 48
  | _ => false
  end.

(** The natural number that a text writes in decimal, in the one way there
    is to write it: digits, at least one, and no 0 before another digit. *)
Definition natural_value (s : jsstring) : option N :=
  match s with
  | [] => None
  | _ => if leading_zero s then None else digits_value 0 s
  end.

(** The integer that a text writes in decimal: a natural number, or a minus
    sign and then a positive one. *)
Definition decimal_value (s : jsstring) : option Z :=
  match s with
  | [] => None
  | c :: r =>
      if is_hyphen c
      then match natural_value r with
           | Some (Npos p) => Some (Zneg p)
           | _ => None
           end
      else option_map Z.of_N (natural_value s)
  end.

(** The text names the close code: it writes that integer in decimal, or
    it is 'null' for a process that a signal ended. *)
Definition names_code (t : jsstring) (code : option Z) : Prop :=
  match code with
  | Some z => decimal_value t = Some z
  | None => t = lit "null"
  end.

(** [m] is [s] without the white space at its two ends. *)
Definition trimmed_of (s m : jsstring) : Prop :=
  exists l r,
    s = l ++ m ++ r /\
    forallb is_space l = true /\ forallb is_space r = true /\
    match m with c :: _ => is_space c = false | [] => True end /\
    match rev m with c :: _ => is_space c = false | [] => True end.

(** The message of the error that a process leaves when it closes with
    [code], not 0, having written [err] to its standard error: [err]
    trimmed when it holds more than white space, else the text that names
    the code. *)
Definition bridge_message (err : jsstring) (code : option Z) (msg : jsstring)
  : Prop :=
  msg <> [] /\
  (forallb is_space err = false -> trimmed_of err msg) /\
  (forallb is_space err = true ->
   exists t, msg = lit "Python script exited with code " ++ t /\
             names_code t code).

(** The names of the members of [Object.prototype], which every object
    inherits. *)
Definition object_prototype_names : list jsstring :=
  [lit "__proto__"; lit "constructor"; lit "hasOwnProperty";
   lit "isPrototypeOf"; lit "propertyIsEnumerable"; lit "toLocaleString";
   lit "toString"; lit "valueOf"; lit "__defineGetter__";
   lit "__defineSetter__"; lit "__lookupGetter__"; lit "__lookupSetter__"].

(** Some child of the platform never closes. *)
Definition some_child_hangs (host : Host) : Prop :=
  exists argv output, spawn host argv = Child output None.

(** Two teams and three drivers, and a server that holds them. *)
Definition sample_teams : list value :=
  [VObject [(lit "slug", VString (lit "mclaren"));
            (lit "team_name", VString (lit "McLaren"))];
   VObject [(lit "slug", VString (lit "ferrari"));
            (lit "team_name", VString (lit "Ferrari"))]].

Definition sample_team_drivers : list value :=
  [VObject [(lit "full_name", VString (lit "Lando Norris"));
            (lit "team_name", VString (lit "McLaren"))];
   VObject [(lit "full_name", VString (lit "Charles Leclerc"));
            (lit "team_name", VString (lit "Ferrari"))];
   VObject [(lit "full_name", VString (lit "Oscar Piastri"));
            (lit "team_name", VString (lit "McLaren"))]].

Definition teams_host : Host :=
  table_host
    [(lit "/srv/public/data/teams.json", lit "teams");
     (lit "/srv/public/data/drivers.json", lit "drivers")]
    [(lit "teams", VArray sample_teams);
     (lit "drivers", VArray sample_team_drivers)]
    [] (fun _ => Child [] None).

(** Two teams with their colours, one of them empty, and four drivers: one
    without a number, and two with the same number. *)
Definition sample_f1_teams : list value :=
  [VObject [(lit "name", VString (lit "McLaren"));
            (lit "teamColor", VString (lit "#FF8000"))];
   VObject [(lit "name", VString (lit "Ferrari"));
            (lit "teamColor", VString [])]].

Definition sample_numbered_drivers : list value :=
  [VObject [(lit "full_name", VString (lit "Lando Norris"));
            (lit "team_name", VString (lit "McLaren"));
            (lit "number", VNumber (NonZero (lit "4")))];
   VObject [(lit "full_name", VString (lit "Reserve Driver"));
            (lit "team_name", VString (lit "Ferrari"));
            (lit "number", VNumber (Zero false))];
   VObject [(lit "full_name", VString (lit "Charles Leclerc"));
            (lit "team_name", VString (lit "Ferrari"));
            (lit "number", VNumber (NonZero (lit "16")))];
   VObject [(lit "full_name", VString (lit "Oscar Piastri"));
            (lit "team_name", VString (lit "McLaren"));
            (lit "number", VNumber (NonZero (lit "4")))]].

(** The directory of these drivers, and the colour table of these teams. *)
Definition sample_directory : list (jsstring * value) :=
  [(lit "4", VObject [(lit "full_name", VString (lit "Oscar Piastri"));
                      (lit "team_colour", VString (lit "#FF8000"))]);
   (lit "16", VObject [(lit "full_name", VString (lit "Charles Leclerc"));
                       (lit "team_colour", VString (lit "#FFFFFF"))])].

Definition sample_colours : list (jsstring * value) :=
  [(lit "McLaren", VObject [(lit "color", VString (lit "#FF8000"))]);
   (lit "Ferrari", VObject [(lit "color", VString [])])].

(* ------------------------------------------------------------------ *)
(** ** Strings: basic facts *)

Lemma jsstring_eqb_refl (a : jsstring) : jsstring_eqb a a = true.
Proof.
  induction a as [|x a IH]; simpl; [reflexivity|].
  now rewrite N.eqb_refl, IH.
Qed.

Lemma jsstring_eqb_eq (a b : jsstring) : jsstring_eqb a b = true <-> a = b.
Proof.
  split.
  - revert b; induction a as [|x a IH]; intros [|y b]; simpl; try discriminate; auto.
    intros H. apply andb_true_iff in H as [Hx Hr].
    apply N.eqb_eq in Hx. f_equal; auto.
  - intros ->. apply jsstring_eqb_refl.
Qed.

Lemma jsstring_eqb_neq (a b : jsstring) : jsstring_eqb a b = false <-> a <> b.
Proof.
  split.
  - intros H E. apply jsstring_eqb_eq in E. congruence.
  - intros H. destruct (jsstring_eqb a b) eqn:E; [|reflexivity].
    apply jsstring_eqb_eq in E. contradiction.
Qed.

(** Unfolds the character classes into arithmetic. *)
Ltac classes :=
  unfold is_slug_char, is_kept, is_lower_alpha, is_digit, is_hyphen, is_space,
    is_ascii, ascii_lower, hyphen in *;
  repeat match goal with
    | H : _ || _ = true |- _ => apply orb_true_iff in H; destruct H
    | H : _ && _ = true |- _ => apply andb_true_iff in H; destruct H
    | H : (_ <=? _)%N = true |- _ => apply N.leb_le in H
    | H : (_ =? _)%N = true |- _ => apply N.eqb_eq in H
    | H : (_ <? _)%N = true |- _ => apply N.ltb_lt in H
    end.

Lemma slug_char_not_space (c : N) : is_slug_char c = true -> is_space c = false.
Proof.
  intros H. apply not_true_is_false. intros Hs. classes; lia.
Qed.

Lemma slug_char_kept (c : N) : is_slug_char c = true -> is_kept c = true.
Proof.
  unfold is_slug_char, is_kept. intros H.
  apply orb_true_iff in H as [H|H].
  - apply orb_true_iff in H as [H|H]; rewrite H; simpl; auto using orb_true_r.
    now rewrite orb_true_r.
  - rewrite H. now rewrite orb_true_r.
Qed.

Lemma slug_char_ascii (c : N) : is_slug_char c = true -> is_ascii c = true.
Proof.
  intros H. classes; apply N.ltb_lt; lia.
Qed.

Lemma slug_char_lower (c : N) : is_slug_char c = true -> ascii_lower c = c.
Proof.
  intros H. unfold ascii_lower.
  destruct ((65 <=? c)%N && (c <=? 90)%N) eqn:E; [|reflexivity].
  classes; lia.
Qed.

Lemma kept_slug_or_space (c : N) :
  is_kept c = true -> is_space c = false -> is_slug_char c = true.
Proof.
  unfold is_kept, is_slug_char. intros H Hs. rewrite Hs in H.
  now rewrite orb_false_r in H.
Qed.

Lemma hyphen_not_space : is_space hyphen = false.
Proof. reflexivity. Qed.

Lemma hyphen_slug_char : is_slug_char hyphen = true.
Proof. reflexivity. Qed.

(** ** The text pipeline of slugify *)

Lemma hyphenate_slug_chars (s : jsstring) (in_run : bool) :
  forallb is_kept s = true ->
  forallb is_slug_char (hyphenate_from in_run s) = true.
Proof.
  revert in_run; induction s as [|c r IH]; intros in_run H; simpl in *; [reflexivity|].
  apply andb_true_iff in H as [Hc Hr].
  destruct (is_space c) eqn:Hs.
  - destruct in_run; simpl; auto.
  - simpl. rewrite (kept_slug_or_space c Hc Hs). simpl. auto.
Qed.

Lemma strip_unsafe_kept (s : jsstring) : forallb is_kept (strip_unsafe s) = true.
Proof.
  unfold strip_unsafe. induction s as [|c r IH]; simpl; [reflexivity|].
  destruct (is_kept c) eqn:E; simpl; [rewrite E|]; auto.
Qed.

Lemma slug_of_text_chars (host : Host) (s : jsstring) :
  forallb is_slug_char (slug_of_text host s) = true.
Proof.
  unfold slug_of_text, hyphenate_spaces.
  apply hyphenate_slug_chars, strip_unsafe_kept.
Qed.

Lemma forallb_rev {A} (p : A -> bool) (l : list A) :
  forallb p (rev l) = forallb p l.
Proof.
  induction l as [|x l IH]; simpl; [reflexivity|].
  rewrite forallb_app, IH. simpl. rewrite andb_true_r. apply andb_comm.
Qed.

Lemma drop_spaces_none (s : jsstring) :
  forallb is_slug_char s = true -> drop_spaces s = s.
Proof.
  destruct s as [|c r]; simpl; [reflexivity|].
  intros H. apply andb_true_iff in H as [Hc _].
  now rewrite (slug_char_not_space c Hc).
Qed.

Lemma trim_slug (s : jsstring) : forallb is_slug_char s = true -> trim s = s.
Proof.
  intros H. unfold trim. rewrite (drop_spaces_none s H).
  rewrite drop_spaces_none by now rewrite forallb_rev.
  apply rev_involutive.
Qed.

Lemma strip_unsafe_slug (s : jsstring) :
  forallb is_slug_char s = true -> strip_unsafe s = s.
Proof.
  unfold strip_unsafe. induction s as [|c r IH]; simpl; [reflexivity|].
  intros H. apply andb_true_iff in H as [Hc Hr].
  rewrite (slug_char_kept c Hc). f_equal. auto.
Qed.

Lemma hyphenate_slug (s : jsstring) :
  forallb is_slug_char s = true -> hyphenate_from false s = s.
Proof.
  induction s as [|c r IH]; simpl; [reflexivity|].
  intros H. apply andb_true_iff in H as [Hc Hr].
  rewrite (slug_char_not_space c Hc). f_equal. auto.
Qed.

Lemma toLowerCase_slug (host : Host) (s : jsstring) :
  forallb is_slug_char s = true -> toLowerCase host s = s.
Proof.
  intros H. unfold toLowerCase.
  assert (Ha : forallb is_ascii s = true).
  { induction s as [|c r IH]; simpl in *; [reflexivity|].
    apply andb_true_iff in H as [Hc Hr].
    rewrite (slug_char_ascii c Hc). auto. }
  rewrite Ha. clear Ha.
  induction s as [|c r IH]; simpl in *; [reflexivity|].
  apply andb_true_iff in H as [Hc Hr].
  rewrite (slug_char_lower c Hc). f_equal. auto.
Qed.

(** A slug is a fixed point of the pipeline. *)
Lemma slug_of_text_fixed (host : Host) (s : jsstring) :
  forallb is_slug_char s = true -> slug_of_text host s = s.
Proof.
  intros H. unfold slug_of_text, hyphenate_spaces.
  rewrite (toLowerCase_slug host s H), (trim_slug s H), (strip_unsafe_slug s H).
  now apply hyphenate_slug.
Qed.

Lemma slug_of_text_idempotent (host : Host) (s : jsstring) :
  slug_of_text host (slug_of_text host s) = slug_of_text host s.
Proof. apply slug_of_text_fixed, slug_of_text_chars. Qed.

(** *** Hyphens *)

Lemma forallb_drop_spaces (p : N -> bool) (s : jsstring) :
  forallb p s = true -> forallb p (drop_spaces s) = true.
Proof.
  induction s as [|c r IH]; simpl; [reflexivity|].
  intros H. destruct (is_space c); [|exact H].
  apply andb_true_iff in H as [_ Hr]. auto.
Qed.

Lemma forallb_trim (p : N -> bool) (s : jsstring) :
  forallb p s = true -> forallb p (trim s) = true.
Proof.
  intros H. unfold trim. rewrite forallb_rev.
  apply forallb_drop_spaces. rewrite forallb_rev.
  now apply forallb_drop_spaces.
Qed.

Lemma forallb_strip_unsafe (p : N -> bool) (s : jsstring) :
  forallb p s = true -> forallb p (strip_unsafe s) = true.
Proof.
  unfold strip_unsafe. induction s as [|c r IH]; simpl; [reflexivity|].
  intros H. apply andb_true_iff in H as [Hc Hr].
  destruct (is_kept c); simpl; [rewrite Hc|]; auto.
Qed.

(** Without a hyphen in the text, a hyphen of the result stands for a run
    of white space, and two runs never touch. *)
Lemma hyphenate_no_double (s : jsstring) (in_run : bool) :
  forallb no_hyphen s = true ->
  has_double_hyphen (hyphenate_from in_run s) = false /\
  (in_run = true -> starts_with_hyphen (hyphenate_from in_run s) = false).
Proof.
  revert in_run; induction s as [|c r IH]; intros in_run H; simpl in *.
  - split; reflexivity.
  - apply andb_true_iff in H as [Hc Hr].
    destruct (is_space c) eqn:Hs.
    + destruct (IH true Hr) as [Hd Hh]. destruct in_run.
      * split; auto.
      * split; [|discriminate]. simpl. now rewrite Hd, (Hh eq_refl).
    + destruct (IH false Hr) as [Hd _]. simpl.
      unfold no_hyphen in Hc. apply negb_true_iff in Hc. rewrite Hc, Hd.
      split; auto.
Qed.

Lemma drop_spaces_head (s : jsstring) :
  match drop_spaces s with
  | c :: _ => is_space c = false
  | [] => True
  end.
Proof.
  induction s as [|c r IH]; simpl; [exact I|].
  destruct (is_space c) eqn:E; [exact IH|exact E].
Qed.

Lemma drop_spaces_snoc (s : jsstring) (c : N) :
  is_space c = false -> drop_spaces (s ++ [c]) = drop_spaces s ++ [c].
Proof.
  intros Hc. induction s as [|x r IH]; simpl.
  - now rewrite Hc.
  - destruct (is_space x); auto.
Qed.

(** What [trim] leaves neither starts nor ends with white space. *)
Lemma trim_ends (s : jsstring) :
  trim s = [] \/
  (exists a m, trim s = a :: m /\ is_space a = false) /\
  (exists b z, trim s = b ++ [z] /\ is_space z = false).
Proof.
  unfold trim.
  pose proof (drop_spaces_head s) as Hh.
  destruct (drop_spaces s) as [|c r] eqn:E; [left; reflexivity|].
  right. simpl rev.
  rewrite (drop_spaces_snoc (rev r) c Hh).
  rewrite rev_app_distr. simpl.
  pose proof (drop_spaces_head (rev r)) as Hl.
  destruct (drop_spaces (rev r)) as [|x y] eqn:E2.
  - split; [exists c, []|exists [], c]; auto.
  - split; [exists c, (rev (x :: y)); auto|].
    exists (c :: rev y), x. simpl. auto.
Qed.

Lemma hyphenate_snoc (s : jsstring) (c : N) (in_run : bool) :
  is_space c = false ->
  hyphenate_from in_run (s ++ [c]) = hyphenate_from in_run s ++ [c].
Proof.
  intros Hc. revert in_run; induction s as [|x r IH]; intros in_run; simpl.
  - now rewrite Hc.
  - destruct (is_space x); [destruct in_run|]; simpl; now rewrite IH.
Qed.

Lemma strip_unsafe_id (s : jsstring) :
  forallb is_kept s = true -> strip_unsafe s = s.
Proof.
  unfold strip_unsafe. induction s as [|c r IH]; simpl; [reflexivity|].
  intros H. apply andb_true_iff in H as [Hc Hr]. rewrite Hc. f_equal. auto.
Qed.

(** With no hyphen in the text and nothing stripped from it, the result
    neither starts nor ends with a hyphen. *)
Lemma hyphenate_trim_ends (s : jsstring) :
  forallb no_hyphen s = true ->
  starts_with_hyphen (hyphenate_spaces (trim s)) = false /\
  ends_with_hyphen (hyphenate_spaces (trim s)) = false.
Proof.
  intros H. pose proof (forallb_trim no_hyphen s H) as Ht.
  unfold hyphenate_spaces, ends_with_hyphen.
  destruct (trim_ends s) as [E | [(a & m & Ea & Ha) (b & z & Ez & Hz)]].
  - rewrite E. split; reflexivity.
  - split.
    + rewrite Ea in *. simpl in *. rewrite Ha. simpl.
      apply andb_true_iff in Ht as [Hc _]. now apply negb_true_iff in Hc.
    + rewrite Ez in *. rewrite (hyphenate_snoc b z false Hz).
      rewrite rev_app_distr. simpl.
      rewrite forallb_app in Ht. apply andb_true_iff in Ht as [_ Hc].
      simpl in Hc. rewrite andb_true_r in Hc. now apply negb_true_iff in Hc.
Qed.

(** Where there is no white space, nothing is replaced. *)
Lemma hyphenate_no_space (s : jsstring) (in_run : bool) :
  forallb no_space s = true -> hyphenate_from in_run s = s.
Proof.
  revert in_run; induction s as [|c r IH]; intros in_run H; simpl in *;
    [reflexivity|].
  apply andb_true_iff in H as [Hc Hr]. apply negb_true_iff in Hc.
  rewrite Hc. f_equal. auto.
Qed.

Lemma slugify_text (host : Host) (t : jsstring) :
  slugify host (VString t) = Normal (slug_of_text host t).
Proof. destruct t; reflexivity. Qed.

(* ------------------------------------------------------------------ *)
(** ** String coercion *)

Lemma ToString_array_cons (x : value) (r : list value) :
  ToString (VArray (x :: r)) =
  (a <- element_text x ;;
   match r with
   | [] => Normal a
   | _ => b <- ToString (VArray r) ;; Normal (a ++ lit "," ++ b)
   end).
Proof. destruct x; reflexivity. Qed.

(** Induction on values, through the elements of arrays. *)
Lemma value_induction (P : value -> Prop)
    (Hbase : forall v, is_primitive v = true -> P v)
    (Harray : forall items, Forall P items -> P (VArray items))
    (Hobject : forall fields, P (VObject fields)) :
  forall v, P v.
Proof.
  fix IH 1. intros [| | b | n | s | items | fields];
    try (apply Hbase; reflexivity).
  - apply Harray. induction items as [|x r IHr]; constructor; [apply IH | exact IHr].
  - apply Hobject.
Qed.

Lemma ToString_primitive (v : value) :
  is_primitive v = true -> exists s, ToString v = Normal s.
Proof.
  destruct v as [| |[]| | | |]; simpl; intros H; try discriminate; eauto.
Qed.

Lemma element_text_coercible (x : value) :
  (coercible x = true -> exists s, ToString x = Normal s) ->
  coercible x = true -> exists s, element_text x = Normal s.
Proof.
  intros IH H. destruct x; simpl; eauto.
Qed.

(** The coercion finds a primitive exactly on the coercible values. *)
Lemma ToString_coercible (v : value) :
  coercible v = true -> exists s, ToString v = Normal s.
Proof.
  induction v as [v Hp | items IH | fields] using value_induction; intros H.
  - now apply ToString_primitive.
  - induction items as [|x r IHr].
    + simpl. eauto.
    + simpl in H. apply andb_true_iff in H as [Hx Hr].
      inversion IH as [|? ? IHx IHrest]; subst.
      rewrite ToString_array_cons.
      destruct (element_text_coercible x IHx Hx) as [a ->]. cbn [bind].
      destruct r as [|y r']; [eauto|].
      destruct (IHr IHrest Hr) as [b ->]. cbn [bind]. eauto.
  - simpl in *. apply negb_true_iff in H. rewrite H. eauto.
Qed.

Lemma ToString_not_coercible (v : value) :
  coercible v = false -> ToString v = Throw (TypeError NoPrimitive).
Proof.
  induction v as [v Hp | items IH | fields] using value_induction; intros H.
  - destruct v; simpl in *; discriminate.
  - induction items as [|x r IHr]; [discriminate|].
    inversion IH as [|? ? IHx IHrest]; subst.
    rewrite ToString_array_cons. simpl in H.
    destruct (coercible x) eqn:Hx.
    + destruct (element_text_coercible x (fun _ => ToString_coercible x Hx) Hx)
        as [a ->]. cbn [bind andb] in *.
      destruct r as [|y r']; [discriminate|].
      now rewrite (IHr IHrest H).
    + assert (E : element_text x = ToString x)
        by (destruct x; simpl in *; try discriminate; reflexivity).
      now rewrite E, (IHx eq_refl).
  - simpl in *. apply negb_false_iff in H. now rewrite H.
Qed.

Lemma ToString_settles (v : value) : ToString v <> Never.
Proof.
  destruct (coercible v) eqn:H.
  - destruct (ToString_coercible v H) as [s ->]. discriminate.
  - rewrite (ToString_not_coercible v H). discriminate.
Qed.

Lemma falsy_coercible (v : value) : truthy v = false -> coercible v = true.
Proof. destruct v; simpl; auto; discriminate. Qed.

(* ------------------------------------------------------------------ *)
(** ** slugify *)

(** C1, as amended.  For every input text, slugify returns a string of
    lowercase letters, digits and hyphens only, and slugify is idempotent
    on it.  Hyphens of the input are kept as they are, and beyond them only
    runs of white space give hyphens: when the lowercased text has no
    hyphen, the result has no two hyphens in a row; when moreover nothing
    is stripped from it, the result has no leading or trailing hyphen; and
    when it has no white space either, the result has no hyphen at all. *)
Theorem slugify_slug (host : Host) (t : jsstring) :
  exists s,
    slugify host (VString t) = Normal s /\
    forallb is_slug_char s = true /\
    slugify host (VString s) = Normal s /\
    (forallb no_hyphen (toLowerCase host t) = true ->
     has_double_hyphen s = false) /\
    (forallb no_hyphen (toLowerCase host t) = true ->
     forallb is_kept (toLowerCase host t) = true ->
     starts_with_hyphen s = false /\ ends_with_hyphen s = false) /\
    (forallb no_hyphen (toLowerCase host t) = true ->
     forallb no_space (toLowerCase host t) = true ->
     forallb no_hyphen s = true).
Proof.
  exists (slug_of_text host t). rewrite !slugify_text.
  rewrite slug_of_text_idempotent.
  split; [reflexivity|]. split; [apply slug_of_text_chars|].
  split; [reflexivity|]. split; [|split].
  - intros H. unfold slug_of_text, hyphenate_spaces.
    apply hyphenate_no_double, forallb_strip_unsafe, forallb_trim, H.
  - intros H K. unfold slug_of_text.
    rewrite strip_unsafe_id by now apply forallb_trim.
    now apply hyphenate_trim_ends.
  - intros H K. unfold slug_of_text, hyphenate_spaces.
    rewrite hyphenate_no_space
      by now apply forallb_strip_unsafe, forallb_trim.
    now apply forallb_strip_unsafe, forallb_trim.
Qed.

Lemma slugify_slug_witness :
  slugify bare_host (VString (lit "  Max   Verstappen ")) =
    Normal (lit "max-verstappen") /\
  has_double_hyphen (lit "max-verstappen") = false.
Proof.
  destruct (slugify_slug bare_host (lit "  Max   Verstappen "))
    as (s & Hs & _ & _ & Hd & _ & _).
  assert (E : s = lit "max-verstappen")
    by (vm_compute in Hs; injection Hs as <-; reflexivity).
  subst s. split; [exact Hs | apply Hd; reflexivity].
Defined.

(** C1, as stated, fails: a text without any white space, whose hyphens are
    its own, comes out with a leading and a trailing hyphen and with two
    hyphens in a row. *)
Lemma slugify_keeps_hyphens :
  existsb is_space (lit "-a--b-") = false /\
  slugify bare_host (VString (lit "-a--b-")) = Normal (lit "-a--b-") /\
  starts_with_hyphen (lit "-a--b-") = true /\
  ends_with_hyphen (lit "-a--b-") = true /\
  has_double_hyphen (lit "-a--b-") = true.
Proof. repeat split; reflexivity. Qed.

Lemma slugify_falsy (host : Host) (v : value) :
  truthy v = false -> slugify host v = Normal [].
Proof. intros H. unfold slugify. rewrite H. reflexivity. Qed.

Lemma slugify_truthy (host : Host) (v : value) :
  truthy v = true ->
  slugify host v = (s <- ToString v ;; Normal (slug_of_text host s)).
Proof. intros H. unfold slugify. now rewrite H. Qed.

Lemma slugify_coercible (host : Host) (v : value) :
  coercible v = true -> exists s, slugify host v = Normal s.
Proof.
  intros H. destruct (truthy v) eqn:T.
  - rewrite (slugify_truthy host v T).
    destruct (ToString_coercible v H) as [s ->]. simpl. eauto.
  - rewrite (slugify_falsy host v T). eauto.
Qed.

Lemma slugify_not_coercible (host : Host) (v : value) :
  coercible v = false -> slugify host v = Throw (TypeError NoPrimitive).
Proof.
  intros H. destruct (truthy v) eqn:T.
  - now rewrite (slugify_truthy host v T), (ToString_not_coercible v H).
  - rewrite (falsy_coercible v T) in H. discriminate.
Qed.

(** C10, as amended.  slugify gives the empty string on every falsy input
    and works on the string coercion of every other value; it never fails
    to end, and it returns a slug for every value whose coercion finds a
    primitive.  For an object with an own [toString] property, or an array
    holding one, the coercion throws and slugify throws with it. *)
Theorem slugify_coercion (host : Host) (v : value) :
  (truthy v = false -> slugify host v = Normal []) /\
  (truthy v = true ->
   slugify host v = (s <- ToString v ;; Normal (slug_of_text host s))) /\
  (coercible v = true -> exists s, slugify host v = Normal s) /\
  (coercible v = false -> slugify host v = Throw (TypeError NoPrimitive)) /\
  slugify host v <> Never.
Proof.
  split; [apply slugify_falsy|]. split; [apply slugify_truthy|].
  split; [apply slugify_coercible|]. split; [apply slugify_not_coercible|].
  destruct (coercible v) eqn:H.
  - destruct (slugify_coercible host v H) as [s ->]. discriminate.
  - rewrite (slugify_not_coercible host v H). discriminate.
Qed.

Lemma slugify_coercion_witness :
  slugify bare_host (VNumber NaN) = Normal [] /\
  slugify bare_host (VArray [VString (lit "Lando"); VNull; VString (lit "N")]) =
    Normal (lit "landon").
Proof.
  split.
  - apply (slugify_coercion bare_host (VNumber NaN)). reflexivity.
  - destruct (slugify_coercion bare_host
                (VArray [VString (lit "Lando"); VNull; VString (lit "N")]))
      as (_ & H & _).
    rewrite (H eq_refl). reflexivity.
Defined.

(** C10, as stated, fails: the parsed object {"toString": null} is truthy
    and has no string coercion, so slugify throws on it. *)
Lemma slugify_throws :
  slugify bare_host (VObject [(lit "toString", VNull)]) =
  Throw (TypeError NoPrimitive).
Proof. reflexivity. Qed.

(* ------------------------------------------------------------------ *)
(** ** The data loader *)

Lemma readJSON_value (host : Host) (filePath : jsstring) :
  exists v, readJSON host filePath = Normal v.
Proof.
  unfold readJSON, read_file, parse.
  destruct (readFileSync host filePath) as [text|]; simpl; eauto.
  destruct (JSON_parse host text); simpl; eauto.
Qed.

(** C5.  readJSON never raises: it always returns a value, which is the
    parsed content when the file can be read and its text parses, and null
    when the file cannot be read or its text is not valid JSON. *)
Theorem readJSON_never_raises (host : Host) (filePath : jsstring) :
  (exists v, readJSON host filePath = Normal v) /\
  (forall text v,
      readFileSync host filePath = Some text ->
      JSON_parse host text = Some v ->
      readJSON host filePath = Normal v) /\
  (readFileSync host filePath = None -> readJSON host filePath = Normal VNull) /\
  (forall text,
      readFileSync host filePath = Some text ->
      JSON_parse host text = None ->
      readJSON host filePath = Normal VNull).
Proof.
  unfold readJSON, read_file, parse.
  destruct (readFileSync host filePath) as [text|] eqn:R; simpl.
  - destruct (JSON_parse host text) as [v|] eqn:P; simpl.
    + repeat split; eauto; try discriminate.
      * intros t w [= <-] Q. congruence.
      * intros t [= <-] Q. congruence.
    + repeat split; eauto; try discriminate.
      intros t w [= <-] Q. congruence.
  - repeat split; eauto; discriminate.
Qed.

Lemma readJSON_never_raises_witness :
  readJSON (table_host [(lit "/srv/drivers.json", lit "[]")]
                       [(lit "[]", VArray [])] [] (fun _ => Child [] None))
           (lit "/srv/drivers.json") = Normal (VArray []) /\
  readJSON bare_host (lit "/srv/drivers.json") = Normal VNull.
Proof.
  split.
  - apply (readJSON_never_raises
             (table_host [(lit "/srv/drivers.json", lit "[]")]
                         [(lit "[]", VArray [])] [] (fun _ => Child [] None))
             (lit "/srv/drivers.json")) with (text := lit "[]"); reflexivity.
  - apply (readJSON_never_raises bare_host (lit "/srv/drivers.json")).
    reflexivity.
Defined.

(* ------------------------------------------------------------------ *)
(** ** The process bridge *)

Lemma capture_fold (output : list chunk) (c : capture) :
  stdout (fold_left on_data output c) = stdout c ++ stdout_text output /\
  stderr (fold_left on_data output c) = stderr c ++ stderr_text output.
Proof.
  revert c; induction output as [|d r IH]; intros c; simpl.
  - now rewrite !app_nil_r.
  - destruct (IH (on_data c d)) as [-> ->].
    destruct d; simpl; rewrite <- ?app_assoc; auto.
Qed.

Lemma drop_spaces_spaces_app (ws y : jsstring) :
  forallb is_space ws = true -> drop_spaces (ws ++ y) = drop_spaces y.
Proof.
  induction ws as [|c r IH]; simpl; [reflexivity|].
  intros H. apply andb_true_iff in H as [Hc Hr]. rewrite Hc. auto.
Qed.

Lemma drop_spaces_all (ws : jsstring) :
  forallb is_space ws = true -> drop_spaces ws = [].
Proof.
  intros H. rewrite <- (app_nil_r ws). now rewrite drop_spaces_spaces_app.
Qed.

Lemma drop_spaces_split (s : jsstring) :
  exists l, s = l ++ drop_spaces s /\ forallb is_space l = true.
Proof.
  induction s as [|c r (l & E & H)]; simpl; [exists []; auto|].
  destruct (is_space c) eqn:Hc.
  - exists (c :: l). simpl. rewrite Hc, H. split; [congruence | reflexivity].
  - exists []. auto.
Qed.

(** [trim] removes white space at the two ends, and nothing else. *)
Lemma trim_trimmed_of (s : jsstring) : trimmed_of s (trim s).
Proof.
  destruct (drop_spaces_split s) as (l & El & Hl).
  destruct (drop_spaces_split (rev (drop_spaces s))) as (l' & El' & Hl').
  exists l, (rev l'). split; [|split; [exact Hl|split]].
  - unfold trim. rewrite El at 1. f_equal.
    rewrite <- (rev_involutive (drop_spaces s)) at 1.
    rewrite El' at 1. now rewrite rev_app_distr.
  - now rewrite forallb_rev.
  - destruct (trim_ends s) as [-> | [(a & m & Ea & Ha) (b & z & Ez & Hz)]].
    + split; exact I.
    + split.
      * now rewrite Ea.
      * rewrite Ez, rev_app_distr. exact Hz.
Qed.

Lemma trim_empty (s : jsstring) :
  trim s = [] <-> forallb is_space s = true.
Proof.
  split.
  - intros E. destruct (trim_trimmed_of s) as (l & r & Es & Hl & Hr & _).
    rewrite E in Es. rewrite Es, forallb_app, Hl. exact Hr.
  - intros H. unfold trim. now rewrite (drop_spaces_all s H).
Qed.

(** Reduces the digits of a literal. *)
Ltac digit_step :=
  cbn [NilEmpty.string_of_uint Pos.of_uint_acc Pos.of_uint N.of_uint
       list_ascii_of_string map digits_value];
  repeat match goal with
    | |- context [N_of_ascii ?a] =>
        let v := eval vm_compute in (N_of_ascii a) in
        change (N_of_ascii a) with v
    end;
  repeat match goal with
    | |- context [is_digit ?c] =>
        let b := eval vm_compute in (is_digit c) in
        change (is_digit c) with b
    end;
  cbv iota.

Lemma digits_value_acc (d : Decimal.uint) (acc : positive) :
  digits_value (Npos acc) (lit (NilEmpty.string_of_uint d)) =
  Some (Npos (Pos.of_uint_acc d acc)).
Proof.
  unfold lit.
  revert acc; induction d; intros acc; digit_step; try reflexivity;
    rewrite <- IHd; f_equal; lia.
Qed.

Lemma digits_value_uint (d : Decimal.uint) :
  digits_value 0 (lit (NilEmpty.string_of_uint d)) = Some (N.of_uint d).
Proof.
  induction d; try (exact IHd); try reflexivity;
    unfold lit; digit_step;
    apply (digits_value_acc d).
Qed.

(** Reading the digits that [String] prints for a natural number gives the
    number back. *)
Lemma digits_value_decimal (n : N) :
  digits_value 0 (decimal_of_N n) = Some n.
Proof.
  destruct n as [|p]; [reflexivity|].
  unfold decimal_of_N. rewrite digits_value_uint. f_equal.
  apply DecimalN.Unsigned.of_to.
Qed.

Lemma nzhead_head (d : Decimal.uint) :
  match Decimal.nzhead d with Decimal.D0 _ => False | _ => True end.
Proof. induction d; simpl; auto. Qed.

Lemma to_uint_head (n : N) :
  match N.to_uint n with
  | Decimal.D0 Decimal.Nil => n = 0%N
  | Decimal.D0 _ => False
  | _ => True
  end.
Proof.
  pose proof (DecimalN.Unsigned.to_of (N.to_uint n)) as H.
  rewrite DecimalN.Unsigned.of_to in H.
  pose proof (DecimalN.Unsigned.of_to n) as Hn.
  rewrite H in *. unfold Decimal.unorm in *.
  pose proof (nzhead_head (N.to_uint n)) as Hh.
  destruct (Decimal.nzhead (N.to_uint n)); try exact I; try contradiction.
  symmetry. exact Hn.
Qed.

Lemma leading_zero_decimal (n : N) : leading_zero (decimal_of_N n) = false.
Proof.
  destruct n as [|p]; [reflexivity|].
  unfold decimal_of_N. pose proof (to_uint_head (Npos p)) as H.
  destruct (N.to_uint (Npos p)) as [|d|d|d|d|d|d|d|d|d|d]; try reflexivity;
    try (unfold lit; cbn [NilEmpty.string_of_uint list_ascii_of_string map];
         match goal with
         | |- context [map N_of_ascii ?l] => destruct (map N_of_ascii l)
         end; reflexivity).
  destruct d; try contradiction. discriminate.
Qed.

Lemma decimal_of_N_nonempty (n : N) : decimal_of_N n <> [].
Proof.
  destruct n as [|p]; [discriminate|]. unfold decimal_of_N.
  change (N.to_uint (Npos p)) with (Pos.to_uint p).
  pose proof (DecimalPos.Unsigned.to_uint_nonnil p) as H.
  destruct (Pos.to_uint p); try discriminate. congruence.
Qed.

(** [String] prints a natural number in the one way there is to write
    it. *)
Lemma natural_value_decimal (n : N) :
  natural_value (decimal_of_N n) = Some n.
Proof.
  pose proof (digits_value_decimal n) as H.
  pose proof (leading_zero_decimal n) as L.
  pose proof (@decimal_of_N_nonempty n) as E.
  unfold natural_value. rewrite L, H.
  destruct (decimal_of_N n); [congruence | reflexivity].
Qed.

Lemma digits_value_head (acc n : N) (c : N) (r : jsstring) :
  digits_value acc (c :: r) = Some n -> is_hyphen c = false.
Proof.
  simpl. destruct (is_digit c) eqn:D; [|discriminate]. intros _.
  apply not_true_is_false. intros H. classes. lia.
Qed.

Lemma decimal_value_natural (n : N) :
  decimal_value (decimal_of_N n) = Some (Z.of_N n).
Proof.
  pose proof (natural_value_decimal n) as H.
  pose proof (digits_value_decimal n) as D.
  unfold decimal_value.
  destruct (decimal_of_N n) as [|c r] eqn:E; [discriminate|].
  rewrite (digits_value_head _ _ _ D), H. reflexivity.
Qed.

(** The text that a template literal prints for a close code names it. *)
Lemma code_text_names (code : option Z) : names_code (code_text code) code.
Proof.
  destruct code as [[|p|p]|];
    cbn [code_text decimal_of_Z names_code]; try reflexivity.
  - apply (decimal_value_natural (Npos p)).
  - cbn [decimal_value].
    change (is_hyphen hyphen) with true. cbv iota.
    now rewrite natural_value_decimal.
Qed.

(** The message that the close listener rejects with. *)
Lemma on_close_message (c : capture) (code : option Z) :
  code <> Some 0%Z ->
  exists msg,
    on_close c code = Throw (Error msg) /\
    bridge_message (stderr c) code msg.
Proof.
  intros H.
  assert (E : on_close c code =
              Throw (Error match trim (stderr c) with
                           | [] => lit "Python script exited with code "
                                     ++ code_text code
                           | t => t
                           end)).
  { destruct code as [[| |]|]; try reflexivity. congruence. }
  rewrite E. eexists. split; [reflexivity|].
  destruct (trim (stderr c)) as [|x t] eqn:T.
  - apply trim_empty in T. split; [discriminate|]. split.
    + intros F. congruence.
    + intros _. exists (code_text code). split; [reflexivity|].
      apply code_text_names.
  - split; [discriminate|]. split.
    + intros _. rewrite <- T. apply trim_trimmed_of.
    + intros F. apply trim_empty in F. congruence.
Qed.

Lemma exit_code_dec (a b : option Z) : {a = b} + {a <> b}.
Proof. decide equality. apply Z.eq_dec. Qed.

Lemma on_close_zero (c : capture) : on_close c (Some 0%Z) = Normal (stdout c).
Proof. reflexivity. Qed.

Lemma on_close_failure (c : capture) (code : option Z) :
  code <> Some 0%Z ->
  exists msg,
    on_close c code = Throw (Error msg) /\ msg <> [] /\
    (trim (stderr c) <> [] -> msg = trim (stderr c)) /\
    (trim (stderr c) = [] ->
     msg = lit "Python script exited with code " ++ code_text code).
Proof.
  intros H.
  assert (E : on_close c code =
              Throw (Error match trim (stderr c) with
                           | [] => lit "Python script exited with code "
                                     ++ code_text code
                           | t => t
                           end)).
  { destruct code as [[| |]|]; try reflexivity. congruence. }
  rewrite E. eexists. split; [reflexivity|].
  destruct (trim (stderr c)) as [|x t]; repeat split;
    try discriminate; try congruence; reflexivity.
Qed.

Lemma runPython_closed (host : Host) (scriptPath : jsstring)
    (args : list value) (output : list chunk) (code : option Z) :
  existsSync host scriptPath = true ->
  spawn host ([VString (lit "-X"); VString (lit "utf8"); VString scriptPath]
              ++ args) = Child output (Some code) ->
  runPython host scriptPath args =
  on_close {| stdout := stdout_text output; stderr := stderr_text output |} code.
Proof.
  intros He Hs. unfold runPython. rewrite He, Hs. simpl.
  destruct (capture_fold output {| stdout := []; stderr := [] |}) as [Eo Er].
  simpl in Eo, Er.
  destruct (fold_left on_data output {| stdout := []; stderr := [] |})
    as [o e]. simpl in Eo, Er. now subst.
Qed.

(** C3.  runPython resolves exactly when the script exists and the process
    it starts closes with code zero, and then with all the standard output
    in order, whatever was written to the standard error.  When the process
    closes with another code (or on a signal), it rejects with an error
    whose message is not empty: when the standard error holds more than
    white space, the message is the standard error without the white space
    at its two ends; else it is 'Python script exited with code ' followed
    by the code in decimal, or by 'null' after a signal. *)
Theorem runPython_settles (host : Host) (scriptPath : jsstring) (args : list value) :
  let argv := [VString (lit "-X"); VString (lit "utf8"); VString scriptPath] ++ args in
  (forall out,
      runPython host scriptPath args = Normal out <->
      existsSync host scriptPath = true /\
      exists output,
        spawn host argv = Child output (Some (Some 0%Z)) /\
        out = stdout_text output) /\
  (forall output code,
      existsSync host scriptPath = true ->
      spawn host argv = Child output (Some code) ->
      code <> Some 0%Z ->
      exists msg,
        runPython host scriptPath args = Throw (Error msg) /\ msg <> [] /\
        (forallb is_space (stderr_text output) = false ->
         trimmed_of (stderr_text output) msg) /\
        (forallb is_space (stderr_text output) = true ->
         exists t,
           msg = lit "Python script exited with code " ++ t /\
           match code with
           | Some z => decimal_value t = Some z
           | None => t = lit "null"
           end)).
Proof.
  intros argv. split.
  - intros out. unfold runPython. fold argv.
    destruct (existsSync host scriptPath); simpl.
    + destruct (spawn host argv) as [e | output [code|]].
      * split; [discriminate|]. intros (_ & o & H & _). discriminate.
      * destruct (exit_code_dec code (Some 0%Z)) as [-> | Hc].
        -- rewrite on_close_zero.
           destruct (capture_fold output {| stdout := []; stderr := [] |}) as [-> _].
           simpl. split.
           ++ intros [= <-]. split; [reflexivity|]. eauto.
           ++ intros (_ & o & [= <-] & ->). reflexivity.
        -- destruct (on_close_failure
                       (fold_left on_data output {| stdout := []; stderr := [] |})
                       Hc) as (msg & -> & _).
           split; [discriminate|]. intros (_ & o & [= <- E] & _). congruence.
      * split; [discriminate|]. intros (_ & o & H & _). discriminate.
    + split; [discriminate|]. intros [H _]. discriminate.
  - intros output code He Hs Hc. unfold runPython. fold argv.
    rewrite He, Hs. simpl.
    destruct (on_close_message
                (fold_left on_data output {| stdout := []; stderr := [] |}) Hc)
      as (msg & E & Hn & H1 & H2).
    destruct (capture_fold output {| stdout := []; stderr := [] |}) as [_ Er].
    simpl in Er. rewrite Er in H1, H2. exists msg. auto.
Qed.

Lemma runPython_settles_witness :
  runPython (table_host [] [] [lit "/srv/job.py"]
               (fun _ => Child [Stdout (lit "[1,"); Stderr (lit "warning");
                                Stdout (lit "2]")] (Some (Some 0%Z))))
            (lit "/srv/job.py") [] = Normal (lit "[1,2]") /\
  (exists msg,
      runPython (table_host [] [] [lit "/srv/job.py"]
                   (fun _ => Child [Stderr [32; 10; 9]%N; Stdout (lit "[1,")]
                               (Some (Some 3%Z))))
                (lit "/srv/job.py") [] = Throw (Error msg) /\
      exists t,
        msg = lit "Python script exited with code " ++ t /\
        decimal_value t = Some 3%Z) /\
  (exists msg,
      runPython (table_host [] [] [lit "/srv/job.py"]
                   (fun _ => Child [] (Some None)))
                (lit "/srv/job.py") [] = Throw (Error msg) /\
      msg = lit "Python script exited with code " ++ lit "null") /\
  (exists msg,
      runPython (table_host [] [] [lit "/srv/job.py"]
                   (fun _ => Child [Stderr (32 :: 10 :: lit "No module")%N;
                                    Stderr (lit " named fastf1" ++ [13; 10]%N)]
                               (Some (Some (-9)%Z))))
                (lit "/srv/job.py") [] = Throw (Error msg) /\
      trimmed_of (32%N :: 10%N :: lit "No module" ++ lit " named fastf1" ++ [13; 10]%N)
                 msg).
Proof.
  split; [|split; [|split]].
  - apply (runPython_settles
             (table_host [] [] [lit "/srv/job.py"]
                (fun _ => Child [Stdout (lit "[1,"); Stderr (lit "warning");
                                 Stdout (lit "2]")] (Some (Some 0%Z))))
             (lit "/srv/job.py") []).
    split; [reflexivity|]. eexists. split; reflexivity.
  - destruct (runPython_settles
                (table_host [] [] [lit "/srv/job.py"]
                   (fun _ => Child [Stderr [32; 10; 9]%N; Stdout (lit "[1,")]
                               (Some (Some 3%Z))))
                (lit "/srv/job.py") []) as [_ H].
    destruct (H [Stderr [32; 10; 9]%N; Stdout (lit "[1,")] (Some 3%Z))
      as (msg & E & _ & _ & M);
      [reflexivity | reflexivity | discriminate |].
    exists msg. split; [exact E | apply M; reflexivity].
  - destruct (runPython_settles
                (table_host [] [] [lit "/srv/job.py"]
                   (fun _ => Child [] (Some None)))
                (lit "/srv/job.py") []) as [_ H].
    destruct (H [] None) as (msg & E & _ & _ & M);
      [reflexivity | reflexivity | discriminate |].
    exists msg. split; [exact E|].
    destruct (M eq_refl) as (t & -> & ->). reflexivity.
  - destruct (runPython_settles
                (table_host [] [] [lit "/srv/job.py"]
                   (fun _ => Child [Stderr (32 :: 10 :: lit "No module")%N;
                                    Stderr (lit " named fastf1" ++ [13; 10]%N)]
                               (Some (Some (-9)%Z))))
                (lit "/srv/job.py") []) as [_ H].
    destruct (H [Stderr (32 :: 10 :: lit "No module")%N;
                 Stderr (lit " named fastf1" ++ [13; 10]%N)] (Some (-9)%Z))
      as (msg & E & _ & M & _);
      [reflexivity | reflexivity | discriminate |].
    exists msg. split; [exact E | apply M; reflexivity].
Defined.

(* ------------------------------------------------------------------ *)
(** ** The image probe *)

Lemma first_image_find (host : Host) (circuitName : jsstring)
    (extensions : list jsstring) :
  first_image host circuitName extensions =
  match List.find (image_exists host circuitName) extensions with
  | Some ext => image_url circuitName ext
  | None => VNull
  end.
Proof.
  induction extensions as [|ext r IH]; simpl; [reflexivity|].
  unfold image_exists at 1, image_path.
  destruct (existsSync host _); [reflexivity | exact IH].
Qed.

(** The guard [if (circuitName)]: without a name, or with the empty name,
    nothing is probed. *)
Lemma trackImageUrl_no_name (host : Host) :
  trackImageUrl host VUndefined = VNull /\
  trackImageUrl host (VString []) = VNull.
Proof. split; reflexivity. Qed.

(** C7.  For every circuit name and every state of the tracks directory,
    the probe takes the first extension, in the order avif, png, webp, jpg,
    jpeg, whose image exists: with the .png present and the .avif absent it
    takes .png whatever else exists; and it yields null when none of the
    five images exists. *)
Theorem trackImageUrl_first_existing (host : Host) (circuitName : jsstring) :
  circuitName <> [] ->
  possibleExtensions = [lit "avif"; lit "png"; lit "webp"; lit "jpg"; lit "jpeg"] /\
  trackImageUrl host (VString circuitName) =
    match List.find (image_exists host circuitName) possibleExtensions with
    | Some ext => image_url circuitName ext
    | None => VNull
    end /\
  (image_exists host circuitName (lit "avif") = false ->
   image_exists host circuitName (lit "png") = true ->
   trackImageUrl host (VString circuitName) = image_url circuitName (lit "png")) /\
  (Forall (fun ext => image_exists host circuitName ext = false) possibleExtensions ->
   trackImageUrl host (VString circuitName) = VNull).
Proof.
  intros Hne.
  assert (E : trackImageUrl host (VString circuitName) =
              first_image host circuitName possibleExtensions)
    by (destruct circuitName; [contradiction | reflexivity]).
  rewrite E, first_image_find.
  split; [reflexivity|]. split; [reflexivity|]. split.
  - intros Ha Hp. unfold possibleExtensions. simpl. now rewrite Ha, Hp.
  - intros H. destruct (List.find _ possibleExtensions) as [ext|] eqn:F;
      [|reflexivity].
    apply find_some in F as [Hin Hex].
    rewrite Forall_forall in H. rewrite (H ext Hin) in Hex. discriminate.
Qed.

Lemma trackImageUrl_first_existing_witness :
  trackImageUrl
    (table_host [] []
       [lit "/srv/public/images/tracks/bahrain.jpg";
        lit "/srv/public/images/tracks/bahrain.png"]
       (fun _ => Child [] None))
    (VString (lit "bahrain")) =
  VString (lit "/images/tracks/bahrain.png").
Proof.
  apply (trackImageUrl_first_existing
           (table_host [] []
              [lit "/srv/public/images/tracks/bahrain.jpg";
               lit "/srv/public/images/tracks/bahrain.png"]
              (fun _ => Child [] None))
           (circuitName := lit "bahrain")); [discriminate | reflexivity | reflexivity].
Defined.

(* ------------------------------------------------------------------ *)
(** ** GET /drivers/:driverId *)

Lemma find_split {A} (p : A -> bool) (l : list A) (x : A) :
  List.find p l = Some x ->
  p x = true /\
  exists before after,
    l = before ++ x :: after /\ Forall (fun y => p y = false) before.
Proof.
  induction l as [|y r IH]; simpl; [discriminate|].
  destruct (p y) eqn:E.
  - intros [= <-]. split; [exact E|]. exists [], r. split; auto.
  - intros H. destruct (IH H) as (Hx & before & after & -> & Hb).
    split; [exact Hx|]. exists (y :: before), after. split; auto.
Qed.

Lemma find_none_all {A} (p : A -> bool) (l : list A) :
  List.find p l = None -> Forall (fun y => p y = false) l.
Proof.
  intros H. apply Forall_forall. intros y Hy.
  now apply (find_none p l H).
Qed.

Lemma has_slug_true (host : Host) (driverId : jsstring) (d : value) :
  has_slug host driverId d = true <-> driver_slug host d = Some driverId.
Proof.
  unfold has_slug. destruct (driver_slug host d) as [s|].
  - rewrite jsstring_eqb_eq. split; congruence.
  - split; discriminate.
Qed.

Lemma has_slug_false (host : Host) (driverId : jsstring) (d : value) :
  has_slug host driverId d = false <-> driver_slug host d <> Some driverId.
Proof.
  rewrite <- has_slug_true. destruct (has_slug host driverId d); split;
    congruence.
Qed.

(** On a record, the callback of the lookup compares the slug. *)
Lemma driver_matches_record (host : Host) (driverId : jsstring) (d : value) :
  driver_slug host d <> None ->
  driver_matches host driverId d = Normal (has_slug host driverId d) /\
  truthy d = true.
Proof.
  unfold driver_matches, has_slug, driver_slug.
  destruct d; try congruence. intros H.
  change (get (VObject fields) (lit "full_name"))
    with (Normal (A := value) (read (VObject fields) (lit "full_name"))).
  cbn [bind].
  destruct (slugify host (read (VObject fields) (lit "full_name")));
    try congruence. split; reflexivity.
Qed.

Lemma find_in_records (host : Host) (driverId : jsstring) (ds : list value) :
  Forall (fun d => driver_slug host d <> None) ds ->
  find_in (driver_matches host driverId) ds =
  Normal match List.find (has_slug host driverId) ds with
         | Some d => d
         | None => VUndefined
         end.
Proof.
  induction 1 as [|d r Hd Hr IH]; simpl; [reflexivity|].
  destruct (driver_matches_record host driverId d Hd) as [-> _]. cbn [bind].
  destruct (has_slug host driverId d); [reflexivity | exact IH].
Qed.

(** The page of a driver that was found is rendered with that record as
    [info], provided the descriptions could be loaded. *)
Lemma driver_detail_page_renders (host : Host) (d descriptions : value) :
  driver_slug host d <> None ->
  readJSON host (path_join host [DATA_DIR host; lit "driver_descriptions.json"])
    = Normal descriptions ->
  nullish descriptions = false ->
  exists description season career,
    driver_detail_page host d =
    Normal (Render 200 (lit "driver-detail")
              [(lit "info", d); (lit "description", description);
               (lit "season", season); (lit "career", career);
               (lit "error", VNull);
               (lit "currentPage", VString (lit "drivers"))]).
Proof.
  intros Hd Hr Hn. unfold driver_detail_page. rewrite Hr. cbn [bind].
  unfold driver_slug in Hd. destruct d; try congruence.
  change (get (VObject fields) (lit "full_name"))
    with (Normal (A := value) (read (VObject fields) (lit "full_name"))).
  cbn [bind].
  set (name := read (VObject fields) (lit "full_name")) in *.
  destruct (slugify host name) as [slug| |] eqn:S; try congruence.
  assert (C : exists key, ToString name = Normal key).
  { destruct (coercible name) eqn:K; [now apply ToString_coercible|].
    rewrite (slugify_not_coercible host name K) in S. discriminate. }
  destruct C as [key ->]. cbn [bind].
  unfold get. rewrite Hn. cbn [bind].
  destruct (readJSON_value host
              (path_join host [DATA_DIR host; lit "stats"; slug ++ lit ".json"]))
    as [stats ->].
  cbn [bind]. eauto.
Qed.

(** The scan of [find] passes the elements that the callback refuses. *)
Lemma find_in_skip (pred : value -> completion bool) (before rest : list value) :
  Forall (fun y => pred y = Normal false) before ->
  find_in pred (before ++ rest) = find_in pred rest.
Proof.
  induction 1 as [|y r Hy _ IH]; simpl; [reflexivity|].
  rewrite Hy. exact IH.
Qed.

(** C2.  For every list of driver records and every [driverId], the handler
    takes the first record of the list whose slug is [driverId]: it renders
    that record with status 200 (the 500 error page, should the rest of its
    data fail to load), and it answers with status 404 and the empty view
    model (null info and description, empty season and career, the
    not-found message) when no record has the slug.  So the slug of any
    record of the list finds that record or an earlier one with the same
    slug.  When the scan meets, before any record with the slug, a null
    element or a record whose name does not coerce to a string, the answer
    is the 500 error page. *)
Theorem driver_detail_first_match (host : Host) (driverId : jsstring)
    (ds : list value) :
  readJSON host (path_join host [DATA_DIR host; lit "drivers.json"])
    = Normal (VArray ds) ->
  (Forall (fun d => driver_slug host d <> None) ds ->
   match List.find (has_slug host driverId) ds with
   | Some d =>
       driver_slug host d = Some driverId /\
       (exists before after,
           ds = before ++ d :: after /\
           Forall (fun x => driver_slug host x <> Some driverId) before) /\
       driver_detail_handler host driverId =
         try_catch (driver_detail_page host d)
                   (fun _ =>
                      Normal (Render 500 (lit "driver-detail")
                                [(lit "info", VNull); (lit "description", VNull);
                                 (lit "season", VObject []);
                                 (lit "career", VObject []);
                                 (lit "error", VString MSG_DRIVER_LOAD_FAILED);
                                 (lit "currentPage", VString (lit "drivers"))])) /\
       (forall descriptions,
           readJSON host
             (path_join host [DATA_DIR host; lit "driver_descriptions.json"])
             = Normal descriptions ->
           nullish descriptions = false ->
           exists description season career,
             driver_detail_handler host driverId =
             Normal (Render 200 (lit "driver-detail")
                       [(lit "info", d); (lit "description", description);
                        (lit "season", season); (lit "career", career);
                        (lit "error", VNull);
                        (lit "currentPage", VString (lit "drivers"))]))
   | None =>
       Forall (fun x => driver_slug host x <> Some driverId) ds /\
       driver_detail_handler host driverId =
         Normal (Render 404 (lit "driver-detail")
                   [(lit "info", VNull); (lit "description", VNull);
                    (lit "season", VObject []); (lit "career", VObject []);
                    (lit "error", VString MSG_DRIVER_NOT_FOUND);
                    (lit "currentPage", VString (lit "drivers"))])
   end /\
   (forall d s,
       In d ds -> driver_slug host d = Some s ->
       exists d' before after,
         List.find (has_slug host s) ds = Some d' /\
         driver_slug host d' = Some s /\
         ds = before ++ d' :: after /\ In d (d' :: after))) /\
  (forall before x after,
      ds = before ++ x :: after ->
      Forall (fun d => driver_slug host d <> None) before ->
      Forall (fun d => driver_slug host d <> Some driverId) before ->
      nullish x = true \/
      (exists fields, x = VObject fields /\
                      coercible (read x (lit "full_name")) = false) ->
      driver_detail_handler host driverId =
        Normal (Render 500 (lit "driver-detail")
                  [(lit "info", VNull); (lit "description", VNull);
                   (lit "season", VObject []); (lit "career", VObject []);
                   (lit "error", VString MSG_DRIVER_LOAD_FAILED);
                   (lit "currentPage", VString (lit "drivers"))])).
Proof.
  intros Hr. split; [intros Hrec; split|].
  - assert (Hh : driver_detail_handler host driverId =
                 try_catch
                   (let driver := match List.find (has_slug host driverId) ds with
                                  | Some d => d
                                  | None => VUndefined
                                  end in
                    if negb (truthy driver) then Normal driver_not_found
                    else driver_detail_page host driver)
                   (fun _ => Normal driver_load_failed)).
    { unfold driver_detail_handler. rewrite Hr. cbn [bind find].
      now rewrite (find_in_records host driverId Hrec). }
    destruct (List.find (has_slug host driverId) ds) as [d|] eqn:F.
    + destruct (find_split _ _ F) as (Hd & before & after & E & Hb).
      assert (Hin : In d ds) by (rewrite E; apply in_elt).
      assert (Hs : driver_slug host d <> None)
        by (rewrite Forall_forall in Hrec; now apply Hrec).
      destruct (driver_matches_record host driverId d Hs) as [_ T].
      assert (Hp : driver_detail_handler host driverId =
                   try_catch (driver_detail_page host d)
                             (fun _ => Normal driver_load_failed))
        by (rewrite Hh; cbn zeta; now rewrite T).
      split; [now apply has_slug_true|]. split.
      * exists before, after. split; [exact E|].
        eapply Forall_impl; [|exact Hb]. intros x. apply has_slug_false.
      * split; [exact Hp|]. intros descriptions Hdesc Hn.
        destruct (driver_detail_page_renders host d Hs Hdesc Hn)
          as (description & season & career & P).
        exists description, season, career. now rewrite Hp, P.
    + split.
      * eapply Forall_impl; [|exact (find_none_all _ _ F)].
        intros x. apply has_slug_false.
      * now rewrite Hh.
  - intros d s Hin Hs.
    destruct (List.find (has_slug host s) ds) as [d'|] eqn:F.
    + destruct (find_split _ _ F) as (Hd & before & after & E & Hb).
      exists d', before, after. split; [reflexivity|].
      split; [now apply has_slug_true|]. split; [exact E|].
      rewrite E in Hin. apply in_app_or in Hin as [Hin|Hin]; [|exact Hin].
      rewrite Forall_forall in Hb. specialize (Hb d Hin).
      apply has_slug_false in Hb. contradiction.
    + pose proof (find_none _ _ F d Hin) as N.
      apply has_slug_false in N. contradiction.
  - intros before x after E Hdef Hno Hx.
    assert (Hskip : Forall (fun y => driver_matches host driverId y = Normal false)
                           before).
    { rewrite Forall_forall in *. intros y Hy.
      destruct (driver_matches_record host driverId y (Hdef y Hy)) as [-> _].
      f_equal. apply has_slug_false. now apply Hno. }
    assert (Hthrow : exists e, driver_matches host driverId x = Throw e).
    { destruct Hx as [Hx | (fields & -> & Hc)].
      - unfold driver_matches, get. rewrite Hx. eexists. reflexivity.
      - unfold driver_matches.
        change (get (VObject fields) (lit "full_name"))
          with (Normal (A := value) (read (VObject fields) (lit "full_name"))).
        cbn [bind]. rewrite (slugify_not_coercible host _ Hc).
        eexists. reflexivity. }
    destruct Hthrow as [e He].
    unfold driver_detail_handler. rewrite Hr. cbn [bind find].
    rewrite E, (find_in_skip _ (x :: after) Hskip). cbn [find_in].
    rewrite He. reflexivity.
Qed.

Lemma driver_detail_first_match_witness :
  (exists description season career,
      driver_detail_handler drivers_host (lit "max-verstappen") =
      Normal (Render 200 (lit "driver-detail")
                [(lit "info",
                  VObject [(lit "full_name", VString (lit "Max Verstappen"));
                           (lit "number", VNumber (NonZero (lit "1")))]);
                 (lit "description", description);
                 (lit "season", season); (lit "career", career);
                 (lit "error", VNull);
                 (lit "currentPage", VString (lit "drivers"))])) /\
  driver_detail_handler drivers_host (lit "ayrton-senna") =
    Normal (Render 404 (lit "driver-detail")
              [(lit "info", VNull); (lit "description", VNull);
               (lit "season", VObject []); (lit "career", VObject []);
               (lit "error", VString MSG_DRIVER_NOT_FOUND);
               (lit "currentPage", VString (lit "drivers"))]) /\
  driver_detail_handler
    (table_host [(lit "/srv/public/data/drivers.json", lit "[null]")]
                [(lit "[null]", VArray [VNull])] [] (fun _ => Child [] None))
    (lit "max-verstappen") =
    Normal (Render 500 (lit "driver-detail")
              [(lit "info", VNull); (lit "description", VNull);
               (lit "season", VObject []); (lit "career", VObject []);
               (lit "error", VString MSG_DRIVER_LOAD_FAILED);
               (lit "currentPage", VString (lit "drivers"))]).
Proof.
  assert (R : Forall (fun d => driver_slug drivers_host d <> None) sample_drivers)
    by (repeat constructor; discriminate).
  split; [|split].
  - destruct (@driver_detail_first_match drivers_host (lit "max-verstappen")
                sample_drivers eq_refl) as [H _].
    destruct (H R) as [H1 _].
    assert (F : List.find (has_slug drivers_host (lit "max-verstappen"))
                  sample_drivers = nth_error sample_drivers 0) by reflexivity.
    rewrite F in H1. cbn [nth_error sample_drivers] in H1.
    destruct H1 as (_ & _ & _ & H1).
    apply (H1 (VObject [])); reflexivity.
  - destruct (@driver_detail_first_match drivers_host (lit "ayrton-senna")
                sample_drivers eq_refl) as [H _].
    destruct (H R) as [H1 _].
    assert (F : List.find (has_slug drivers_host (lit "ayrton-senna"))
                  sample_drivers = None) by reflexivity.
    rewrite F in H1. exact (proj2 H1).
  - destruct (@driver_detail_first_match
                (table_host [(lit "/srv/public/data/drivers.json", lit "[null]")]
                   [(lit "[null]", VArray [VNull])] [] (fun _ => Child [] None))
                (lit "max-verstappen") [VNull] eq_refl) as [_ H].
    apply (H [] VNull []); [reflexivity | constructor | constructor |].
    left. reflexivity.
Defined.

(** C9 (what the code does).  When the loader returns null for the drivers
    file, the lookup [drivers.find] raises a TypeError, which the handler
    catches: the response is the 500 error page, not the 404 page. *)
Theorem driver_detail_without_data (host : Host) (driverId : jsstring) :
  readJSON host (path_join host [DATA_DIR host; lit "drivers.json"]) = Normal VNull ->
  driver_detail_handler host driverId = Normal driver_load_failed /\
  status_of driver_load_failed = 500%Z /\
  driver_load_failed <> driver_not_found.
Proof.
  intros H. unfold driver_detail_handler. rewrite H.
  repeat split. discriminate.
Qed.

Lemma driver_detail_without_data_witness :
  driver_detail_handler bare_host (lit "max-verstappen") = Normal driver_load_failed.
Proof.
  apply (driver_detail_without_data bare_host (lit "max-verstappen")).
  reflexivity.
Defined.

(* ------------------------------------------------------------------ *)
(** ** Sessions that the schedule does not hold *)

Lemma session_matches_key_text (session_key : jsstring) (s : value) (t : jsstring) :
  key_text s = Normal t ->
  session_matches session_key s = Normal (jsstring_eqb t session_key).
Proof.
  unfold key_text, session_matches.
  destruct (get s (lit "session_key")) as [k| |]; cbn [bind]; try discriminate.
  now intros ->.
Qed.

Lemma find_in_absent (session_key : jsstring) (entries : list value) :
  Forall (fun s => exists t, key_text s = Normal t /\ t <> session_key) entries ->
  find_in (session_matches session_key) entries = Normal VUndefined.
Proof.
  induction 1 as [|s r (t & Ht & Hne) Hr IH]; simpl; [reflexivity|].
  rewrite (session_matches_key_text session_key s Ht). cbn [bind].
  apply jsstring_eqb_neq in Hne. now rewrite Hne.
Qed.

Lemma find_opt_absent (session_key : jsstring) (schedule : value) :
  key_absent session_key schedule ->
  find_opt schedule (session_matches session_key) = Normal VUndefined.
Proof.
  intros [-> | (entries & -> & H)]; [reflexivity|].
  unfold find_opt. simpl. now apply find_in_absent.
Qed.

Lemma router_locations_never_404 (host : Host)
    (session_key startTime endTime : jsstring) (r : response) :
  Router.locations_handler host session_key startTime endTime = Normal r ->
  status_of r <> 404%Z.
Proof.
  unfold Router.locations_handler.
  destruct (existsSync host _); simpl.
  - destruct (spawn host _) as [e | chunks [[[| |]|]|]]; try discriminate;
      try (intros [= <-]; discriminate).
    unfold parse. destruct (JSON_parse host _); simpl;
      intros [= <-]; discriminate.
  - intros [= <-]. discriminate.
Qed.

(** C4, as amended.  In f1api.js, for every session key that no entry of
    the schedule has (the schedule file gave nothing, or an array of
    entries with other keys), the replay page and the locations endpoint
    both answer 404; so does the replay page of the router module.  The
    locations endpoint of the router module does not consult the schedule:
    it never answers 404. *)
Theorem absent_session_not_found (host : Host) (session_key : jsstring)
    (schedule : value) :
  readJSON host (path_join host [DATA_DIR host; lit "schedule.json"])
    = Normal schedule ->
  key_absent session_key schedule ->
  replay_handler host session_key = Normal session_not_found /\
  status_of session_not_found = 404%Z /\
  (forall startTime endTime,
      locations_handler host session_key startTime endTime =
      Normal (json_error 404 (lit "Session info not found for the given key."))) /\
  Router.replay_handler host session_key = Normal session_not_found /\
  (forall startTime endTime r,
      Router.locations_handler host session_key startTime endTime = Normal r ->
      status_of r <> 404%Z).
Proof.
  intros Hr Ha. pose proof (find_opt_absent Ha) as F.
  destruct (readJSON_value host
              (path_join host [DATA_DIR host; lit "track_layouts.json"]))
    as [layouts Hl].
  repeat split.
  - unfold replay_handler. rewrite Hr, Hl. cbn [bind]. now rewrite F.
  - intros startTime endTime. unfold locations_handler. rewrite Hr.
    cbn [bind]. now rewrite F.
  - unfold Router.replay_handler. rewrite Hr, Hl. cbn [bind]. now rewrite F.
  - intros startTime endTime r. apply router_locations_never_404.
Qed.

Lemma absent_session_not_found_witness :
  replay_handler (schedule_host (lit "[]") (VArray [])) (lit "7")
    = Normal session_not_found /\
  locations_handler (schedule_host (lit "[]") (VArray [])) (lit "7")
    (lit "0") (lit "10")
    = Normal (json_error 404 (lit "Session info not found for the given key.")).
Proof.
  assert (A : key_absent (lit "7") (VArray [sample_session])).
  { right. exists [sample_session]. split; [reflexivity|].
    constructor; [|constructor].
    exists (lit "9158"). split; [reflexivity | discriminate]. }
  destruct (absent_session_not_found
              (schedule_host (lit "[]") (VArray [])) eq_refl A)
    as (H1 & _ & H2 & _).
  split; [exact H1 | apply H2].
Defined.

(** C4, as stated, fails on the router module: with a schedule that does
    not hold the key "7", its locations endpoint starts the script all the
    same and answers 200 with what the script printed. *)
Lemma router_locations_ignores_schedule :
  readJSON (schedule_host (lit "[]") (VArray []))
           (lit "/srv/public/data/schedule.json")
    = Normal (VArray [sample_session]) /\
  key_text sample_session = Normal (lit "9158") /\
  Router.locations_handler (schedule_host (lit "[]") (VArray [])) (lit "7")
    (lit "0") (lit "10")
    = Normal (Json 200 (VArray [])).
Proof. repeat split. Qed.

(* ------------------------------------------------------------------ *)
(** ** GET /replays/:session_key *)

Lemma lookup_assign (k k' : jsstring) (x : value) (fields : list (jsstring * value)) :
  lookup k (assign k' x fields) =
  if jsstring_eqb k' k then Some x else lookup k fields.
Proof.
  induction fields as [|[k0 y] r IH]; simpl; [reflexivity|].
  destruct (jsstring_eqb k0 k') eqn:E; simpl.
  - apply jsstring_eqb_eq in E. subst k0.
    destruct (jsstring_eqb k' k); reflexivity.
  - rewrite IH. destruct (jsstring_eqb k0 k) eqn:E0; [|reflexivity].
    destruct (jsstring_eqb k' k) eqn:E1; [|reflexivity].
    apply jsstring_eqb_eq in E0, E1. subst.
    rewrite jsstring_eqb_refl in E. discriminate.
Qed.

Lemma lookup_merge_timing (k from to : jsstring) (raceTiming : value)
    (info : list (jsstring * value)) :
  jsstring_eqb to k = false ->
  lookup k (merge_timing raceTiming from to info) = lookup k info.
Proof.
  intros H. unfold merge_timing.
  destruct (truthy (get_opt raceTiming from)); [|reflexivity].
  now rewrite lookup_assign, H.
Qed.

(** The layout put into the session object is the one read back from it,
    whatever the race timing holds. *)
Lemma finalSessionInfo_layout (sessionInfo image layout raceTiming : value) :
  exists info,
    finalSessionInfo sessionInfo image layout raceTiming = VObject info /\
    lookup (lit "layout") info = Some layout.
Proof.
  unfold finalSessionInfo. eexists. split; [reflexivity|].
  rewrite !lookup_merge_timing by reflexivity.
  now rewrite lookup_assign.
Qed.

Lemma find_in_layout_absent (circuitName : value) (entries : list value) :
  Forall (fun l => nullish l = false /\
                   strict_equals (read l (lit "circuit_short_name")) circuitName = false)
         entries ->
  find_in (layout_matches circuitName) entries = Normal VUndefined.
Proof.
  induction 1 as [|l r [Hn He] Hr IH]; simpl; [reflexivity|].
  unfold layout_matches, get. rewrite Hn. cbn [bind]. now rewrite He.
Qed.

Lemma find_opt_layout_absent (circuitName layouts : value) :
  layout_absent circuitName layouts ->
  find_opt layouts (layout_matches circuitName) = Normal VUndefined.
Proof.
  intros [-> | (entries & -> & H)]; [reflexivity|].
  unfold find_opt. simpl. now apply find_in_layout_absent.
Qed.

(** The handler, once the session is found and its circuit name and layout
    are known: what is left is the race timing and the directory. *)
Lemma replay_handler_found (host : Host) (session_key : jsstring)
    (schedule layouts sessionInfo circuitName layout drivers f1Teams : value) :
  readJSON host (path_join host [DATA_DIR host; lit "schedule.json"])
    = Normal schedule ->
  readJSON host (path_join host [DATA_DIR host; lit "track_layouts.json"])
    = Normal layouts ->
  find_opt schedule (session_matches session_key) = Normal sessionInfo ->
  truthy sessionInfo = true ->
  circuit_name host sessionInfo = Normal circuitName ->
  find_opt layouts (layout_matches circuitName) = Normal layout ->
  readJSON host (path_join host [DATA_DIR host; lit "drivers.json"])
    = Normal drivers ->
  readJSON host (path_join host [ROOT_DIR host; lit "f1_team.json"])
    = Normal f1Teams ->
  replay_handler host session_key =
  try_catch
    (raceTiming <- fetchRaceTimingFromPython host sessionInfo ;;
     directory <- driverDirectory drivers f1Teams ;;
     Normal (Render 200 (lit "race-tracker")
               [(lit "session_key", VString session_key);
                (lit "driverDirectory", directory);
                (lit "sessionInfo",
                 finalSessionInfo sessionInfo (trackImageUrl host circuitName)
                   layout raceTiming);
                (lit "currentPage", VString (lit "schedule"));
                (lit "error", VNull)]))
    (fun e => Normal (replay_failed host session_key e)).
Proof.
  intros Hs Hl Hf Ht Hc Hy Hd Hm.
  unfold replay_handler. rewrite Hs, Hl. cbn [bind]. rewrite Hf. cbn [bind].
  unfold or_else. rewrite Ht. cbv beta zeta iota. rewrite Ht. cbn [negb].
  unfold replay_page. rewrite Hc. cbn [bind]. rewrite Hy. cbn [bind].
  rewrite Hd, Hm. reflexivity.
Qed.

(** C8.  For a session that the schedule holds and whose circuit has no
    entry in the track layouts (the layouts file gave nothing, or an array
    of layouts of other circuits), the missing layout makes the handler
    fail in no way: what is left can only fail in the race timing or the
    directory, and when these succeed the page is rendered with status 200
    and a session object whose layout is the absent value (undefined). *)
Theorem replay_without_layout (host : Host) (session_key : jsstring)
    (schedule layouts sessionInfo circuitName drivers f1Teams : value) :
  readJSON host (path_join host [DATA_DIR host; lit "schedule.json"])
    = Normal schedule ->
  readJSON host (path_join host [DATA_DIR host; lit "track_layouts.json"])
    = Normal layouts ->
  find_opt schedule (session_matches session_key) = Normal sessionInfo ->
  truthy sessionInfo = true ->
  circuit_name host sessionInfo = Normal circuitName ->
  layout_absent circuitName layouts ->
  readJSON host (path_join host [DATA_DIR host; lit "drivers.json"])
    = Normal drivers ->
  readJSON host (path_join host [ROOT_DIR host; lit "f1_team.json"])
    = Normal f1Teams ->
  let page raceTiming directory :=
    Render 200 (lit "race-tracker")
      [(lit "session_key", VString session_key);
       (lit "driverDirectory", directory);
       (lit "sessionInfo",
        finalSessionInfo sessionInfo (trackImageUrl host circuitName)
          VUndefined raceTiming);
       (lit "currentPage", VString (lit "schedule"));
       (lit "error", VNull)] in
  replay_handler host session_key =
    try_catch
      (raceTiming <- fetchRaceTimingFromPython host sessionInfo ;;
       directory <- driverDirectory drivers f1Teams ;;
       Normal (page raceTiming directory))
      (fun e => Normal (replay_failed host session_key e)) /\
  (forall raceTiming directory,
      fetchRaceTimingFromPython host sessionInfo = Normal raceTiming ->
      driverDirectory drivers f1Teams = Normal directory ->
      replay_handler host session_key = Normal (page raceTiming directory) /\
      status_of (page raceTiming directory) = 200%Z) /\
  (forall raceTiming,
      exists info layout,
        finalSessionInfo sessionInfo (trackImageUrl host circuitName)
          VUndefined raceTiming = VObject info /\
        lookup (lit "layout") info = Some layout /\
        nullish layout = true).
Proof.
  intros Hs Hl Hf Ht Hc Ha Hd Hm page.
  pose proof (replay_handler_found host session_key Hs Hl Hf Ht Hc
                (find_opt_layout_absent Ha) Hd Hm) as H.
  split; [exact H|]. split.
  - intros raceTiming directory Hr Hdir. rewrite H, Hr. cbn [bind].
    rewrite Hdir. split; reflexivity.
  - intros raceTiming.
    destruct (finalSessionInfo_layout sessionInfo
                (trackImageUrl host circuitName) VUndefined raceTiming)
      as (info & E & L).
    exists info, VUndefined. auto.
Qed.

Lemma replay_without_layout_witness :
  replay_handler (schedule_host (lit "{}") (VObject [])) (lit "9158") =
  Normal (Render 200 (lit "race-tracker")
            [(lit "session_key", VString (lit "9158"));
             (lit "driverDirectory", VObject []);
             (lit "sessionInfo",
              VObject [(lit "session_key", VNumber (NonZero (lit "9158")));
                       (lit "session_year", VNumber (NonZero (lit "2024")));
                       (lit "meeting_name", VString (lit "Bahrain Grand Prix"));
                       (lit "session_name", VString (lit "Race"));
                       (lit "circuit_short_name", VString (lit "Sakhir"));
                       (lit "trackImageUrl", VNull);
                       (lit "layout", VUndefined)]);
             (lit "currentPage", VString (lit "schedule"));
             (lit "error", VNull)]).
Proof.
  destruct (replay_without_layout (schedule_host (lit "{}") (VObject []))
              (lit "9158")
              (schedule := VArray [sample_session]) (layouts := VNull)
              (sessionInfo := sample_session)
              (circuitName := VString (lit "sakhir"))
              (drivers := VNull) (f1Teams := VNull)
              eq_refl eq_refl eq_refl eq_refl eq_refl (or_introl eq_refl)
              eq_refl eq_refl) as (_ & H & _).
  destruct (H (VObject []) (VObject []) eq_refl eq_refl) as [E _].
  exact E.
Defined.

(** What [fetchRaceTimingFromPython] does with the output of the script. *)
Lemma fetchRaceTiming_output (host : Host) (sessionInfo : value)
    (args : list value) (raw : jsstring) (parsed : value) :
  race_timing_args host sessionInfo = Normal args ->
  runPython host (path_join host [ROOT_DIR host; lit "get_replay_data.py"]) args
    = Normal raw ->
  JSON_parse host raw = Some parsed ->
  fetchRaceTimingFromPython host sessionInfo =
  if truthy (get_opt parsed (lit "error"))
  then m <- ToString (get_opt parsed (lit "error")) ;; Throw (Error m)
  else Normal parsed.
Proof.
  intros Ha Hr Hp. unfold fetchRaceTimingFromPython. rewrite Ha. cbn [bind].
  rewrite Hr. cbn [bind]. unfold parse. rewrite Hp. cbn [bind].
  destruct (truthy (get_opt parsed (lit "error"))); [|reflexivity].
  destruct (ToString (get_opt parsed (lit "error"))); reflexivity.
Qed.

(** C6, as amended.  When the race-timing script, run for the session,
    closes with code 0 and its standard output parses to a value whose
    [error] field is truthy, with text [m], the fetch fails with that text,
    and the handler answers with the 500 error page, whose message ends
    with [m]; no timing data is rendered.  When the [error] field of that
    value is falsy, present or not, the fetch resolves with the value and
    the page is rendered from it with status 200. *)
Theorem timing_error_fails (host : Host) (session_key : jsstring)
    (schedule layouts sessionInfo circuitName layout : value)
    (args : list value) (output : list chunk) (parsed : value) :
  readJSON host (path_join host [DATA_DIR host; lit "schedule.json"])
    = Normal schedule ->
  readJSON host (path_join host [DATA_DIR host; lit "track_layouts.json"])
    = Normal layouts ->
  find_opt schedule (session_matches session_key) = Normal sessionInfo ->
  truthy sessionInfo = true ->
  circuit_name host sessionInfo = Normal circuitName ->
  find_opt layouts (layout_matches circuitName) = Normal layout ->
  race_timing_args host sessionInfo = Normal args ->
  existsSync host (path_join host [ROOT_DIR host; lit "get_replay_data.py"])
    = true ->
  spawn host ([VString (lit "-X"); VString (lit "utf8");
               VString (path_join host [ROOT_DIR host; lit "get_replay_data.py"])]
              ++ args) = Child output (Some (Some 0%Z)) ->
  JSON_parse host (stdout_text output) = Some parsed ->
  (forall m,
      truthy (get_opt parsed (lit "error")) = true ->
      ToString (get_opt parsed (lit "error")) = Normal m ->
      fetchRaceTimingFromPython host sessionInfo = Throw (Error m) /\
      replay_handler host session_key =
        Normal (Render 500 (lit "race-tracker")
                  [(lit "session_key", VString session_key);
                   (lit "driverDirectory", VObject []);
                   (lit "sessionInfo", VNull);
                   (lit "error", VString (MSG_PAGE_LOAD_ERROR ++ lit ": " ++ m));
                   (lit "currentPage", VString (lit "schedule"))])) /\
  (truthy (get_opt parsed (lit "error")) = false ->
   fetchRaceTimingFromPython host sessionInfo = Normal parsed /\
   forall drivers f1Teams directory,
     readJSON host (path_join host [DATA_DIR host; lit "drivers.json"])
       = Normal drivers ->
     readJSON host (path_join host [ROOT_DIR host; lit "f1_team.json"])
       = Normal f1Teams ->
     driverDirectory drivers f1Teams = Normal directory ->
     replay_handler host session_key =
       Normal (Render 200 (lit "race-tracker")
                 [(lit "session_key", VString session_key);
                  (lit "driverDirectory", directory);
                  (lit "sessionInfo",
                   finalSessionInfo sessionInfo (trackImageUrl host circuitName)
                     layout parsed);
                  (lit "currentPage", VString (lit "schedule"));
                  (lit "error", VNull)])).
Proof.
  intros Hs Hl Hf Ht Hc Hy Ha Hx Hsp Hp.
  pose proof (runPython_closed host _ args Hx Hsp) as Hr.
  rewrite on_close_zero in Hr. cbn [stdout] in Hr.
  pose proof (fetchRaceTiming_output host sessionInfo Ha Hr Hp) as F.
  split.
  - intros m He Hm. rewrite He, Hm in F. cbn [bind] in F.
    split; [exact F|].
    destruct (readJSON_value host (path_join host [DATA_DIR host; lit "drivers.json"]))
      as [drivers Hd].
    destruct (readJSON_value host (path_join host [ROOT_DIR host; lit "f1_team.json"]))
      as [f1Teams Hteams].
    rewrite (replay_handler_found host session_key Hs Hl Hf Ht Hc Hy Hd Hteams), F.
    reflexivity.
  - intros He. rewrite He in F. split; [exact F|].
    intros drivers f1Teams directory Hd Hteams Hdir.
    rewrite (replay_handler_found host session_key Hs Hl Hf Ht Hc Hy Hd Hteams), F.
    cbn [bind]. rewrite Hdir. reflexivity.
Qed.

Lemma timing_error_fails_witness :
  replay_handler
    (schedule_host (object_text (lit "error") (quoted (lit "no data")))
                   (VObject [(lit "error", VString (lit "no data"))]))
    (lit "9158") =
  Normal (Render 500 (lit "race-tracker")
            [(lit "session_key", VString (lit "9158"));
             (lit "driverDirectory", VObject []);
             (lit "sessionInfo", VNull);
             (lit "error", VString (MSG_PAGE_LOAD_ERROR ++ lit ": " ++ lit "no data"));
             (lit "currentPage", VString (lit "schedule"))]) /\
  replay_handler
    (schedule_host (object_text (lit "error") (quoted []))
                   (VObject [(lit "error", VString [])]))
    (lit "9158") =
  Normal (Render 200 (lit "race-tracker")
            [(lit "session_key", VString (lit "9158"));
             (lit "driverDirectory", VObject []);
             (lit "sessionInfo",
              finalSessionInfo sample_session VNull VUndefined
                (VObject [(lit "error", VString [])]));
             (lit "currentPage", VString (lit "schedule"));
             (lit "error", VNull)]).
Proof.
  split.
  - destruct (@timing_error_fails
                (schedule_host (object_text (lit "error") (quoted (lit "no data")))
                               (VObject [(lit "error", VString (lit "no data"))]))
                (lit "9158")
                (VArray [sample_session]) VNull sample_session
                (VString (lit "sakhir")) VUndefined
                [VString (lit "race_times");
                 VString (lit "--year"); VString (lit "2024");
                 VString (lit "--event"); VString (lit "Bahrain Grand Prix");
                 VString (lit "--session"); VString (lit "Race")]
                [Stdout (object_text (lit "error") (quoted (lit "no data")))]
                (VObject [(lit "error", VString (lit "no data"))])
                eq_refl eq_refl eq_refl eq_refl eq_refl eq_refl eq_refl
                eq_refl eq_refl eq_refl) as [H _].
    exact (proj2 (H (lit "no data") eq_refl eq_refl)).
  - destruct (@timing_error_fails
                (schedule_host (object_text (lit "error") (quoted []))
                   (VObject [(lit "error", VString [])]))
                (lit "9158")
                (VArray [sample_session]) VNull sample_session
                (VString (lit "sakhir")) VUndefined
                [VString (lit "race_times");
                 VString (lit "--year"); VString (lit "2024");
                 VString (lit "--event"); VString (lit "Bahrain Grand Prix");
                 VString (lit "--session"); VString (lit "Race")]
                [Stdout (object_text (lit "error") (quoted []))]
                (VObject [(lit "error", VString [])])
                eq_refl eq_refl eq_refl eq_refl eq_refl eq_refl eq_refl
                eq_refl eq_refl eq_refl) as [_ H].
    destruct (H eq_refl) as [_ H2].
    exact (H2 VNull VNull (VObject []) eq_refl eq_refl eq_refl).
Defined.

(** C6, as stated, fails: the output {"error":null} parses to an object
    that contains an [error] field, yet the fetch succeeds and the page is
    rendered with status 200. *)
Lemma null_error_field_renders :
  has_own (lit "error") [(lit "error", VNull)] = true /\
  fetchRaceTimingFromPython
    (schedule_host (object_text (lit "error") (lit "null"))
                   (VObject [(lit "error", VNull)]))
    sample_session = Normal (VObject [(lit "error", VNull)]) /\
  exists locals,
    replay_handler
      (schedule_host (object_text (lit "error") (lit "null"))
                     (VObject [(lit "error", VNull)]))
      (lit "9158") = Normal (Render 200 (lit "race-tracker") locals) /\
    lookup (lit "error") locals = Some VNull.
Proof.
  split; [reflexivity|]. split; [reflexivity|].
  eexists. split; reflexivity.
Qed.

(* ------------------------------------------------------------------ *)
(** ** The list pages *)

(** X1.  The four list pages never fail: whatever the data file holds, and
    whether it can be read or not, each answers with status 200 and hands
    to its view the content of the file, or the empty list when that
    content is falsy. *)
Theorem list_pages_always_render (host : Host) (clock : nat -> number) :
  (exists content,
      readJSON host (path_join host [DATA_DIR host; lit "schedule.json"])
        = Normal content /\
      schedule_handler host clock =
      Normal (Render 200 (lit "schedule")
                [(lit "year", VNumber (clock 0%nat));
                 (lit "schedule", or_else content (VArray []));
                 (lit "error", VNull);
                 (lit "currentPage", VString (lit "schedule"))])) /\
  (exists content,
      readJSON host (path_join host [DATA_DIR host; lit "drivers.json"])
        = Normal content /\
      drivers_handler host =
      Normal (Render 200 (lit "drivers")
                [(lit "drivers", or_else content (VArray []));
                 (lit "currentPage", VString (lit "drivers"));
                 (lit "error", VNull)])) /\
  (exists content,
      readJSON host (path_join host [DATA_DIR host; lit "teams.json"])
        = Normal content /\
      teams_handler host =
      Normal (Render 200 (lit "teams")
                [(lit "teams", or_else content (VArray []));
                 (lit "currentPage", VString (lit "teams"));
                 (lit "error", VNull)])) /\
  (exists content,
      readJSON host (path_join host [ROOT_DIR host; lit "f1_terms.json"])
        = Normal content /\
      glossary_handler host =
      Normal (Render 200 (lit "glossary")
                [(lit "terms", or_else content (VArray []));
                 (lit "currentPage", VString (lit "glossary"));
                 (lit "error", VNull)])).
Proof.
  repeat split.
  - destruct (readJSON_value host (path_join host [DATA_DIR host; lit "schedule.json"]))
      as [v E].
    exists v. split; [exact E|]. unfold schedule_handler. now rewrite E.
  - destruct (readJSON_value host (path_join host [DATA_DIR host; lit "drivers.json"]))
      as [v E].
    exists v. split; [exact E|]. unfold drivers_handler. now rewrite E.
  - destruct (readJSON_value host (path_join host [DATA_DIR host; lit "teams.json"]))
      as [v E].
    exists v. split; [exact E|]. unfold teams_handler. now rewrite E.
  - destruct (readJSON_value host (path_join host [ROOT_DIR host; lit "f1_terms.json"]))
      as [v E].
    exists v. split; [exact E|]. unfold glossary_handler. now rewrite E.
Qed.

Lemma readJSON_unreadable (host : Host) (filePath : jsstring) :
  unreadable host filePath -> readJSON host filePath = Normal VNull.
Proof.
  unfold readJSON, read_file, parse.
  intros [-> | (text & -> & P)]; [reflexivity|].
  simpl. now rewrite P.
Qed.

(** X2.  A data file that cannot be read, or whose text is not valid JSON,
    gives its list page with an empty list, status 200 and no error
    message. *)
Theorem list_pages_without_data (host : Host) (clock : nat -> number) :
  (unreadable host (path_join host [DATA_DIR host; lit "schedule.json"]) ->
   schedule_handler host clock =
   Normal (Render 200 (lit "schedule")
             [(lit "year", VNumber (clock 0%nat));
              (lit "schedule", VArray []);
              (lit "error", VNull);
              (lit "currentPage", VString (lit "schedule"))])) /\
  (unreadable host (path_join host [DATA_DIR host; lit "drivers.json"]) ->
   drivers_handler host =
   Normal (Render 200 (lit "drivers")
             [(lit "drivers", VArray []);
              (lit "currentPage", VString (lit "drivers"));
              (lit "error", VNull)])) /\
  (unreadable host (path_join host [DATA_DIR host; lit "teams.json"]) ->
   teams_handler host =
   Normal (Render 200 (lit "teams")
             [(lit "teams", VArray []);
              (lit "currentPage", VString (lit "teams"));
              (lit "error", VNull)])) /\
  (unreadable host (path_join host [ROOT_DIR host; lit "f1_terms.json"]) ->
   glossary_handler host =
   Normal (Render 200 (lit "glossary")
             [(lit "terms", VArray []);
              (lit "currentPage", VString (lit "glossary"));
              (lit "error", VNull)])).
Proof.
  repeat split; intros H; apply readJSON_unreadable in H.
  - unfold schedule_handler. now rewrite H.
  - unfold drivers_handler. now rewrite H.
  - unfold teams_handler. now rewrite H.
  - unfold glossary_handler. now rewrite H.
Qed.

Lemma list_pages_without_data_witness :
  drivers_handler bare_host =
    Normal (Render 200 (lit "drivers")
              [(lit "drivers", VArray []);
               (lit "currentPage", VString (lit "drivers"));
               (lit "error", VNull)]) /\
  glossary_handler
    (table_host [(lit "/srv/f1_terms.json", lit "[")] [] []
                (fun _ => Child [] None)) =
    Normal (Render 200 (lit "glossary")
              [(lit "terms", VArray []);
               (lit "currentPage", VString (lit "glossary"));
               (lit "error", VNull)]).
Proof.
  split.
  - apply (list_pages_without_data bare_host (fun _ => NaN)).
    left. reflexivity.
  - apply (list_pages_without_data
             (table_host [(lit "/srv/f1_terms.json", lit "[")] [] []
                         (fun _ => Child [] None)) (fun _ => NaN)).
    right. exists (lit "["). split; reflexivity.
Defined.

(* ------------------------------------------------------------------ *)
(** ** GET /teams/:teamId *)

Lemma object_truthy (v : value) : is_object v = true -> truthy v = true.
Proof. destruct v; simpl; congruence. Qed.

Lemma object_not_nullish (v : value) : is_object v = true -> nullish v = false.
Proof. destruct v; simpl; congruence. Qed.

Lemma get_not_nullish (v : value) (k : jsstring) :
  nullish v = false -> get v k = Normal (read v k).
Proof. intros H. unfold get. now rewrite H. Qed.

Lemma find_in_teams (teamId : jsstring) (ts : list value) :
  Forall (fun t => is_object t = true) ts ->
  find_in (team_matches teamId) ts =
  Normal match List.find (fun t => equals_text (read t (lit "slug")) teamId) ts with
         | Some t => t
         | None => VUndefined
         end.
Proof.
  induction 1 as [|t r Ht Hr IH]; simpl; [reflexivity|].
  unfold team_matches.
  rewrite (get_not_nullish t (lit "slug") (object_not_nullish t Ht)).
  cbn [bind].
  destruct (equals_text (read t (lit "slug")) teamId); [reflexivity | exact IH].
Qed.

Lemma filter_in_same_team (team : value) (ds : list value) :
  nullish team = false ->
  Forall (fun d => nullish d = false) ds ->
  filter_in (same_team team) ds =
  Normal (List.filter
            (fun d => strictly_equal (read d (lit "team_name"))
                                     (read team (lit "team_name"))) ds).
Proof.
  intros Ht. induction 1 as [|d r Hd Hr IH]; simpl; [reflexivity|].
  unfold same_team at 1.
  rewrite (get_not_nullish d (lit "team_name") Hd),
          (get_not_nullish team (lit "team_name") Ht).
  cbn [bind]. rewrite IH. cbn [bind].
  destruct (strictly_equal _ _); reflexivity.
Qed.

Lemma equals_text_eq (v : value) (s : jsstring) :
  equals_text v s = true <-> v = VString s.
Proof.
  destruct v; simpl; split; try discriminate; try congruence.
  - intros H. apply jsstring_eqb_eq in H. now subst.
  - intros [= ->]. apply jsstring_eqb_refl.
Qed.

(** X3.  For every list of team records and every [teamId], the team page
    shows, with status 200, the first team of the list whose [slug] is
    [teamId], with the drivers whose [team_name] equals that of the team, in
    the order of the drivers file; it answers with status 404, null info,
    no drivers and the not-found message when no team has the slug, and
    with status 500, null info, no drivers and the error message when a
    team is found but the drivers file gives nothing. *)
Theorem team_detail_first_match (host : Host) (teamId : jsstring)
    (ts : list value) :
  readJSON host (path_join host [DATA_DIR host; lit "teams.json"])
    = Normal (VArray ts) ->
  Forall (fun t => is_object t = true) ts ->
  match List.find (fun t => equals_text (read t (lit "slug")) teamId) ts with
  | Some team =>
      read team (lit "slug") = VString teamId /\
      (exists before after,
          ts = before ++ team :: after /\
          Forall (fun t => read t (lit "slug") <> VString teamId) before) /\
      (readJSON host (path_join host [DATA_DIR host; lit "drivers.json"])
         = Normal VNull ->
       team_detail_handler host teamId =
       Normal (Render 500 (lit "team-detail")
                 [(lit "info", VNull); (lit "drivers", VArray []);
                  (lit "error", VString MSG_TEAM_LOAD_FAILED);
                  (lit "currentPage", VString (lit "teams"))])) /\
      (forall ds,
          readJSON host (path_join host [DATA_DIR host; lit "drivers.json"])
            = Normal (VArray ds) ->
          Forall (fun d => nullish d = false) ds ->
          team_detail_handler host teamId =
          Normal (Render 200 (lit "team-detail")
                    [(lit "info", team);
                     (lit "drivers",
                      VArray
                        (List.filter
                           (fun d => strictly_equal (read d (lit "team_name"))
                                                    (read team (lit "team_name")))
                           ds));
                     (lit "error", VNull);
                     (lit "currentPage", VString (lit "teams"))]))
  | None =>
      Forall (fun t => read t (lit "slug") <> VString teamId) ts /\
      team_detail_handler host teamId =
      Normal (Render 404 (lit "team-detail")
                [(lit "info", VNull); (lit "drivers", VArray []);
                 (lit "error", VString MSG_TEAM_NOT_FOUND);
                 (lit "currentPage", VString (lit "teams"))])
  end.
Proof.
  intros Hr Hobj.
  unfold team_detail_handler. rewrite Hr. cbn [bind find].
  rewrite (find_in_teams teamId Hobj). cbn [bind].
  destruct (List.find _ ts) as [team|] eqn:F.
  - destruct (find_split _ _ F) as (Hm & before & after & E & Hb).
    assert (Ho : is_object team = true).
    { rewrite Forall_forall in Hobj. apply Hobj. rewrite E. apply in_elt. }
    rewrite (object_truthy team Ho). cbn [negb].
    split; [now apply equals_text_eq|]. split.
    + exists before, after. split; [exact E|].
      eapply Forall_impl; [|exact Hb]. intros t Ht Heq.
      apply equals_text_eq in Heq. congruence.
    + split.
      * intros Hd. rewrite Hd. reflexivity.
      * intros ds Hd Hn. rewrite Hd. cbn [bind array_filter].
        rewrite (filter_in_same_team team (object_not_nullish team Ho) Hn).
        reflexivity.
  - split; [|reflexivity].
    eapply Forall_impl; [|exact (find_none_all _ _ F)].
    intros t Ht Heq. apply equals_text_eq in Heq. congruence.
Qed.

Lemma team_detail_first_match_witness :
  team_detail_handler teams_host (lit "mclaren") =
  Normal (Render 200 (lit "team-detail")
            [(lit "info",
              VObject [(lit "slug", VString (lit "mclaren"));
                       (lit "team_name", VString (lit "McLaren"))]);
             (lit "drivers",
              VArray
                [VObject [(lit "full_name", VString (lit "Lando Norris"));
                          (lit "team_name", VString (lit "McLaren"))];
                 VObject [(lit "full_name", VString (lit "Oscar Piastri"));
                          (lit "team_name", VString (lit "McLaren"))]]);
             (lit "error", VNull);
             (lit "currentPage", VString (lit "teams"))]) /\
  team_detail_handler teams_host (lit "lotus") =
  Normal (Render 404 (lit "team-detail")
            [(lit "info", VNull); (lit "drivers", VArray []);
             (lit "error", VString MSG_TEAM_NOT_FOUND);
             (lit "currentPage", VString (lit "teams"))]).
Proof.
  assert (O : Forall (fun t => is_object t = true) sample_teams)
    by (repeat constructor).
  split.
  - pose proof (@team_detail_first_match teams_host (lit "mclaren")
                  sample_teams eq_refl O) as H.
    assert (F : List.find (fun t => equals_text (read t (lit "slug")) (lit "mclaren"))
                  sample_teams = nth_error sample_teams 0) by reflexivity.
    rewrite F in H. cbn [nth_error sample_teams] in H.
    destruct H as (_ & _ & _ & H).
    apply (H sample_team_drivers); [reflexivity | repeat constructor].
  - pose proof (@team_detail_first_match teams_host (lit "lotus")
                  sample_teams eq_refl O) as H.
    assert (F : List.find (fun t => equals_text (read t (lit "slug")) (lit "lotus"))
                  sample_teams = None) by reflexivity.
    rewrite F in H. exact (proj2 H).
Defined.

(** X4.  When the teams file cannot be read or is not valid JSON, the page
    of any team answers 500 with the load-failure view model: the null that
    the loader returns is not guarded before [teams.find]. *)
Theorem team_detail_without_data (host : Host) (teamId : jsstring) :
  unreadable host (path_join host [DATA_DIR host; lit "teams.json"]) ->
  team_detail_handler host teamId = Normal team_load_failed /\
  status_of team_load_failed = 500%Z.
Proof.
  intros H. apply readJSON_unreadable in H.
  unfold team_detail_handler. rewrite H. split; reflexivity.
Qed.

Lemma team_detail_without_data_witness :
  team_detail_handler bare_host (lit "mclaren") = Normal team_load_failed.
Proof.
  apply (@team_detail_without_data bare_host (lit "mclaren")).
  left. reflexivity.
Defined.

(* ------------------------------------------------------------------ *)
(** ** How the handlers end *)

Lemma bind_settles {A B} (c : completion A) (k : A -> completion B) :
  c <> Never -> (forall a, k a <> Never) -> bind c k <> Never.
Proof. destruct c; simpl; auto; discriminate. Qed.

Lemma get_settles (v : value) (k : jsstring) : get v k <> Never.
Proof. unfold get. destruct (nullish v); discriminate. Qed.

Lemma readJSON_settles (host : Host) (p : jsstring) : readJSON host p <> Never.
Proof. destruct (readJSON_value host p) as [v ->]. discriminate. Qed.

Lemma slugify_settles (host : Host) (v : value) : slugify host v <> Never.
Proof.
  destruct (coercible v) eqn:H.
  - destruct (slugify_coercible host v H) as [s ->]. discriminate.
  - rewrite (slugify_not_coercible host v H). discriminate.
Qed.

Lemma parse_settles (host : Host) (text : jsstring) : parse host text <> Never.
Proof. unfold parse. destruct (JSON_parse host text); discriminate. Qed.

(** Proves that a computation made of reads, coercions and tests ends. *)
Ltac settles :=
  repeat first
    [ apply bind_settles; [|intros ?]
    | apply get_settles | apply ToString_settles | apply slugify_settles
    | apply readJSON_settles | apply parse_settles
    | discriminate
    | match goal with
      | |- (if ?b then _ else _) <> Never => destruct b
      end ].

Lemma find_in_settles (pred : value -> completion bool) (items : list value) :
  (forall x, pred x <> Never) -> find_in pred items <> Never.
Proof.
  intros H. induction items as [|x r IH]; simpl; [discriminate|].
  apply bind_settles; [apply H|]. intros []; [discriminate | exact IH].
Qed.

Lemma find_settles (v : value) (pred : value -> completion bool) :
  (forall x, pred x <> Never) -> find v pred <> Never.
Proof.
  intros H. destruct v; simpl; try discriminate. now apply find_in_settles.
Qed.

Lemma find_opt_settles (v : value) (pred : value -> completion bool) :
  (forall x, pred x <> Never) -> find_opt v pred <> Never.
Proof.
  intros H. unfold find_opt. destruct (nullish v); [discriminate|].
  now apply find_settles.
Qed.

Lemma filter_in_settles (pred : value -> completion bool) (items : list value) :
  (forall x, pred x <> Never) -> filter_in pred items <> Never.
Proof.
  intros H. induction items as [|x r IH]; simpl; [discriminate|].
  apply bind_settles; [apply H|]. intros b.
  apply bind_settles; [exact IH|]. discriminate.
Qed.

Lemma array_filter_settles (v : value) (pred : value -> completion bool) :
  (forall x, pred x <> Never) -> array_filter v pred <> Never.
Proof.
  intros H. destruct v; simpl; try discriminate.
  apply bind_settles; [now apply filter_in_settles | discriminate].
Qed.

Lemma driver_matches_settles (host : Host) (driverId : jsstring) (d : value) :
  driver_matches host driverId d <> Never.
Proof. unfold driver_matches. settles. Qed.

Lemma team_matches_settles (teamId : jsstring) (t : value) :
  team_matches teamId t <> Never.
Proof. unfold team_matches. settles. Qed.

Lemma same_team_settles (team d : value) : same_team team d <> Never.
Proof. unfold same_team. settles. Qed.

Lemma session_matches_settles (session_key : jsstring) (s : value) :
  session_matches session_key s <> Never.
Proof. unfold session_matches. settles. Qed.

Lemma layout_matches_settles (circuitName l : value) :
  layout_matches circuitName l <> Never.
Proof. unfold layout_matches. settles. Qed.

Lemma circuit_name_settles (host : Host) (sessionInfo : value) :
  circuit_name host sessionInfo <> Never.
Proof.
  unfold circuit_name. apply bind_settles; [apply get_settles|].
  intros []; discriminate.
Qed.

Lemma team_info_from_settles (teams : list value) (acc : list (jsstring * value)) :
  team_info_from teams acc <> Never.
Proof.
  revert acc; induction teams as [|t r IH]; intros acc; simpl; [discriminate|].
  settles. apply IH.
Qed.

Lemma directory_from_settles (info : list (jsstring * value)) (drivers : list value)
    (directory : list (jsstring * value)) :
  directory_from info drivers directory <> Never.
Proof.
  revert directory; induction drivers as [|d r IH]; intros directory; simpl;
    [discriminate|].
  apply bind_settles; [apply get_settles|]. intros number.
  destruct (truthy number); [|apply IH].
  settles. apply IH.
Qed.

Lemma driverDirectory_settles (drivers f1Teams : value) :
  driverDirectory drivers f1Teams <> Never.
Proof.
  unfold driverDirectory. destruct (truthy drivers && truthy f1Teams);
    [|discriminate].
  apply bind_settles.
  - unfold teamInfoMap. destruct f1Teams; try discriminate.
    apply team_info_from_settles.
  - intros info. destruct drivers; try discriminate.
    apply bind_settles; [apply directory_from_settles | discriminate].
Qed.

Lemma year_of_session_settles (host : Host) (sessionInfo : value) :
  year_of_session host sessionInfo <> Never.
Proof.
  unfold year_of_session. apply bind_settles; [apply get_settles|].
  intros year. destruct (negb (truthy year) || equals_text year (lit "undefined"));
    [|discriminate].
  apply bind_settles; [apply get_settles|]. intros date_start.
  destruct (truthy date_start); [|discriminate].
  apply bind_settles; [|discriminate].
  unfold Date_getFullYear. destruct date_start as [| |[]| | | |]; settles.
Qed.

Lemma race_timing_args_settles (host : Host) (sessionInfo : value) :
  race_timing_args host sessionInfo <> Never.
Proof.
  unfold race_timing_args. destruct (negb (truthy sessionInfo)); [discriminate|].
  apply bind_settles; [apply year_of_session_settles|]. intros year.
  settles.
Qed.

Lemma on_close_settles (c : capture) (code : option Z) : on_close c code <> Never.
Proof. destruct code as [[| |]|]; discriminate. Qed.

(** [runPython] fails to settle only when the child never closes. *)
Lemma runPython_never (host : Host) (scriptPath : jsstring) (args : list value) :
  runPython host scriptPath args = Never -> some_child_hangs host.
Proof.
  unfold runPython. destruct (existsSync host scriptPath); simpl; [|discriminate].
  destruct (spawn host _) as [e | output [code|]] eqn:S; try discriminate.
  - intros H. now apply on_close_settles in H.
  - intros _. unfold some_child_hangs. eauto.
Qed.

Lemma bind_never {A B} (c : completion A) (k : A -> completion B) :
  bind c k = Never -> c = Never \/ exists a, c = Normal a /\ k a = Never.
Proof. destruct c; simpl; eauto; discriminate. Qed.

Lemma fetchRaceTiming_never (host : Host) (sessionInfo : value) :
  fetchRaceTimingFromPython host sessionInfo = Never -> some_child_hangs host.
Proof.
  unfold fetchRaceTimingFromPython. intros H.
  assert (B : forall c : completion value,
             try_catch c (fun error => Throw error) = Never -> c = Never)
    by (intros []; simpl; congruence).
  apply B in H. clear B.
  apply bind_never in H as [H | (args & _ & H)];
    [now apply race_timing_args_settles in H|].
  apply bind_never in H as [H | (raw & _ & H)];
    [now apply runPython_never in H|].
  exfalso. revert H. settles.
Qed.

Lemma ends_bind {A} (hang : Prop) (c : completion A)
    (k : A -> completion response) :
  (c = Never -> hang) -> (forall a, ends hang (k a)) -> ends hang (bind c k).
Proof. destruct c; simpl; auto. Qed.

Lemma ends_catch (hang : Prop) (c : completion response) (h : error -> response) :
  ends hang c -> (forall e, valid_status (h e)) ->
  (exists r, try_catch c (fun e => Normal (h e)) = Normal r /\ valid_status r) \/
  (try_catch c (fun e => Normal (h e)) = Never /\ hang).
Proof.
  destruct c as [r|e|]; simpl; intros H V; eauto.
Qed.

Lemma answers_catch (c : completion response) (h : error -> response) :
  ends False c -> (forall e, valid_status (h e)) ->
  exists r, try_catch c (fun e => Normal (h e)) = Normal r /\ valid_status r.
Proof.
  intros H V. destruct (@ends_catch False c h H V) as [R | [_ []]]. exact R.
Qed.

Lemma valid_200 (r : response) : status_of r = 200%Z -> valid_status r.
Proof. unfold valid_status. auto. Qed.

Lemma valid_404 (r : response) : status_of r = 404%Z -> valid_status r.
Proof. unfold valid_status. auto. Qed.

Lemma valid_500 (r : response) : status_of r = 500%Z -> valid_status r.
Proof. unfold valid_status. auto. Qed.

(** One step of a proof that a handler body ends well. *)
Ltac ends_step :=
  match goal with
  | |- ends _ (bind _ _) => apply ends_bind; [intros ?Hnever | intros ?]
  | |- ends _ (Normal _) => first [ apply valid_200; reflexivity
                                  | apply valid_404; reflexivity
                                  | apply valid_500; reflexivity ]
  | |- ends _ (Throw _) => exact I
  | |- ends _ (if ?b then _ else _) => destruct b
  end.

Lemma driver_detail_page_ends (host : Host) (driver : value) :
  ends False (driver_detail_page host driver).
Proof.
  unfold driver_detail_page.
  repeat ends_step;
    match goal with
    | H : _ = Never |- False => revert H; settles
    end.
Qed.

(** X5.  The pages of a driver and of a team always answer, whatever the
    data files hold: no exception leaves the handler, and the status is
    200, 404 or 500. *)
Theorem detail_pages_always_answer (host : Host) (id : jsstring) :
  (exists r, driver_detail_handler host id = Normal r /\ valid_status r) /\
  (exists r, team_detail_handler host id = Normal r /\ valid_status r).
Proof.
  split.
  - unfold driver_detail_handler. apply answers_catch;
      [| intros _; apply valid_500; reflexivity].
    ends_step; [now apply readJSON_settles in Hnever|].
    ends_step.
    + revert Hnever. apply find_settles. intros x. apply driver_matches_settles.
    + ends_step; [ends_step | apply driver_detail_page_ends].
  - unfold team_detail_handler. apply answers_catch;
      [| intros _; apply valid_500; reflexivity].
    ends_step; [now apply readJSON_settles in Hnever|].
    ends_step.
    + revert Hnever. apply find_settles. intros x. apply team_matches_settles.
    + ends_step; [ends_step|].
      ends_step; [now apply readJSON_settles in Hnever|].
      ends_step; [|ends_step].
      revert Hnever. apply array_filter_settles. intros x. apply same_team_settles.
Qed.

Lemma replay_page_ends (host : Host) (session_key : jsstring)
    (layouts sessionInfo : value) :
  ends (some_child_hangs host) (replay_page host session_key layouts sessionInfo).
Proof.
  unfold replay_page.
  ends_step; [now apply circuit_name_settles in Hnever|].
  ends_step.
  { exfalso. revert Hnever. apply find_opt_settles.
    intros x. apply layout_matches_settles. }
  ends_step; [now apply readJSON_settles in Hnever|].
  ends_step; [now apply readJSON_settles in Hnever|].
  ends_step; [now apply fetchRaceTiming_never in Hnever|].
  ends_step; [now apply driverDirectory_settles in Hnever|].
  ends_step.
Qed.

(** X6.  The replay page and the locations endpoint of f1api.js let no
    exception leave the handler: each answers with status 200, 404 or 500,
    or it never answers, and that only when a child process never
    closes. *)
Theorem script_pages_answer_or_hang (host : Host)
    (session_key startTime endTime : jsstring) :
  ((exists r, replay_handler host session_key = Normal r /\ valid_status r) \/
   (replay_handler host session_key = Never /\ some_child_hangs host)) /\
  ((exists r,
       locations_handler host session_key startTime endTime = Normal r /\
       valid_status r) \/
   (locations_handler host session_key startTime endTime = Never /\
    some_child_hangs host)).
Proof.
  split.
  - unfold replay_handler. apply ends_catch;
      [| intros e; apply valid_500; reflexivity].
    ends_step; [now apply readJSON_settles in Hnever|].
    ends_step; [now apply readJSON_settles in Hnever|].
    ends_step.
    { exfalso. revert Hnever. apply find_opt_settles.
      intros x. apply session_matches_settles. }
    ends_step; [ends_step | apply replay_page_ends].
  - unfold locations_handler. apply ends_catch;
      [| intros e; apply valid_500; reflexivity].
    ends_step; [now apply readJSON_settles in Hnever|].
    ends_step.
    { exfalso. revert Hnever. apply find_opt_settles.
      intros x. apply session_matches_settles. }
    ends_step; [ends_step|].
    ends_step; [now apply year_of_session_settles in Hnever|].
    ends_step; [now apply get_settles in Hnever|].
    ends_step; [now apply get_settles in Hnever|].
    ends_step; [ends_step|].
    ends_step; [ends_step|].
    ends_step; [now apply ToString_settles in Hnever|].
    ends_step; [now apply runPython_never in Hnever|].
    ends_step; [now apply parse_settles in Hnever|].
    ends_step.
Qed.

(* ------------------------------------------------------------------ *)
(** ** The router module *)

Lemma router_replay_page_ends (host : Host) (session_key : jsstring)
    (layouts sessionInfo : value) :
  ends False (Router.replay_page host session_key layouts sessionInfo).
Proof.
  unfold Router.replay_page.
  ends_step; [now apply circuit_name_settles in Hnever|].
  ends_step.
  { revert Hnever. apply find_opt_settles.
    intros x. apply layout_matches_settles. }
  ends_step; [now apply readJSON_settles in Hnever|].
  ends_step; [now apply readJSON_settles in Hnever|].
  ends_step; [now apply driverDirectory_settles in Hnever|].
  ends_step.
Qed.

(** X7.  The replay page of the router module starts no process: its
    answer is the same whatever the children of the platform do, and it
    always answers, with status 200, 404 or 500. *)
Theorem router_replay_needs_no_script (host : Host) (run : list value -> child)
    (session_key : jsstring) :
  Router.replay_handler (with_spawn host run) session_key =
    Router.replay_handler host session_key /\
  exists r,
    Router.replay_handler host session_key = Normal r /\ valid_status r.
Proof.
  split; [reflexivity|].
  unfold Router.replay_handler. apply answers_catch;
    [| intros _; apply valid_500; reflexivity].
  ends_step; [now apply readJSON_settles in Hnever|].
  ends_step; [now apply readJSON_settles in Hnever|].
  ends_step.
  { revert Hnever. apply find_opt_settles.
    intros x. apply session_matches_settles. }
  ends_step; [ends_step | apply router_replay_page_ends].
Qed.

Lemma on_stdout_fold (chunks : list chunk) (acc : jsstring) :
  fold_left Router.on_stdout chunks acc = acc ++ stdout_text chunks.
Proof.
  revert acc; induction chunks as [|d r IH]; intros acc; simpl.
  - now rewrite app_nil_r.
  - rewrite IH. destruct d; simpl; [now rewrite <- app_assoc | reflexivity].
Qed.

(** X8.  The locations endpoint of the router module answers 200 exactly
    when the script exists, its process closes with code 0 and all that it
    wrote to the standard output parses as JSON, which is then the body;
    every other answer has status 500; and an error that [spawn] itself
    raises leaves the handler, which has no catch block around it. *)
Theorem router_locations_outcome (host : Host)
    (session_key startTime endTime : jsstring) :
  let scriptPath := path_join host [ROOT_DIR host; lit "get_driver_locations.py"] in
  let argv := [VString (lit "-X"); VString (lit "utf8"); VString scriptPath;
               VString session_key; VString startTime; VString endTime] in
  (forall body,
      Router.locations_handler host session_key startTime endTime
        = Normal (Json 200 body) <->
      existsSync host scriptPath = true /\
      exists chunks,
        spawn host argv = Child chunks (Some (Some 0%Z)) /\
        JSON_parse host (stdout_text chunks) = Some body) /\
  (forall r,
      Router.locations_handler host session_key startTime endTime = Normal r ->
      status_of r = 200%Z \/ status_of r = 500%Z) /\
  (forall e,
      Router.locations_handler host session_key startTime endTime = Throw e <->
      existsSync host scriptPath = true /\ spawn host argv = SpawnThrows e).
Proof.
  intros scriptPath argv. unfold Router.locations_handler.
  fold scriptPath. fold argv.
  destruct (existsSync host scriptPath); cbn [negb];
    [destruct (spawn host argv) as [e | chunks [[[| |]|]|]];
     [| rewrite on_stdout_fold; cbn [app]; unfold parse;
        destruct (JSON_parse host (stdout_text chunks)) as [v|] eqn:P; cbn
      | | | | ] |];
    (split; [intros body; split;
               [intros H; try discriminate; injection H as <-; eauto
               |intros (He & c & Hs & Hp); try discriminate;
                try (injection Hs as <-); congruence]
            |split;
               [intros r H; try discriminate; injection H as <-; auto
               |intros err; split;
                  [intros H; try discriminate; injection H as <-; auto
                  |intros [He Hs]; try discriminate;
                   try (injection Hs as <-); congruence]]]).
Qed.

(* ------------------------------------------------------------------ *)
(** ** More on the process bridge and the race timing *)

(** X10.  A session without a year, an event name or a session name is
    refused before any script is looked for: the race timing fetch rejects
    with the message that quotes the three values, whatever the platform
    holds as scripts and processes. *)
Theorem race_timing_incomplete (host : Host) (sessionInfo year : value)
    (y e s : jsstring) :
  truthy sessionInfo = true ->
  year_of_session host sessionInfo = Normal year ->
  truthy year = false \/
  truthy (read sessionInfo (lit "meeting_name")) = false \/
  truthy (read sessionInfo (lit "session_name")) = false ->
  ToString year = Normal y ->
  ToString (read sessionInfo (lit "meeting_name")) = Normal e ->
  ToString (read sessionInfo (lit "session_name")) = Normal s ->
  fetchRaceTimingFromPython host sessionInfo =
  Throw (Error (lit "Incomplete session data from schedule.json: Year='"
                  ++ y ++ lit "', Event='" ++ e
                  ++ lit "', Session='" ++ s ++ lit "'")).
Proof.
  intros Ht Hy Hf Ty Te Ts.
  assert (Hn : nullish sessionInfo = false)
    by (destruct sessionInfo; simpl in *; congruence).
  unfold fetchRaceTimingFromPython, race_timing_args.
  rewrite Ht, Hy. cbn [negb bind].
  rewrite !(get_not_nullish sessionInfo _ Hn). cbn [bind].
  assert (B : negb (truthy year)
              || negb (truthy (read sessionInfo (lit "meeting_name")))
              || negb (truthy (read sessionInfo (lit "session_name"))) = true).
  { destruct Hf as [-> | [-> | ->]]; simpl;
      rewrite ?orb_true_r; reflexivity. }
  rewrite B, Ty, Te, Ts. reflexivity.
Qed.

Lemma race_timing_incomplete_witness :
  fetchRaceTimingFromPython bare_host
    (VObject [(lit "session_year", VNumber (NonZero (lit "2024")));
              (lit "session_name", VString (lit "Race"))]) =
  Throw (Error (lit "Incomplete session data from schedule.json: Year='"
                  ++ lit "2024" ++ lit "', Event='" ++ lit "undefined"
                  ++ lit "', Session='" ++ lit "Race" ++ lit "'")).
Proof.
  apply (race_timing_incomplete bare_host
           (VObject [(lit "session_year", VNumber (NonZero (lit "2024")));
                     (lit "session_name", VString (lit "Race"))])
           (year := VNumber (NonZero (lit "2024")))
           (y := lit "2024") (e := lit "undefined") (s := lit "Race"));
    try reflexivity.
  right. left. reflexivity.
Defined.

(** X11.  Once the arguments of the race timing script are made, the fetch
    rejects when the script file is missing (with the message that names
    its path), when the process closes with a code other than 0 (with the
    standard error without the white space at its two ends when it holds
    more than white space, else with 'Python script exited with code '
    followed by the code in decimal, or by 'null' after a signal), and when
    the output is not valid JSON (with the syntax error). *)
Theorem race_timing_failures (host : Host) (sessionInfo : value)
    (args : list value) :
  let scriptPath := path_join host [ROOT_DIR host; lit "get_replay_data.py"] in
  let argv := [VString (lit "-X"); VString (lit "utf8"); VString scriptPath]
                ++ args in
  race_timing_args host sessionInfo = Normal args ->
  (existsSync host scriptPath = false ->
   fetchRaceTimingFromPython host sessionInfo =
   Throw (Error (lit "Python script not found: " ++ scriptPath))) /\
  (forall output code,
      existsSync host scriptPath = true ->
      spawn host argv = Child output (Some code) ->
      code <> Some 0%Z ->
      exists msg,
        fetchRaceTimingFromPython host sessionInfo = Throw (Error msg) /\
        msg <> [] /\
        (forallb is_space (stderr_text output) = false ->
         trimmed_of (stderr_text output) msg) /\
        (forallb is_space (stderr_text output) = true ->
         exists t,
           msg = lit "Python script exited with code " ++ t /\
           match code with
           | Some z => decimal_value t = Some z
           | None => t = lit "null"
           end)) /\
  (forall output,
      existsSync host scriptPath = true ->
      spawn host argv = Child output (Some (Some 0%Z)) ->
      JSON_parse host (stdout_text output) = None ->
      fetchRaceTimingFromPython host sessionInfo =
      Throw (SyntaxError (stdout_text output))).
Proof.
  intros scriptPath argv Ha.
  unfold fetchRaceTimingFromPython. fold scriptPath. rewrite Ha. cbn [bind].
  split; [|split].
  - intros He. unfold runPython. rewrite He. reflexivity.
  - intros output code He Hs Hc.
    rewrite (runPython_closed host scriptPath args He Hs).
    destruct (on_close_message
                {| stdout := stdout_text output; stderr := stderr_text output |}
                Hc) as (msg & E & Hn & H1 & H2).
    rewrite E. exists msg. split; [reflexivity|]. auto.
  - intros output He Hs Hp.
    rewrite (runPython_closed host scriptPath args He Hs), on_close_zero.
    cbn [stdout bind]. unfold parse. rewrite Hp. reflexivity.
Qed.

Lemma race_timing_failures_witness :
  fetchRaceTimingFromPython bare_host sample_session =
    Throw (Error (lit "Python script not found: " ++ lit "/srv/get_replay_data.py")) /\
  (exists msg,
      fetchRaceTimingFromPython
        (table_host [] [] [lit "/srv/get_replay_data.py"]
           (fun _ => Child [Stderr (lit "no such event" ++ [10]%N)]
                           (Some (Some 1%Z))))
        sample_session = Throw (Error msg) /\
      trimmed_of (lit "no such event" ++ [10]%N) msg) /\
  (exists msg,
      fetchRaceTimingFromPython
        (table_host [] [] [lit "/srv/get_replay_data.py"]
           (fun _ => Child [] (Some (Some 137%Z))))
        sample_session = Throw (Error msg) /\
      exists t,
        msg = lit "Python script exited with code " ++ t /\
        decimal_value t = Some 137%Z).
Proof.
  split; [|split].
  - apply (@race_timing_failures bare_host sample_session
             [VString (lit "race_times");
              VString (lit "--year"); VString (lit "2024");
              VString (lit "--event"); VString (lit "Bahrain Grand Prix");
              VString (lit "--session"); VString (lit "Race")]);
      reflexivity.
  - destruct (@race_timing_failures
                (table_host [] [] [lit "/srv/get_replay_data.py"]
                   (fun _ => Child [Stderr (lit "no such event" ++ [10]%N)]
                                   (Some (Some 1%Z))))
                sample_session
                [VString (lit "race_times");
                 VString (lit "--year"); VString (lit "2024");
                 VString (lit "--event"); VString (lit "Bahrain Grand Prix");
                 VString (lit "--session"); VString (lit "Race")]
                eq_refl) as (_ & H & _).
    destruct (H [Stderr (lit "no such event" ++ [10]%N)] (Some 1%Z))
      as (msg & E & _ & M & _);
      [reflexivity | reflexivity | discriminate |].
    exists msg. split; [exact E | apply M; reflexivity].
  - destruct (@race_timing_failures
                (table_host [] [] [lit "/srv/get_replay_data.py"]
                   (fun _ => Child [] (Some (Some 137%Z))))
                sample_session
                [VString (lit "race_times");
                 VString (lit "--year"); VString (lit "2024");
                 VString (lit "--event"); VString (lit "Bahrain Grand Prix");
                 VString (lit "--session"); VString (lit "Race")]
                eq_refl) as (_ & H & _).
    destruct (H [] (Some 137%Z)) as (msg & E & _ & _ & M);
      [reflexivity | reflexivity | discriminate |].
    exists msg. split; [exact E | apply M; reflexivity].
Defined.

Lemma throw_chain {A B} (c1 c2 c3 : completion A)
    (f : A -> A -> A -> error) (a : B) :
  (y <- c1 ;; e <- c2 ;; s <- c3 ;; Throw (f y e s)) <> Normal a.
Proof. destruct c1; simpl; try discriminate. destruct c2; simpl; try discriminate.
  destruct c3; simpl; discriminate.
Qed.

(** The arguments, when they are made, are those of a complete session. *)
Lemma race_timing_args_normal (host : Host) (sessionInfo : value)
    (args : list value) :
  race_timing_args host sessionInfo = Normal args ->
  exists yearText,
    truthy (read sessionInfo (lit "meeting_name")) = true /\
    truthy (read sessionInfo (lit "session_name")) = true /\
    args = [VString (lit "race_times");
            VString (lit "--year"); VString yearText;
            VString (lit "--event"); read sessionInfo (lit "meeting_name");
            VString (lit "--session"); read sessionInfo (lit "session_name")].
Proof.
  unfold race_timing_args.
  destruct (truthy sessionInfo) eqn:Ht; cbn [negb]; [|discriminate].
  assert (Hn : nullish sessionInfo = false)
    by (destruct sessionInfo; simpl in *; congruence).
  destruct (year_of_session host sessionInfo) as [year| |]; cbn [bind];
    try discriminate.
  rewrite !(get_not_nullish sessionInfo _ Hn). cbn [bind].
  destruct (negb (truthy year)
            || negb (truthy (read sessionInfo (lit "meeting_name")))
            || negb (truthy (read sessionInfo (lit "session_name")))) eqn:B.
  - intros H. exfalso. revert H.
    apply (throw_chain (ToString year)
             (ToString (read sessionInfo (lit "meeting_name")))
             (ToString (read sessionInfo (lit "session_name")))
             (fun y e s =>
                Error (lit "Incomplete session data from schedule.json: Year='"
                         ++ y ++ lit "', Event='" ++ e
                         ++ lit "', Session='" ++ s ++ lit "'"))).
  - apply orb_false_iff in B as [B Bs]. apply orb_false_iff in B as [_ Be].
    apply negb_false_iff in Bs, Be.
    destruct (ToString year) as [yearText| |]; cbn [bind]; try discriminate.
    intros [= <-]. exists yearText. auto.
Qed.

(** X12.  What the race timing fetch resolves with is the parsed standard
    output of the script, run on a session whose event name and session
    name are truthy; and that value never carries a truthy [error]
    field. *)
Theorem race_timing_resolved (host : Host) (sessionInfo raceTiming : value) :
  fetchRaceTimingFromPython host sessionInfo = Normal raceTiming ->
  truthy (get_opt raceTiming (lit "error")) = false /\
  exists yearText raw,
    truthy (read sessionInfo (lit "meeting_name")) = true /\
    truthy (read sessionInfo (lit "session_name")) = true /\
    runPython host (path_join host [ROOT_DIR host; lit "get_replay_data.py"])
      [VString (lit "race_times");
       VString (lit "--year"); VString yearText;
       VString (lit "--event"); read sessionInfo (lit "meeting_name");
       VString (lit "--session"); read sessionInfo (lit "session_name")]
      = Normal raw /\
    JSON_parse host raw = Some raceTiming.
Proof.
  unfold fetchRaceTimingFromPython.
  destruct (race_timing_args host sessionInfo) as [args| |] eqn:A;
    cbn [bind try_catch]; try discriminate.
  destruct (race_timing_args_normal host sessionInfo A) as (yearText & Te & Ts & ->).
  destruct (runPython host _ _) as [raw| |] eqn:R; cbn [bind try_catch];
    try discriminate.
  unfold parse. destruct (JSON_parse host raw) as [parsed|] eqn:P;
    cbn [bind try_catch]; try discriminate.
  destruct (truthy (get_opt parsed (lit "error"))) eqn:E.
  - destruct (ToString (get_opt parsed (lit "error"))); cbn [bind try_catch];
      discriminate.
  - cbn [try_catch]. intros [= <-]. split; [exact E|].
    exists yearText, raw. auto.
Qed.

Lemma race_timing_resolved_witness :
  truthy (get_opt (VObject [(lit "race_start_date", VString (lit "2024-03-02"))])
                  (lit "error")) = false.
Proof.
  apply (race_timing_resolved
           (schedule_host (lit "timing")
              (VObject [(lit "race_start_date", VString (lit "2024-03-02"))]))
           sample_session
           (raceTiming := VObject [(lit "race_start_date",
                                    VString (lit "2024-03-02"))])).
  reflexivity.
Defined.

(** X13.  When the session is found, its circuit name is made and the
    layouts are searched without an exception, every rejection of the race
    timing fetch becomes the 500 page of the replay, whose message is the
    fixed prefix, a colon and the message of the error. *)
Theorem replay_fetch_failure (host : Host) (session_key : jsstring)
    (schedule layouts sessionInfo circuitName layout : value) (e : error) :
  readJSON host (path_join host [DATA_DIR host; lit "schedule.json"])
    = Normal schedule ->
  readJSON host (path_join host [DATA_DIR host; lit "track_layouts.json"])
    = Normal layouts ->
  find_opt schedule (session_matches session_key) = Normal sessionInfo ->
  truthy sessionInfo = true ->
  circuit_name host sessionInfo = Normal circuitName ->
  find_opt layouts (layout_matches circuitName) = Normal layout ->
  fetchRaceTimingFromPython host sessionInfo = Throw e ->
  replay_handler host session_key =
  Normal (Render 500 (lit "race-tracker")
            [(lit "session_key", VString session_key);
             (lit "driverDirectory", VObject []);
             (lit "sessionInfo", VNull);
             (lit "error",
              VString (MSG_PAGE_LOAD_ERROR ++ lit ": " ++ message_of host e));
             (lit "currentPage", VString (lit "schedule"))]).
Proof.
  intros Hs Hl Hf Ht Hc Hy He.
  destruct (readJSON_value host (path_join host [DATA_DIR host; lit "drivers.json"]))
    as [drivers Hd].
  destruct (readJSON_value host (path_join host [ROOT_DIR host; lit "f1_team.json"]))
    as [f1Teams Hteams].
  rewrite (replay_handler_found host session_key Hs Hl Hf Ht Hc Hy Hd Hteams), He.
  reflexivity.
Qed.

Lemma replay_fetch_failure_witness :
  replay_handler
    (table_host [(lit "/srv/public/data/schedule.json", sample_schedule_text)]
                [(sample_schedule_text, VArray [sample_session])]
                [] (fun _ => Child [] None))
    (lit "9158") =
  Normal (Render 500 (lit "race-tracker")
            [(lit "session_key", VString (lit "9158"));
             (lit "driverDirectory", VObject []);
             (lit "sessionInfo", VNull);
             (lit "error",
              VString (MSG_PAGE_LOAD_ERROR ++ lit ": "
                         ++ lit "Python script not found: /srv/get_replay_data.py"));
             (lit "currentPage", VString (lit "schedule"))]).
Proof.
  apply (replay_fetch_failure
           (table_host [(lit "/srv/public/data/schedule.json", sample_schedule_text)]
                       [(sample_schedule_text, VArray [sample_session])]
                       [] (fun _ => Child [] None))
           (lit "9158")
           (schedule := VArray [sample_session]) (layouts := VNull)
           (sessionInfo := sample_session)
           (circuitName := VString (lit "sakhir")) (layout := VUndefined)
           (e := Error (lit "Python script not found: /srv/get_replay_data.py")));
    reflexivity.
Defined.

(* ------------------------------------------------------------------ *)
(** ** The driver directory *)

Lemma team_colour_truthy (info : list (jsstring * value)) (key : jsstring) :
  truthy (team_colour info key) = true.
Proof.
  unfold team_colour, or_else.
  destruct (truthy (get_opt _ (lit "color"))) eqn:E; [exact E | reflexivity].
Qed.

Lemma assign_entries (P : value -> Prop) (k : jsstring) (x : value)
    (fields : list (jsstring * value)) :
  P x -> Forall (fun kv => P (snd kv)) fields ->
  Forall (fun kv => P (snd kv)) (assign k x fields).
Proof.
  intros Hx. induction 1 as [|[k' y] r Hy Hr IH]; simpl.
  - constructor; [exact Hx | constructor].
  - destruct (jsstring_eqb k' k); constructor; auto.
Qed.

Lemma directory_from_entries (info : list (jsstring * value)) (ds : list value)
    (dir0 dir : list (jsstring * value)) :
  Forall (fun kv => directory_entry (snd kv)) dir0 ->
  directory_from info ds dir0 = Normal dir ->
  Forall (fun kv => directory_entry (snd kv)) dir.
Proof.
  revert dir0; induction ds as [|d r IH]; intros dir0 H0; simpl.
  - now intros [= <-].
  - destruct (get d (lit "number")) as [number| |]; cbn [bind]; try discriminate.
    destruct (truthy number); [|now apply IH].
    destruct (get d (lit "full_name")) as [full_name| |]; cbn [bind];
      try discriminate.
    destruct (get d (lit "team_name")) as [team_name| |]; cbn [bind];
      try discriminate.
    destruct (ToString team_name) as [team_key'| |]; cbn [bind]; try discriminate.
    destruct (ToString number) as [key| |]; cbn [bind]; try discriminate.
    apply IH. apply assign_entries; [|exact H0].
    exists full_name, (team_colour info team_key'). split; [reflexivity|].
    apply team_colour_truthy.
Qed.

(** X14.  Every entry of the driver directory is an object with the two
    fields [full_name] and [team_colour], and its colour is never falsy:
    where the team is unknown or has no colour, it is '#FFFFFF'.  Without
    the drivers file or without the teams file the directory is empty. *)
Theorem driverDirectory_entries (drivers f1Teams directory : value) :
  driverDirectory drivers f1Teams = Normal directory ->
  exists entries,
    directory = VObject entries /\
    Forall (fun kv => directory_entry (snd kv)) entries /\
    (truthy drivers = false \/ truthy f1Teams = false -> entries = []).
Proof.
  unfold driverDirectory.
  destruct (truthy drivers) eqn:Td, (truthy f1Teams) eqn:Tt; cbn [andb];
    try (intros [= <-]; exists []; repeat split; auto; constructor).
  destruct (teamInfoMap f1Teams) as [info| |]; cbn [bind]; try discriminate.
  destruct drivers; try discriminate.
  destruct (directory_from info items []) as [dir| |] eqn:D; cbn [bind];
    try discriminate.
  intros [= <-]. exists dir. split; [reflexivity|]. split.
  - eapply directory_from_entries; [constructor | exact D].
  - intros [H|H]; discriminate.
Qed.

Lemma directory_from_app (info : list (jsstring * value)) (before rest : list value)
    (dir0 : list (jsstring * value)) :
  directory_from info (before ++ rest) dir0 =
  (mid <- directory_from info before dir0 ;; directory_from info rest mid).
Proof.
  revert dir0; induction before as [|d r IH]; intros dir0; simpl; [reflexivity|].
  destruct (get d (lit "number")) as [number| |]; cbn [bind]; try reflexivity.
  destruct (truthy number); [|apply IH].
  destruct (get d (lit "full_name")) as [full_name| |]; cbn [bind];
    try reflexivity.
  destruct (get d (lit "team_name")) as [team_name| |]; cbn [bind];
    try reflexivity.
  destruct (ToString team_name) as [tk| |]; cbn [bind]; try reflexivity.
  destruct (ToString number) as [key| |]; cbn [bind]; try reflexivity.
  apply IH.
Qed.

Lemma get_normal (v x : value) (k : jsstring) :
  get v k = Normal x -> x = read v k.
Proof. unfold get. destruct (nullish v); [discriminate|]. now intros [= <-]. Qed.

(** Drivers that do not have the key leave its entry as it was. *)
Lemma directory_from_other (info : list (jsstring * value)) (k : jsstring)
    (ds : list value) (dir0 dir : list (jsstring * value)) :
  Forall (fun d => has_directory_key k d = false) ds ->
  directory_from info ds dir0 = Normal dir ->
  lookup k dir = lookup k dir0.
Proof.
  intros H; revert dir0; induction H as [|d r Hd Hr IH]; intros dir0; simpl.
  - now intros [= <-].
  - destruct (get d (lit "number")) as [number| |] eqn:G; cbn [bind];
      try discriminate.
    apply get_normal in G. subst number.
    unfold has_directory_key, directory_key in Hd.
    destruct (truthy (read d (lit "number"))); [|apply IH].
    destruct (get d (lit "full_name")) as [full_name| |]; cbn [bind];
      try discriminate.
    destruct (get d (lit "team_name")) as [team_name| |]; cbn [bind];
      try discriminate.
    destruct (ToString team_name) as [tk| |]; cbn [bind]; try discriminate.
    destruct (ToString (read d (lit "number"))) as [key| |]; cbn [bind];
      try discriminate.
    intros D. rewrite (IH _ D), lookup_assign, Hd. reflexivity.
Qed.

(** X15.  The directory is keyed by the text of the driver's number, and
    the last driver of the file with a number wins: its entry is what the
    key gives, with its own name and the colour of its team.  A key that no
    driver with a truthy number has is not in the directory.  This is for
    the keys other than '__proto__', in files where no driver has the
    number '__proto__' and no team the name '__proto__': an assignment to
    that key sets the prototype of the object and makes no entry. *)
Theorem driverDirectory_lookup (drivers teams : list value)
    (info entries : list (jsstring * value)) (k : jsstring) :
  k <> lit "__proto__" ->
  Forall (fun d => has_directory_key (lit "__proto__") d = false) drivers ->
  Forall (fun t => has_team_key (lit "__proto__") t = false) teams ->
  teamInfoMap (VArray teams) = Normal info ->
  driverDirectory (VArray drivers) (VArray teams) = Normal (VObject entries) ->
  (forall before d after team_key',
      drivers = before ++ d :: after ->
      directory_key d = Some k ->
      Forall (fun x => has_directory_key k x = false) after ->
      ToString (read d (lit "team_name")) = Normal team_key' ->
      lookup k entries =
      Some (VObject [(lit "full_name", read d (lit "full_name"));
                     (lit "team_colour", team_colour info team_key')])) /\
  (Forall (fun x => has_directory_key k x = false) drivers ->
   lookup k entries = None).
Proof.
  intros _ _ _ Hi. unfold driverDirectory. rewrite Hi. cbn [truthy andb bind].
  destruct (directory_from info drivers []) as [dir| |] eqn:D; cbn [bind];
    try discriminate.
  intros [= <-]. split.
  - intros before d after tk -> Hk Ha Ht.
    rewrite directory_from_app in D.
    destruct (directory_from info before []) as [mid| |]; cbn [bind] in D;
      try discriminate.
    simpl in D.
    destruct (get d (lit "number")) as [number| |] eqn:G; cbn [bind] in D;
      try discriminate.
    apply get_normal in G. subst number.
    unfold directory_key in Hk.
    destruct (truthy (read d (lit "number"))); [|discriminate].
    destruct (get d (lit "full_name")) as [full_name| |] eqn:Gf; cbn [bind] in D;
      try discriminate.
    apply get_normal in Gf. subst full_name.
    destruct (get d (lit "team_name")) as [team_name| |] eqn:Gt; cbn [bind] in D;
      try discriminate.
    apply get_normal in Gt. subst team_name.
    rewrite Ht in D. cbn [bind] in D.
    destruct (ToString (read d (lit "number"))) as [key| |]; try discriminate.
    injection Hk as ->. cbn [bind] in D.
    rewrite (@directory_from_other info k after _ dir Ha D), lookup_assign,
      jsstring_eqb_refl.
    reflexivity.
  - intros H. now rewrite (@directory_from_other info k drivers [] dir H D).
Qed.

Lemma driverDirectory_entries_witness :
  driverDirectory (VArray sample_numbered_drivers) (VArray sample_f1_teams)
    = Normal (VObject sample_directory) /\
  Forall (fun kv => directory_entry (snd kv)) sample_directory.
Proof.
  split; [reflexivity|].
  destruct (@driverDirectory_entries (VArray sample_numbered_drivers)
              (VArray sample_f1_teams) (VObject sample_directory) eq_refl)
    as (entries & E & F & _).
  injection E as <-. exact F.
Defined.

Lemma driverDirectory_lookup_witness :
  lookup (lit "4") sample_directory =
    Some (VObject [(lit "full_name", VString (lit "Oscar Piastri"));
                   (lit "team_colour", VString (lit "#FF8000"))]) /\
  lookup (lit "0") sample_directory = None.
Proof.
  assert (Hd : Forall (fun d => has_directory_key (lit "__proto__") d = false)
                      sample_numbered_drivers) by (repeat constructor).
  assert (Ht : Forall (fun t => has_team_key (lit "__proto__") t = false)
                      sample_f1_teams) by (repeat constructor).
  split.
  - assert (Hk : lit "4" <> lit "__proto__") by discriminate.
    destruct (@driverDirectory_lookup sample_numbered_drivers
                sample_f1_teams sample_colours sample_directory
                (lit "4") Hk Hd Ht eq_refl eq_refl) as [H _].
    apply (H (firstn 3 sample_numbered_drivers)
             (VObject [(lit "full_name", VString (lit "Oscar Piastri"));
                       (lit "team_name", VString (lit "McLaren"));
                       (lit "number", VNumber (NonZero (lit "4")))])
             [] (lit "McLaren")); try reflexivity.
    constructor.
  - assert (Hk : lit "0" <> lit "__proto__") by discriminate.
    destruct (@driverDirectory_lookup sample_numbered_drivers
                sample_f1_teams sample_colours sample_directory
                (lit "0") Hk Hd Ht eq_refl eq_refl) as [_ H].
    apply H. repeat constructor.
Defined.

(* ------------------------------------------------------------------ *)
(** ** The colours of the teams *)

Lemma team_info_from_app (before rest : list value) (acc : list (jsstring * value)) :
  team_info_from (before ++ rest) acc =
  (mid <- team_info_from before acc ;; team_info_from rest mid).
Proof.
  revert acc; induction before as [|t r IH]; intros acc; simpl; [reflexivity|].
  destruct (get t (lit "name")) as [name| |]; cbn [bind]; try reflexivity.
  destruct (ToString name) as [key| |]; cbn [bind]; try reflexivity.
  destruct (get t (lit "teamColor")) as [colour| |]; cbn [bind]; try reflexivity.
  apply IH.
Qed.

Lemma team_info_from_other (k : jsstring) (teams : list value)
    (acc info : list (jsstring * value)) :
  Forall (fun t => has_team_key k t = false) teams ->
  team_info_from teams acc = Normal info ->
  lookup k info = lookup k acc.
Proof.
  intros H; revert acc; induction H as [|t r Ht Hr IH]; intros acc; simpl.
  - now intros [= <-].
  - destruct (get t (lit "name")) as [name| |] eqn:G; cbn [bind];
      try discriminate.
    apply get_normal in G. subst name.
    unfold has_team_key, team_key in Ht.
    destruct (ToString (read t (lit "name"))) as [key| |]; cbn [bind];
      try discriminate.
    destruct (get t (lit "teamColor")) as [colour| |]; cbn [bind];
      try discriminate.
    intros D. rewrite (IH _ D), lookup_assign, Ht. reflexivity.
Qed.

(** X16.  The colour table is keyed by the text of the team's name, and the
    last team of the file with a name wins.  The colour given to a driver
    of that team is the [teamColor] of that team when it is truthy, else
    '#FFFFFF'; for a name that no team has, it is '#FFFFFF'.  This is for
    the names other than '__proto__', in files where no team has the name
    '__proto__': an assignment to that key sets the prototype of the table
    and makes no entry. *)
Theorem teamInfoMap_lookup (teams : list value) (info : list (jsstring * value))
    (k : jsstring) :
  k <> lit "__proto__" ->
  Forall (fun t => has_team_key (lit "__proto__") t = false) teams ->
  teamInfoMap (VArray teams) = Normal info ->
  (forall before t after,
      teams = before ++ t :: after ->
      team_key t = Some k ->
      Forall (fun x => has_team_key k x = false) after ->
      lookup k info = Some (VObject [(lit "color", read t (lit "teamColor"))]) /\
      team_colour info k =
        or_else (read t (lit "teamColor")) (VString (lit "#FFFFFF"))) /\
  (Forall (fun x => has_team_key k x = false) teams ->
   lookup k info = None /\ team_colour info k = VString (lit "#FFFFFF")).
Proof.
  unfold teamInfoMap. intros _ _ D. split.
  - intros before t after -> Hk Ha.
    rewrite team_info_from_app in D.
    destruct (team_info_from before []) as [mid| |]; cbn [bind] in D;
      try discriminate.
    simpl in D.
    destruct (get t (lit "name")) as [name| |] eqn:G; cbn [bind] in D;
      try discriminate.
    apply get_normal in G. subst name.
    unfold team_key in Hk.
    destruct (ToString (read t (lit "name"))) as [key| |]; try discriminate.
    injection Hk as ->. cbn [bind] in D.
    destruct (get t (lit "teamColor")) as [colour| |] eqn:Gc; cbn [bind] in D;
      try discriminate.
    apply get_normal in Gc. subst colour.
    assert (L : lookup k info =
                Some (VObject [(lit "color", read t (lit "teamColor"))])).
    { rewrite (@team_info_from_other k after _ info Ha D), lookup_assign,
        jsstring_eqb_refl. reflexivity. }
    split; [exact L|]. unfold team_colour. rewrite L. reflexivity.
  - intros H.
    assert (L : lookup k info = None)
      by now rewrite (@team_info_from_other k teams [] info H D).
    split; [exact L|]. unfold team_colour. rewrite L. reflexivity.
Qed.

Lemma teamInfoMap_lookup_witness :
  team_colour sample_colours (lit "McLaren") = VString (lit "#FF8000") /\
  team_colour sample_colours (lit "Ferrari") = VString (lit "#FFFFFF") /\
  team_colour sample_colours (lit "Haas") = VString (lit "#FFFFFF").
Proof.
  assert (Ht : Forall (fun t => has_team_key (lit "__proto__") t = false)
                      sample_f1_teams) by (repeat constructor).
  split; [|split].
  - assert (Hk : lit "McLaren" <> lit "__proto__") by discriminate.
    destruct (@teamInfoMap_lookup sample_f1_teams sample_colours
                (lit "McLaren") Hk Ht eq_refl) as [H _].
    destruct (H [] (VObject [(lit "name", VString (lit "McLaren"));
                             (lit "teamColor", VString (lit "#FF8000"))])
                (skipn 1 sample_f1_teams) eq_refl eq_refl) as [_ C];
      [repeat constructor | exact C].
  - assert (Hk : lit "Ferrari" <> lit "__proto__") by discriminate.
    destruct (@teamInfoMap_lookup sample_f1_teams sample_colours
                (lit "Ferrari") Hk Ht eq_refl) as [H _].
    destruct (H (firstn 1 sample_f1_teams)
                (VObject [(lit "name", VString (lit "Ferrari"));
                          (lit "teamColor", VString [])])
                [] eq_refl eq_refl) as [_ C];
      [constructor | exact C].
  - assert (Hk : lit "Haas" <> lit "__proto__") by discriminate.
    destruct (@teamInfoMap_lookup sample_f1_teams sample_colours
                (lit "Haas") Hk Ht eq_refl) as [_ H].
    apply H. repeat constructor.
Defined.

(* ------------------------------------------------------------------ *)
(** ** The session object of the replay page *)

(** Decides the comparisons of literal names. *)
Ltac eval_eqb :=
  repeat match goal with
    | |- context [jsstring_eqb (lit ?a) (lit ?b)] =>
        let v := eval vm_compute in (jsstring_eqb (lit a) (lit b)) in
        change (jsstring_eqb (lit a) (lit b)) with v
    end.

Lemma lookup_merge_timing_at (k from to : jsstring) (raceTiming : value)
    (info : list (jsstring * value)) :
  lookup k (merge_timing raceTiming from to info) =
  if truthy (get_opt raceTiming from) && jsstring_eqb to k
  then Some (get_opt raceTiming from)
  else lookup k info.
Proof.
  unfold merge_timing.
  destruct (truthy (get_opt raceTiming from)); [|reflexivity].
  rewrite lookup_assign. reflexivity.
Qed.

(** X17.  The session object handed to the replay view holds the fields of
    the schedule entry, changed in five places only: [trackImageUrl] and
    [layout] are those the handler found, and [date_start],
    [race_end_date] and [race_control_messages] are replaced by the race
    timing's [race_start_date], [race_end_date] and [all_messages] where
    these are truthy, and left as the entry has them otherwise. *)
Theorem finalSessionInfo_fields (sessionInfo image layout raceTiming : value) :
  exists info,
    finalSessionInfo sessionInfo image layout raceTiming = VObject info /\
    lookup (lit "trackImageUrl") info = Some image /\
    lookup (lit "layout") info = Some layout /\
    lookup (lit "date_start") info =
      (if truthy (get_opt raceTiming (lit "race_start_date"))
       then Some (get_opt raceTiming (lit "race_start_date"))
       else lookup (lit "date_start") (own_properties sessionInfo)) /\
    lookup (lit "race_end_date") info =
      (if truthy (get_opt raceTiming (lit "race_end_date"))
       then Some (get_opt raceTiming (lit "race_end_date"))
       else lookup (lit "race_end_date") (own_properties sessionInfo)) /\
    lookup (lit "race_control_messages") info =
      (if truthy (get_opt raceTiming (lit "all_messages"))
       then Some (get_opt raceTiming (lit "all_messages"))
       else lookup (lit "race_control_messages") (own_properties sessionInfo)) /\
    (forall k, ~ In k replay_fields ->
               lookup k info = lookup k (own_properties sessionInfo)).
Proof.
  unfold finalSessionInfo. eexists. split; [reflexivity|].
  split; [|split; [|split; [|split; [|split]]]];
    try (rewrite !lookup_merge_timing_at, !lookup_assign; eval_eqb;
         rewrite ?andb_false_r, ?andb_true_r; reflexivity).
  intros k Hk.
  assert (N : forall f, In f replay_fields -> jsstring_eqb f k = false).
  { intros f Hf. apply jsstring_eqb_neq. intros ->. contradiction. }
  rewrite !lookup_merge_timing_at, !lookup_assign.
  rewrite !N by (unfold replay_fields; simpl; auto 6).
  rewrite !andb_false_r. reflexivity.
Qed.

(* ------------------------------------------------------------------ *)
(** ** The circuit name and the image *)

Lemma hyphenate_from_no_space (s : jsstring) (in_run : bool) :
  forallb no_space (hyphenate_from in_run s) = true.
Proof.
  revert in_run; induction s as [|c r IH]; intros in_run; simpl; [reflexivity|].
  destruct (is_space c) eqn:E.
  - destruct in_run; simpl; auto.
  - simpl. unfold no_space at 1. rewrite E. simpl. auto.
Qed.

(** X18.  The circuit name is made from [circuit_short_name] only when
    that is a string, and then it holds no white space; a missing or null
    short name gives no circuit name; and any other value (a number, a
    boolean, an array, an object) makes the handler raise a TypeError. *)
Theorem circuit_name_shape (host : Host) (sessionInfo : value) :
  nullish sessionInfo = false ->
  match read sessionInfo (lit "circuit_short_name") with
  | VUndefined | VNull => circuit_name host sessionInfo = Normal VUndefined
  | VString s =>
      circuit_name host sessionInfo
        = Normal (VString (hyphenate_spaces (toLowerCase host s))) /\
      forallb no_space (hyphenate_spaces (toLowerCase host s)) = true /\
      (forallb is_ascii s = true ->
       toLowerCase host s = map ascii_lower s)
  | other =>
      circuit_name host sessionInfo
        = Throw (TypeError (NotAFunction other (lit "toLowerCase")))
  end.
Proof.
  intros Hn. unfold circuit_name.
  rewrite (get_not_nullish sessionInfo _ Hn). cbn [bind].
  destruct (read sessionInfo (lit "circuit_short_name")); try reflexivity.
  split; [reflexivity|]. split; [apply hyphenate_from_no_space|].
  intros Ha. unfold toLowerCase. now rewrite Ha.
Qed.

Lemma circuit_name_shape_witness :
  circuit_name bare_host
    (VObject [(lit "circuit_short_name", VString (lit "Yas Marina  Circuit"))])
    = Normal (VString (lit "yas-marina-circuit")) /\
  circuit_name bare_host
    (VObject [(lit "circuit_short_name", VNumber (NonZero (lit "7")))])
    = Throw (TypeError (NotAFunction (VNumber (NonZero (lit "7")))
                                     (lit "toLowerCase"))).
Proof.
  split.
  - apply (circuit_name_shape bare_host
             (VObject [(lit "circuit_short_name",
                        VString (lit "Yas Marina  Circuit"))])).
    reflexivity.
  - apply (circuit_name_shape bare_host
             (VObject [(lit "circuit_short_name", VNumber (NonZero (lit "7")))])).
    reflexivity.
Defined.

(** X19.  The replay page never links to an image that does not exist:
    the image URL is null, or it is '/images/tracks/' followed by the
    circuit name, a dot and one of the five extensions, and the file of
    that name exists in the tracks directory. *)
Theorem trackImageUrl_sound (host : Host) (circuitName : value) :
  trackImageUrl host circuitName = VNull \/
  exists name ext,
    circuitName = VString name /\ name <> [] /\
    In ext possibleExtensions /\
    image_exists host name ext = true /\
    trackImageUrl host circuitName = image_url name ext.
Proof.
  destruct circuitName as [| | | |[|c s]| |]; try (left; reflexivity).
  cbn [trackImageUrl]. rewrite first_image_find.
  destruct (List.find _ possibleExtensions) as [ext|] eqn:F; [|left; reflexivity].
  apply find_some in F as [Hin Hex].
  right. exists (c :: s), ext. repeat split; auto. discriminate.
Qed.

(* ------------------------------------------------------------------ *)
(** ** GET /api/locations of f1api.js *)

(** X20.  For a session that the schedule holds, the locations endpoint
    answers 500 with a fixed message when the year, the event name or the
    session name is falsy, and 500 with another fixed message when the
    script file is missing; otherwise it runs the script on the year, the
    event, the session and the two times, and answers 200 with the parsed
    output, or 500 with the message of the error when the script fails or
    its output is not valid JSON. *)
Theorem locations_outcomes (host : Host)
    (session_key startTime endTime : jsstring)
    (schedule sessionInfo year : value) :
  let scriptPath := path_join host [ROOT_DIR host; lit "get_driver_locations.py"] in
  let eventName := read sessionInfo (lit "meeting_name") in
  let sessionName := read sessionInfo (lit "session_name") in
  let failure message :=
    json_error 500
      (lit "Internal server error while fetching locations: " ++ message) in
  readJSON host (path_join host [DATA_DIR host; lit "schedule.json"])
    = Normal schedule ->
  find_opt schedule (session_matches session_key) = Normal sessionInfo ->
  truthy sessionInfo = true ->
  year_of_session host sessionInfo = Normal year ->
  (truthy year = false \/ truthy eventName = false \/ truthy sessionName = false ->
   locations_handler host session_key startTime endTime =
   Normal (json_error 500 (lit "Incomplete session data to fetch locations."))) /\
  (truthy year = true -> truthy eventName = true -> truthy sessionName = true ->
   (existsSync host scriptPath = false ->
    locations_handler host session_key startTime endTime =
    Normal (json_error 500 MSG_SCRIPT_MISSING)) /\
   (forall yearText,
       ToString year = Normal yearText ->
       existsSync host scriptPath = true ->
       let args := [VString yearText; eventName; sessionName;
                    VString startTime; VString endTime] in
       (forall output body,
           runPython host scriptPath args = Normal output ->
           JSON_parse host output = Some body ->
           locations_handler host session_key startTime endTime =
           Normal (Json 200 body)) /\
       (forall output,
           runPython host scriptPath args = Normal output ->
           JSON_parse host output = None ->
           locations_handler host session_key startTime endTime =
           Normal (failure (syntax_error_message host output))) /\
       (forall e,
           runPython host scriptPath args = Throw e ->
           locations_handler host session_key startTime endTime =
           Normal (failure (message_of host e))))).
Proof.
  intros scriptPath eventName sessionName failure Hs Hf Ht Hy.
  assert (Hn : nullish sessionInfo = false)
    by (destruct sessionInfo; simpl in *; congruence).
  unfold locations_handler. fold scriptPath.
  rewrite Hs. cbn [bind]. rewrite Hf. cbn [bind]. rewrite Ht. cbn [negb].
  rewrite Hy. cbn [bind].
  rewrite !(get_not_nullish sessionInfo _ Hn). cbn [bind].
  fold eventName. fold sessionName.
  split.
  - intros H.
    assert (B : negb (truthy year) || negb (truthy eventName)
                || negb (truthy sessionName) = true).
    { destruct H as [-> | [-> | ->]]; simpl; rewrite ?orb_true_r; reflexivity. }
    rewrite B. reflexivity.
  - intros Ty Te Tn. rewrite Ty, Te, Tn. cbn [negb orb].
    split.
    + intros He. rewrite He. reflexivity.
    + intros yearText Hyt He. rewrite He, Hyt. cbn [negb bind].
      split; [|split].
      * intros output body Hr Hp. rewrite Hr. cbn [bind].
        unfold parse. rewrite Hp. reflexivity.
      * intros output Hr Hp. rewrite Hr. cbn [bind].
        unfold parse. rewrite Hp. reflexivity.
      * intros e Hr. rewrite Hr. reflexivity.
Qed.

Lemma locations_outcomes_witness :
  locations_handler
    (schedule_host (lit "[]") (VArray [])) (lit "9158") (lit "0") (lit "10")
    = Normal (Json 200 (VArray [])) /\
  locations_handler
    (table_host [(lit "/srv/public/data/schedule.json", sample_schedule_text)]
                [(sample_schedule_text, VArray [sample_session])]
                [] (fun _ => Child [] None))
    (lit "9158") (lit "0") (lit "10")
    = Normal (json_error 500 MSG_SCRIPT_MISSING).
Proof.
  split.
  - destruct (@locations_outcomes (schedule_host (lit "[]") (VArray []))
                (lit "9158") (lit "0") (lit "10")
                (VArray [sample_session]) sample_session
                (VNumber (NonZero (lit "2024")))
                eq_refl eq_refl eq_refl eq_refl) as [_ H].
    destruct (H eq_refl eq_refl eq_refl) as [_ K].
    destruct (K (lit "2024") eq_refl eq_refl) as [R _].
    apply (R (lit "[]") (VArray [])); reflexivity.
  - destruct (@locations_outcomes
                (table_host [(lit "/srv/public/data/schedule.json",
                              sample_schedule_text)]
                   [(sample_schedule_text, VArray [sample_session])]
                   [] (fun _ => Child [] None))
                (lit "9158") (lit "0") (lit "10")
                (VArray [sample_session]) sample_session
                (VNumber (NonZero (lit "2024")))
                eq_refl eq_refl eq_refl eq_refl) as [_ H].
    destruct (H eq_refl eq_refl eq_refl) as [K _].
    apply K. reflexivity.
Defined.

(* ------------------------------------------------------------------ *)
(** ** More on slugs *)

Lemma drop_spaces_app (x w : jsstring) :
  drop_spaces (x ++ w) =
  match drop_spaces x with
  | [] => drop_spaces w
  | d => d ++ w
  end.
Proof.
  induction x as [|c r IH]; simpl; [destruct (drop_spaces w); reflexivity|].
  destruct (is_space c); [exact IH | reflexivity].
Qed.

Lemma trim_margins (ws x ws' : jsstring) :
  forallb is_space ws = true -> forallb is_space ws' = true ->
  trim (ws ++ x ++ ws') = trim x.
Proof.
  intros H H'. unfold trim. rewrite (drop_spaces_spaces_app ws _ H).
  rewrite drop_spaces_app. destruct (drop_spaces x) as [|c r] eqn:E.
  - now rewrite (drop_spaces_all ws' H').
  - rewrite rev_app_distr.
    rewrite drop_spaces_spaces_app by now rewrite forallb_rev.
    reflexivity.
Qed.

Lemma ascii_lower_ascii (c : N) : is_ascii c = true -> is_ascii (ascii_lower c) = true.
Proof.
  unfold ascii_lower.
  destruct ((65 <=? c)%N && (c <=? 90)%N) eqn:E; [|auto].
  intros _. classes. apply N.ltb_lt. lia.
Qed.

Lemma ascii_lower_idempotent (c : N) : ascii_lower (ascii_lower c) = ascii_lower c.
Proof.
  unfold ascii_lower.
  destruct ((65 <=? c)%N && (c <=? 90)%N) eqn:E.
  - destruct ((65 <=? c + 32)%N && (c + 32 <=? 90)%N) eqn:E2; [|reflexivity].
    classes. lia.
  - now rewrite E.
Qed.

Lemma ascii_lower_space (c : N) : is_space c = true -> ascii_lower c = c.
Proof.
  intros H. unfold ascii_lower.
  destruct ((65 <=? c)%N && (c <=? 90)%N) eqn:E; [|reflexivity].
  classes; lia.
Qed.

Lemma map_lower_spaces (ws : jsstring) :
  forallb is_space ws = true -> map ascii_lower ws = ws.
Proof.
  induction ws as [|c r IH]; simpl; [reflexivity|].
  intros H. apply andb_true_iff in H as [Hc Hr].
  rewrite (ascii_lower_space c Hc). f_equal. auto.
Qed.

Lemma toLowerCase_ascii (host : Host) (s : jsstring) :
  forallb is_ascii s = true -> toLowerCase host s = map ascii_lower s.
Proof. intros H. unfold toLowerCase. now rewrite H. Qed.

Lemma drop_spaces_length (s : jsstring) :
  (List.length (drop_spaces s) <= List.length s)%nat.
Proof.
  induction s as [|c r IH]; simpl; [lia|].
  destruct (is_space c); simpl; lia.
Qed.

Lemma hyphenate_from_length (s : jsstring) (in_run : bool) :
  (List.length (hyphenate_from in_run s) <= List.length s)%nat.
Proof.
  revert in_run; induction s as [|c r IH]; intros in_run; simpl; [lia|].
  pose proof (IH true) as Ht. pose proof (IH false) as Hf.
  destruct (is_space c); [destruct in_run|]; simpl; lia.
Qed.

(** X21.  On ASCII text the slug ignores the case of the letters and the
    white space around the text, and it is never longer than the text. *)
Theorem slug_ignores_case_and_margins (host : Host) (ws t ws' : jsstring) :
  forallb is_ascii t = true ->
  forallb is_space ws = true -> forallb is_ascii ws = true ->
  forallb is_space ws' = true -> forallb is_ascii ws' = true ->
  slug_of_text host (ws ++ t ++ ws') = slug_of_text host t /\
  slug_of_text host (map ascii_lower t) = slug_of_text host t /\
  (List.length (slug_of_text host t) <= List.length t)%nat.
Proof.
  intros Ht Hs Ha Hs' Ha'.
  assert (Hl : forallb is_ascii (map ascii_lower t) = true).
  { clear -Ht. induction t as [|c r IH]; simpl in *; [reflexivity|].
    apply andb_true_iff in Ht as [Hc Hr].
    now rewrite (ascii_lower_ascii c Hc), IH. }
  unfold slug_of_text. split; [|split].
  - rewrite (toLowerCase_ascii host (ws ++ t ++ ws'))
      by now rewrite !forallb_app, Ha, Ht, Ha'.
    rewrite (toLowerCase_ascii host t Ht), !map_app.
    rewrite (map_lower_spaces ws Hs), (map_lower_spaces ws' Hs').
    now rewrite trim_margins.
  - rewrite (toLowerCase_ascii host _ Hl), (toLowerCase_ascii host t Ht).
    rewrite map_map.
    rewrite (map_ext _ _ (fun c => ascii_lower_idempotent c)). reflexivity.
  - rewrite (toLowerCase_ascii host t Ht). unfold hyphenate_spaces, strip_unsafe, trim.
    pose proof (hyphenate_from_length
                  (filter is_kept
                     (rev (drop_spaces (rev (drop_spaces (map ascii_lower t))))))
                  false) as H1.
    pose proof (filter_length_le is_kept
                  (rev (drop_spaces (rev (drop_spaces (map ascii_lower t))))))
      as H2.
    pose proof (drop_spaces_length (rev (drop_spaces (map ascii_lower t)))) as H3.
    pose proof (drop_spaces_length (map ascii_lower t)) as H4.
    rewrite length_rev in H2. rewrite length_rev in H3.
    rewrite length_map in H4. lia.
Qed.

Lemma slug_ignores_case_and_margins_witness :
  slug_of_text bare_host (lit "  Lando NORRIS" ++ [9%N]) =
  slug_of_text bare_host (lit "Lando NORRIS").
Proof.
  apply (slug_ignores_case_and_margins bare_host (lit "  ") (lit "Lando NORRIS")
           [9%N]); reflexivity.
Defined.

(* ------------------------------------------------------------------ *)
(** ** The page of a driver *)

(** X22.  For a driver with a name, the page degrades unevenly: without a
    readable statistics file it is still rendered, with empty season and
    career and with the description that the table of descriptions holds
    for the name when that is truthy, else with the default text; without
    the descriptions file the lookup of the description raises a
    TypeError.  The table is a plain object, and a name it has no entry for
    is not the name of a member that every object inherits. *)
Theorem driver_detail_page_degrades (host : Host) (d : value) (name : jsstring) :
  nullish d = false ->
  read d (lit "full_name") = VString name ->
  (forall fields,
      readJSON host (path_join host [DATA_DIR host; lit "driver_descriptions.json"])
        = Normal (VObject fields) ->
      (lookup name fields = None -> ~ In name object_prototype_names) ->
      unreadable host
        (path_join host [DATA_DIR host; lit "stats";
                         slug_of_text host name ++ lit ".json"]) ->
      driver_detail_page host d =
      Normal (Render 200 (lit "driver-detail")
                [(lit "info", d);
                 (lit "description",
                  match lookup name fields with
                  | Some text =>
                      if truthy text then text else VString MSG_NO_DESCRIPTION
                  | None => VString MSG_NO_DESCRIPTION
                  end);
                 (lit "season", VObject []); (lit "career", VObject []);
                 (lit "error", VNull);
                 (lit "currentPage", VString (lit "drivers"))])) /\
  (readJSON host (path_join host [DATA_DIR host; lit "driver_descriptions.json"])
     = Normal VNull ->
   driver_detail_page host d = Throw (TypeError (ReadOfNullish VNull name))).
Proof.
  intros Hn Hname. unfold driver_detail_page.
  rewrite (get_not_nullish d _ Hn), Hname. split.
  - intros fields Hd _ Hu. rewrite Hd. cbn [bind ToString].
    rewrite (get_not_nullish (VObject fields) name eq_refl). cbn [bind].
    rewrite slugify_text. cbn [bind].
    rewrite (readJSON_unreadable Hu).
    unfold read, or_else. cbn [own_properties length_of].
    destruct (lookup name fields) as [text|]; reflexivity.
  - intros Hd. rewrite Hd. reflexivity.
Qed.

Lemma driver_detail_page_degrades_witness :
  driver_detail_page drivers_host
    (VObject [(lit "full_name", VString (lit "Lando Norris"))]) =
  Normal (Render 200 (lit "driver-detail")
            [(lit "info", VObject [(lit "full_name", VString (lit "Lando Norris"))]);
             (lit "description", VString MSG_NO_DESCRIPTION);
             (lit "season", VObject []); (lit "career", VObject []);
             (lit "error", VNull);
             (lit "currentPage", VString (lit "drivers"))]) /\
  driver_detail_page
    (table_host
       [(lit "/srv/public/data/driver_descriptions.json",
         object_text (lit "Lando Norris") (quoted (lit "British driver")))]
       [(object_text (lit "Lando Norris") (quoted (lit "British driver")),
         VObject [(lit "Lando Norris", VString (lit "British driver"))])]
       [] (fun _ => Child [] None))
    (VObject [(lit "full_name", VString (lit "Lando Norris"))]) =
  Normal (Render 200 (lit "driver-detail")
            [(lit "info", VObject [(lit "full_name", VString (lit "Lando Norris"))]);
             (lit "description", VString (lit "British driver"));
             (lit "season", VObject []); (lit "career", VObject []);
             (lit "error", VNull);
             (lit "currentPage", VString (lit "drivers"))]).
Proof.
  split.
  - destruct (@driver_detail_page_degrades drivers_host
                (VObject [(lit "full_name", VString (lit "Lando Norris"))])
                (lit "Lando Norris") eq_refl eq_refl) as [H _].
    apply (H []); [reflexivity | | left; reflexivity].
    intros _ K. vm_compute in K. intuition discriminate.
  - destruct (@driver_detail_page_degrades
                (table_host
                   [(lit "/srv/public/data/driver_descriptions.json",
                     object_text (lit "Lando Norris") (quoted (lit "British driver")))]
                   [(object_text (lit "Lando Norris") (quoted (lit "British driver")),
                     VObject [(lit "Lando Norris", VString (lit "British driver"))])]
                   [] (fun _ => Child [] None))
                (VObject [(lit "full_name", VString (lit "Lando Norris"))])
                (lit "Lando Norris") eq_refl eq_refl) as [H _].
    apply (H [(lit "Lando Norris", VString (lit "British driver"))]);
      [reflexivity | | left; reflexivity].
    intros K. vm_compute in K. discriminate.
Defined.
